(** * OpenJournal (Personaplex): a shallow embedding of the voice session
      orchestrator, the audio codec and the backend credential guards.

    Part I holds the embedding, one module per source unit:
    - [JsString]: the fragment of JavaScript strings the session uses
      ([trim], [join], truthiness);
    - [Codec]: [float32ToPcmBase64], [createSilentPcmBase64]
      (usePersonaplexSession) and [audioBufferToWav] (the WAV helper);
    - [Api]: the six serverless handlers, up to their first upstream call;
    - [Session]: the hook [usePersonaplexSession] as an event-driven
      state machine, one function per callback;
    - [WavBase64]: [blobToWavBase64] and [arrayBufferToBase64];
    - [Turns]: observations on the transcript and the sockets of a session;
    - [Journal]: the journal history [useJournalHistory];
    - [Page]: the page [Personaplex] with its [ConnectButton];
    - [Upstream]: the six handlers after their upstream call;
    - [Client]: [fetchInterviewerQuestion], [fetchVoiceAudio],
      [fetchScribeToken] and the gallery's [fetchReformattedEntry];
    - [Router]: the development server [scripts/api-server.ts].
    Part II holds the properties. *)

From stdpp Require Import gmap list.
From Stdlib Require Import ZArith QArith Qround Qabs Lia Lqa Ascii String DecimalString.

Set Primitive Projections.


(* ===================================================================== *)
(** * Part I. The embedding *)
(* ===================================================================== *)

(** ** JavaScript strings *)

Module JsString.

(** A JavaScript string is a finite sequence of UTF-16 code units. *)
Definition jsstring : Type := list N.

(** An ASCII literal as a JavaScript string. *)
Definition lit (s : string) : jsstring := map N_of_ascii (list_ascii_of_string s).

(** The code units [String.prototype.trim] strips: ECMAScript WhiteSpace
    (TAB, VT, FF, SP, NBSP, ZWNBSP and the Unicode category Zs) and
    LineTerminator (LF, CR, LS, PS). *)
Definition isWhiteSpace (c : N) : bool :=
  ((9 <=? c) && (c <=? 13) || (c =? 32) || (c =? 160) || (c =? 5760)
   || (8192 <=? c) && (c <=? 8202) || (c =? 8232) || (c =? 8233)
   || (c =? 8239) || (c =? 8287) || (c =? 12288) || (c =? 65279))%N.

Fixpoint trimStart (s : jsstring) : jsstring :=
  match s with
  | [] => []
  | c :: r => if isWhiteSpace c then trimStart r else s
  end.

Definition trimEnd (s : jsstring) : jsstring := rev (trimStart (rev s)).

(** [s.trim()] *)
Definition trim (s : jsstring) : jsstring := trimEnd (trimStart s).

(** A string in a condition: the empty string is the only falsy one. *)
Definition truthy (s : jsstring) : bool :=
  match s with [] => false | _ => true end.

(** [l.join(sep)] *)
Fixpoint join (sep : jsstring) (l : list jsstring) : jsstring :=
  match l with
  | [] => []
  | [x] => x
  | x :: r => x ++ sep ++ join sep r
  end.

Definition eqb (a b : jsstring) : bool := bool_decide (a = b).

(** The first character of a string is one that [trim] keeps. *)
Definition headKept (s : jsstring) : bool :=
  match s with
  | [] => false
  | c :: _ => negb (isWhiteSpace c)
  end.

(** Both ends of the string are kept by [trim]. *)
Definition clean (s : jsstring) : Prop := headKept s = true /\ headKept (rev s) = true.

End JsString.

(** ** Audio codec *)

Module Codec.

(** *** Numbers

    A JavaScript number that is finite is the rational it denotes.  Every
    arithmetic operation of the source is the exact operation followed by
    rounding to binary64; the rounding is the parameter [fl64] below, so
    that nothing proved here rests on an idealised arithmetic.  A store
    into a [Float32Array] rounds to binary32 ([fl32]). *)

Definition pow2 (e : Z) : Q :=
  if (0 <=? e)%Z then inject_Z (2 ^ e) else / inject_Z (2 ^ (- e)).

(** [q] is a finite binary32 value: 24 significant bits, exponent of the
    last place between -149 and 104. *)
Definition is_binary32 (q : Q) : Prop :=
  exists m e : Z, (Z.abs m < 2 ^ 24)%Z /\ (-149 <= e <= 104)%Z /\ q == inject_Z m * pow2 e.

(** [q] is a finite binary64 value: 53 significant bits, exponent of the
    last place between -1074 and 971. *)
Definition is_binary64 (q : Q) : Prop :=
  exists m e : Z, (Z.abs m < 2 ^ 53)%Z /\ (-1074 <= e <= 971)%Z /\ q == inject_Z m * pow2 e.

Definition Qltb (x y : Q) : bool := negb (Qle_bool y x).

(** Truncation toward zero, the first step of every ToIntN conversion. *)
Definition Qtrunc (x : Q) : Z := if Qle_bool 0 x then Qfloor x else Qceiling x.

(** ECMAScript ToInt16, ToUint16 and ToUint32 on a finite number. *)
Definition ToInt16 (x : Q) : Z :=
  let i := (Qtrunc x mod 65536)%Z in if (32768 <=? i)%Z then (i - 65536)%Z else i.

Definition ToUint16 (x : Q) : Z := (Qtrunc x mod 65536)%Z.

Definition ToUint32 (x : Q) : Z := (Qtrunc x mod 4294967296)%Z.

(** [Math.min] and [Math.max] on finite numbers. *)
Definition Math_min (a b : Q) : Q := if Qle_bool a b then a else b.
Definition Math_max (a b : Q) : Q := if Qle_bool a b then b else a.

(** [Math.max(-1, Math.min(1, x))] *)
Definition clamp (x : Q) : Q := Math_max (-1) (Math_min 1 x).

(** *** Bytes *)

(** Little-endian bytes of a 16-bit and of a 32-bit pattern, as
    [DataView.setUint16/setInt16/setUint32(.., true)] and, on a
    little-endian platform, the [Uint8Array] view of an [Int16Array]
    buffer lay them out. *)
Definition le16 (v : Z) : list Z := [v mod 256; (v / 256) mod 256]%Z.

Definition le32 (v : Z) : list Z :=
  [v mod 256; (v / 256) mod 256; (v / 65536) mod 256; (v / 16777216) mod 256]%Z.

(** [writeString]: one byte per character code. *)
Definition writeString (s : string) : list Z :=
  map (fun c => Z.of_N (N_of_ascii c)) (list_ascii_of_string s).

(** *** base64 ([btoa], RFC 4648 with padding) *)

Definition alphabet : string :=
  "ABCDEFGHIJKLMNOPQRSTUVWXYZabcdefghijklmnopqrstuvwxyz0123456789+/".

Definition b64 (n : Z) : ascii :=
  match String.get (Z.to_nat n) alphabet with
  | Some c => c
  | None => "="%char
  end.

Fixpoint btoa (bytes : list Z) : string :=
  match bytes with
  | [] => EmptyString
  | [a] =>
      String (b64 (a / 4)) (String (b64 (a mod 4 * 16)) "==")
  | [a; b] =>
      String (b64 (a / 4)) (String (b64 (a mod 4 * 16 + b / 16))
        (String (b64 (b mod 16 * 4)) "="))
  | a :: b :: c :: r =>
      String (b64 (a / 4)) (String (b64 (a mod 4 * 16 + b / 16))
        (String (b64 (b mod 16 * 4 + c / 64)) (String (b64 (c mod 64)) (btoa r))))
  end%Z.

Section Floats.

(** Rounding of an exact result to binary64 and to binary32. *)
Variable fl64 : Q -> Q.
Variable fl32 : Q -> Q.

(** *** PCM quantisation

    [const s = Math.max(-1, Math.min(1, x)); s < 0 ? s * 0x8000 : s * 0x7fff],
    then the store into an [Int16Array] (or [setInt16]) applies ToInt16. *)
Definition scale (x : Q) : Q :=
  let s := clamp x in
  if Qltb s 0 then fl64 (s * 32768) else fl64 (s * 32767).

Definition quantize (x : Q) : Z := ToInt16 (scale x).

(** *** [float32ToPcmBase64] *)

(** A rate argument in a condition: [undefined] and [0] are falsy. *)
Definition truthyRate (r : option Q) : bool :=
  match r with
  | Some q => negb (Qeq_bool q 0)
  | None => false
  end.

(** [a[i] ?? 0] for a number index. *)
Definition at0 (a : list Q) (i : Z) : Q :=
  if (i <? 0)%Z then 0 else nth (Z.to_nat i) a 0.

(** The linear resampling loop.  [None] is the [RangeError] that
    [new Float32Array(outLen)] raises on a negative length. *)
Definition resample (float32 : list Q) (targetRate sourceRate : Q) : option (list Q) :=
  let len := Z.of_nat (List.length float32) in
  let ratio := fl64 (sourceRate / targetRate) in
  let outLen := Qfloor (fl64 (inject_Z len / ratio)) in
  if (outLen <? 0)%Z then None
  else Some (map (fun k : nat =>
    let i := Z.of_nat k in
    let srcIdx := fl64 (inject_Z i * ratio) in
    let lo := Qfloor srcIdx in
    let hi := Z.min (lo + 1) (len - 1) in
    let frac := fl64 (srcIdx - inject_Z lo) in
    fl32 (fl64 (fl64 (at0 float32 lo * fl64 (1 - frac)) + fl64 (at0 float32 hi * frac))))
    (seq 0 (Z.to_nat outLen))).

Definition float32ToPcmBase64
    (float32 : list Q) (targetRate sourceRate : option Q) : option string :=
  let samples :=
    match targetRate, sourceRate with
    | Some t, Some s =>
        if truthyRate targetRate && truthyRate sourceRate && negb (Qeq_bool t s)
        then resample float32 t s
        else Some float32
    | _, _ => Some float32
    end in
  match samples with
  | None => None
  | Some samples =>
      let pcm := map quantize samples in
      let bytes := flat_map le16 pcm in
      Some (btoa bytes)
  end.

(** *** [audioBufferToWav] *)

(** A Web Audio [AudioBuffer]: [frames] is its [length] attribute and
    [channels] holds what [getChannelData] returns per channel. *)
Record AudioBuffer := {
  sampleRate : Q;
  frames : nat;
  channels : list (list Q);
}.

Definition numberOfChannels (ab : AudioBuffer) : nat := List.length (channels ab).

Definition getChannelData (ab : AudioBuffer) (c : nat) : list Q := nth c (channels ab) [].

(** What the API guarantees of a buffer: at least one channel, and
    [frames] samples in each. *)
Definition wf_AudioBuffer (ab : AudioBuffer) : Prop :=
  channels ab <> [] /\ Forall (fun ch => List.length ch = frames ab) (channels ab).

(** [right ? (left[i]! + right[i]!) / 2 : left[i]!]; [None] is the NaN an
    index past the end of a channel would give. *)
Definition mixed (ab : AudioBuffer) (i : nat) : option Q :=
  let left := getChannelData ab 0 in
  if (1 <? numberOfChannels ab)%nat then
    match nth_error left i, nth_error (getChannelData ab 1) i with
    | Some l, Some r => Some (fl64 (fl64 (l + r) / 2))
    | _, _ => None
    end
  else nth_error left i.

(** The 16-bit sample stored for frame [i]; NaN clamps to NaN, scales to
    NaN and is stored as 0. *)
Definition wavSample (ab : AudioBuffer) (i : nat) : Z :=
  match mixed ab i with
  | Some m => quantize m
  | None => 0%Z
  end.

Definition wavHeader (ab : AudioBuffer) : list Z :=
  let numChannels := 1 in
  let format := 1 in
  let bitDepth := 16 in
  let bytesPerSample := bitDepth / 8 in
  let blockAlign := numChannels * bytesPerSample in
  let byteRate := fl64 (sampleRate ab * blockAlign) in
  let dataSize := inject_Z (Z.of_nat (frames ab)) * blockAlign in
  writeString "RIFF" ++ le32 (ToUint32 (36 + dataSize))
  ++ writeString "WAVE" ++ writeString "fmt "
  ++ le32 (ToUint32 16)
  ++ le16 (ToUint16 format) ++ le16 (ToUint16 numChannels)
  ++ le32 (ToUint32 (sampleRate ab)) ++ le32 (ToUint32 byteRate)
  ++ le16 (ToUint16 blockAlign) ++ le16 (ToUint16 bitDepth)
  ++ writeString "data" ++ le32 (ToUint32 dataSize).

Definition audioBufferToWav (ab : AudioBuffer) : list Z :=
  wavHeader ab ++ flat_map (fun i => le16 (wavSample ab i)) (seq 0 (frames ab)).

End Floats.

(** [createSilentPcmBase64(numSamples)]: a zero-filled [Int16Array]. *)
Definition createSilentPcmBase64 (numSamples : nat) : string :=
  btoa (flat_map le16 (repeat 0%Z numSamples)).

(** *** Decoders used to state the round trips *)

Fixpoint index_of (c : ascii) (s : string) (i : Z) : option Z :=
  match s with
  | EmptyString => None
  | String d r => if Ascii.eqb c d then Some i else index_of c r (i + 1)%Z
  end.

Definition b64_index (c : ascii) : option Z := index_of c alphabet 0.

Definition is_pad (c : ascii) : bool := Ascii.eqb c "=".

(** Standard base64 decoding (what [atob] computes on [btoa]'s output). *)
Fixpoint atob (s : string) : option (list Z) :=
  match s with
  | EmptyString => Some []
  | String c0 (String c1 (String c2 (String c3 r))) =>
      match b64_index c0, b64_index c1 with
      | Some v0, Some v1 =>
          let b0 := (v0 * 4 + v1 / 16)%Z in
          if is_pad c2 then
            match r with
            | EmptyString => if is_pad c3 then Some [b0] else None
            | _ => None
            end
          else
            match b64_index c2 with
            | Some v2 =>
                let b1 := (v1 mod 16 * 16 + v2 / 4)%Z in
                if is_pad c3 then
                  match r with
                  | EmptyString => Some [b0; b1]
                  | _ => None
                  end
                else
                  match b64_index c3 with
                  | Some v3 =>
                      let b2 := (v2 mod 4 * 64 + v3)%Z in
                      option_map (fun t => b0 :: b1 :: b2 :: t) (atob r)
                  | None => None
                  end
            | None => None
            end
      | _, _ => None
      end
  | _ => None
  end.

(** Ranges of a base64 digit, a byte and a signed 16-bit sample. *)
Definition sextet (n : Z) : Prop := (0 <= n < 64)%Z.
Definition byte (b : Z) : Prop := (0 <= b < 256)%Z.
Definition int16 (v : Z) : Prop := (-32768 <= v <= 32767)%Z.

(** Signed 16-bit value of a little-endian byte pair. *)
Definition int16_of_le (lo hi : Z) : Z :=
  let u := (lo + 256 * hi)%Z in if (32768 <=? u)%Z then (u - 65536)%Z else u.

Fixpoint pcm_of_bytes (bytes : list Z) : option (list Z) :=
  match bytes with
  | [] => Some []
  | lo :: hi :: r => option_map (cons (int16_of_le lo hi)) (pcm_of_bytes r)
  | _ => None
  end.

(** The PCM samples a receiver reads out of a base64 chunk. *)
Definition decodePcmBase64 (s : string) : option (list Z) :=
  match atob s with
  | Some bytes => pcm_of_bytes bytes
  | None => None
  end.

(** The sample a 16-bit value stands for, inverting the two scale factors. *)
Definition dequantize (v : Z) : Q :=
  if (v <? 0)%Z then inject_Z v / 32768 else inject_Z v / 32767.

(** Unsigned value of little-endian bytes. *)
Fixpoint le_value (bytes : list Z) : Z :=
  match bytes with
  | [] => 0
  | b :: r => b + 256 * le_value r
  end%Z.

(** [n] bytes of [l] from offset [off]. *)
Definition slice (off n : nat) (l : list Z) : list Z := firstn n (skipn off l).

(** The down-mix of the first two channels: the only channel of a mono
    buffer, the rounded mean of channels 0 and 1 otherwise. *)
Definition stereoMean (fl64 : Q -> Q) (ab : AudioBuffer) (i : nat) : Q :=
  match channels ab with
  | [] => 0
  | [c0] => nth i c0 0
  | c0 :: c1 :: _ => fl64 (fl64 (nth i c0 0 + nth i c1 0) / 2)
  end.

(** The rounding on computations whose every result is representable. *)
Definition exactRounding (q : Q) : Q := q.

(** A mono-compatible stereo buffer and a three-channel buffer. *)
Definition stereo : AudioBuffer :=
  {| sampleRate := 44100; frames := 2; channels := [[1 # 2; -1]; [1 # 2; 1]] |}.

Definition surround : AudioBuffer :=
  {| sampleRate := 48000; frames := 1; channels := [[1]; [1]; [-1]] |}.

(** The per-frame mean over all channels of a buffer (the down-mix the
    specification words describe). *)
Definition meanOfChannels (ab : AudioBuffer) (i : nat) : Q :=
  fold_right Qplus 0 (map (fun ch => nth i ch 0) (channels ab))
  / inject_Z (Z.of_nat (numberOfChannels ab)).

End Codec.

(** ** Backend handlers *)

Module Api.
Import JsString.

(** JSON values, as [request.json()] yields them. *)
#[local] Unset Elimination Schemes.
Inductive Json :=
| JNull
| JBool (b : bool)
| JNum (n : Q)
| JStr (s : jsstring)
| JArr (items : list Json)
| JObj (fields : list (jsstring * Json)).
#[local] Set Elimination Schemes.

(** [process.env]: the two credentials the handlers read. *)
Record Env := {
  OPENROUTER_API_KEY : option jsstring;
  ELEVENLABS_API_KEY : option jsstring;
}.

(** [!apiKey]: the variable is unset or empty. *)
Definition missing (key : option jsstring) : bool :=
  match key with
  | Some k => negb (truthy k)
  | None => true
  end.

Record Voice := { voice_id : jsstring; name : jsstring }.

(** The text of an [{error}] body: a literal of the handler, or the
    [message] of the exception its outer [catch] received. *)
Inductive ErrorText :=
| Message (m : jsstring)
| ExceptionMessage.

Inductive Body :=
| ErrorBody (e : ErrorText)
| VoicesBody (voices : list Voice).

Record Response := { status : Z; body : Body }.

(** A handler run up to its first upstream [fetch]: either it has
    answered, or it goes on to call the third-party service. *)
Inductive Outcome :=
| Respond (r : Response)
| CallUpstream.

Definition jsonError (m : string) (code : Z) : Outcome :=
  Respond {| status := code; body := ErrorBody (Message (lit m)) |}.

(** The outer [catch (err)] of a handler. *)
Definition caught : Outcome :=
  Respond {| status := 500; body := ErrorBody ExceptionMessage |}.

(** [body.k]: [None] is the TypeError of reading a property of [null];
    [Some None] is [undefined].  Of a repeated key [JSON.parse] keeps the
    last value. *)
Definition prop (k : string) (j : Json) : option (option Json) :=
  match j with
  | JNull => None
  | JObj fields =>
      Some (match List.find (fun kv => eqb (fst kv) (lit k)) (rev fields) with
            | Some kv => Some (snd kv)
            | None => None
            end)
  | _ => Some None
  end.

(** [body?.k] *)
Definition optProp (k : string) (j : Json) : option Json :=
  match prop k j with
  | Some v => v
  | None => None
  end.

(** [!v || typeof v !== "string"] *)
Definition notNonEmptyString (v : option Json) : bool :=
  match v with
  | Some (JStr s) => negb (truthy s)
  | _ => true
  end.

(** [!Array.isArray(messages) || messages.length === 0] *)
Definition notNonEmptyArray (v : option Json) : bool :=
  match v with
  | Some (JArr (_ :: _)) => false
  | _ => true
  end.

(** [messages.map((m) => .. m.role .. m.text ..)] raises on a [null] item. *)
Definition mapThrows (v : option Json) : bool :=
  match v with
  | Some (JArr items) => existsb (fun m => match m with JNull => true | _ => false end) items
  | _ => false
  end.

(** /api/interviewer *)
Definition interviewer_POST (env : Env) (request : option Json) : Outcome :=
  if missing (OPENROUTER_API_KEY env) then jsonError "OPENROUTER_API_KEY is not configured" 500
  else match request with
  | None => jsonError "Invalid JSON in request body" 400
  | Some body =>
      match prop "systemPrompt" body, prop "messages" body with
      | Some systemPrompt, Some messages =>
          if notNonEmptyString systemPrompt then jsonError "systemPrompt is required" 400
          else if notNonEmptyArray messages
          then jsonError "messages array is required and must not be empty" 400
          else if mapThrows messages then caught
          else CallUpstream
      | _, _ => caught
      end
  end.

(** /api/reformat *)
Definition reformat_POST (env : Env) (request : option Json) : Outcome :=
  if missing (OPENROUTER_API_KEY env) then jsonError "OPENROUTER_API_KEY is not configured" 500
  else match request with
  | None => caught
  | Some body =>
      match prop "messages" body with
      | Some messages =>
          if notNonEmptyArray messages
          then jsonError "messages array is required and must not be empty" 400
          else if mapThrows messages then caught
          else CallUpstream
      | None => caught
      end
  end.

(** /api/voice *)
Definition voice_POST (env : Env) (request : option Json) : Outcome :=
  if missing (ELEVENLABS_API_KEY env) then jsonError "ELEVENLABS_API_KEY is not configured" 500
  else match request with
  | None => jsonError "Invalid JSON in request body" 400
  | Some body =>
      match optProp "text" body with
      | Some (JStr text) =>
          if negb (truthy text) || negb (truthy (trim text)) then jsonError "text is required" 400
          else CallUpstream
      | _ => jsonError "text is required" 400
      end
  end.

Section Transcribe.

(** [Buffer.from(s, "base64").length], Node's lenient decoder. *)
Variable base64Length : jsstring -> nat.

(** /api/transcribe *)
Definition transcribe_POST (env : Env) (request : option Json) : Outcome :=
  if missing (ELEVENLABS_API_KEY env) then jsonError "ELEVENLABS_API_KEY is not configured" 500
  else match request with
  | None => jsonError "Invalid JSON in request body" 400
  | Some body =>
      match optProp "audio" body with
      | Some (JStr audioBase64) =>
          if negb (truthy audioBase64) || negb (truthy (trim audioBase64))
          then jsonError "audio (base64) is required" 400
          else if (base64Length (trim audioBase64) <? 100)%nat
          then jsonError "Audio too short to transcribe" 400
          else CallUpstream
      | _ => jsonError "audio (base64) is required" 400
      end
  end.

End Transcribe.

Definition mkVoice (id nm : string) : Voice := {| voice_id := lit id; name := lit nm |}.

Definition FALLBACK_VOICES : list Voice :=
  [ mkVoice "21m00Tcm4TlvDq8ikWAM" "Rachel";
    mkVoice "pNInz6obpgDQGcFmaJgB" "Adam";
    mkVoice "EXAVITQu4vr4xnSDxMaL" "Bella";
    mkVoice "ErXwobaYiN019PkySvjV" "Antoni";
    mkVoice "MF3mGyEYCl7XYWbV9V6O" "Elli";
    mkVoice "TxGEqnHWrfWFTfGW9XjX" "Josh";
    mkVoice "VR6AewLTigWG4xSOukaG" "Arnold";
    mkVoice "onwK4e9ZLuTAKqWW03F9" "Domi";
    mkVoice "N2lVS1w4EtoT3dr4eOWO" "Sam" ].

(** /api/voices *)
Definition voices_GET (env : Env) : Outcome :=
  if missing (ELEVENLABS_API_KEY env)
  then Respond {| status := 200; body := VoicesBody FALLBACK_VOICES |}
  else CallUpstream.

(** /api/scribe-token *)
Definition scribe_token_GET (env : Env) : Outcome :=
  if missing (ELEVENLABS_API_KEY env) then jsonError "ELEVENLABS_API_KEY is not configured" 500
  else CallUpstream.

(** The routes of the API server. *)
Inductive Endpoint :=
| interviewer
| voice
| voices
| scribe_token
| transcribe
| reformat.

(** The credential each route needs. *)
Definition credential (e : Endpoint) (env : Env) : option jsstring :=
  match e with
  | interviewer | reformat => OPENROUTER_API_KEY env
  | voice | voices | scribe_token | transcribe => ELEVENLABS_API_KEY env
  end.

Definition handle (base64Length : jsstring -> nat)
    (e : Endpoint) (env : Env) (request : option Json) : Outcome :=
  match e with
  | interviewer => interviewer_POST env request
  | voice => voice_POST env request
  | voices => voices_GET env
  | scribe_token => scribe_token_GET env
  | transcribe => transcribe_POST base64Length env request
  | reformat => reformat_POST env request
  end.

(** No credential at all. *)
Definition unconfigured : Env :=
  {| OPENROUTER_API_KEY := None; ELEVENLABS_API_KEY := None |}.

(** A response that is an error: the given status and an [{error}] body. *)
Definition isErrorResponse (code : Z) (o : Outcome) : Prop :=
  exists e, o = Respond {| status := code; body := ErrorBody e |}.

End Api.

(** ** The session hook [usePersonaplexSession] *)

Module Session.
Import JsString.

Inductive PersonaplexConnectionStatus :=
| disconnected
| connecting
| connected
| error.

Inductive Role := user | ai.

(** A transcript entry [{ role, text }]. *)
Record Message := { role : Role; text : jsstring }.

(** [WebSocket.readyState] *)
Inductive ReadyState := CONNECTING | OPEN | CLOSING | CLOSED.

(** A socket created by [startRecording], with the [stream] and [ctx] its
    [onopen] handler closes over. *)
Record Socket := { readyState : ReadyState; ws_stream : nat; ws_ctx : nat }.

(** The two [setTimeout] callbacks of the hook. *)
Inductive TimerKind :=
| StartRecordingTimer   (* startRecordingAfterAI *)
| ManualCommitTimer.    (* commitManual *)

Definition POST_AI_LISTEN_DELAY_MS : Z := 700.

Definition delay (k : TimerKind) : Z :=
  match k with
  | StartRecordingTimer => POST_AI_LISTEN_DELAY_MS
  | ManualCommitTimer => 1500
  end.

Inductive PlaybackPath := WebAudio | HtmlAudio.

(** The places where the hook is suspended on the outside world. *)
Inductive Cont :=
| AwaitInterviewer (nextWithUser : list Message)  (* processUserInput, at its await *)
| AwaitVoice                                      (* fetchVoiceAudio(..).then(..).catch(..) *)
| AwaitPlayback (path : PlaybackPath)             (* onended / onerror of the playing object *)
| AwaitUserMedia                                  (* start(), at getUserMedia *)
| AwaitToken (stream ctx : nat).                  (* start(), at fetchScribeToken *)

(** The outbound [input_audio_chunk] message. *)
Record AudioChunk := { audio_base_64 : string; sample_rate : Z; commit : bool }.

(** What the hook does to the outside world, in order. *)
Inductive Effect :=
| FetchInterviewer (prompt : jsstring) (messages : list Message)
| FetchVoice (utterance voiceId : jsstring)
| FetchScribeToken
| GetUserMedia
| NewWebSocket (ws : nat) (commit_strategy : jsstring)
| WsSend (ws : nat) (chunk : AudioChunk)
| WsCloseCall (ws : nat)
| DisconnectNode (node : nat)
| StopTracks (stream : nat)
| CloseAudioContext (ctx : nat)
| PauseAudio (el : nat)
| StopSource (src : nat).

(** A value received by a [catch]: an [Error] with its message, or
    something that is no [Error]. *)
Inductive Thrown :=
| ErrorObject (message : jsstring)
| NotAnError.

(** The parsed payload of a realtime message:
    [{ message_type?, text?, error? }]; [msg_text] is [Some] when
    [typeof msg.text === "string"]. *)
Record ScribeMessage := {
  message_type : option jsstring;
  msg_text : option jsstring;
  msg_error : option jsstring;
}.

(** [event.data]: text [JSON.parse] rejects (or parses to [null]), or a
    message. *)
Inductive WsData :=
| Unparseable
| Parsed (msg : ScribeMessage).

Record Session := {
  systemPrompt : jsstring;
  selectedVoiceId : jsstring;
  manualMode : bool;
  status : PersonaplexConnectionStatus;
  errorMessage : option jsstring;
  isUserSpeaking : bool;
  isAiSpeaking : bool;
  transcript : list Message;
  interimTranscript : jsstring;
  streamRef : option nat;
  wsRef : option nat;
  audioContextRef : option nat;
  playbackContextRef : option nat;
  processorRef : option nat;
  sourceRef : option nat;
  currentAudioRef : option nat;
  currentPlaybackSourceRef : option nat;
  transcriptRef : list Message;
  isProcessingRef : bool;
  isListeningRef : bool;
  startRecordingTimeoutRef : option nat;
  isAiSpeakingRef : bool;
  targetRateRef : Z;
  manualBufferRef : list jsstring;
  pendingManualCommitRef : bool;
  pendingManualCommitTimeoutRef : option nat;
  sockets : gmap nat Socket;
  timers : gmap nat TimerKind;
  pending : gmap nat Cont;
  next : nat;
  effects : list Effect;
}.

(** Field updates ([r.current = v], [setX(v)]). *)
Definition set_status (v : PersonaplexConnectionStatus) (s : Session) : Session :=
  {| systemPrompt := systemPrompt s; selectedVoiceId := selectedVoiceId s;
     manualMode := manualMode s; status := v; errorMessage := errorMessage s;
     isUserSpeaking := isUserSpeaking s; isAiSpeaking := isAiSpeaking s;
     transcript := transcript s; interimTranscript := interimTranscript s;
     streamRef := streamRef s; wsRef := wsRef s; audioContextRef := audioContextRef s;
     playbackContextRef := playbackContextRef s; processorRef := processorRef s;
     sourceRef := sourceRef s; currentAudioRef := currentAudioRef s;
     currentPlaybackSourceRef := currentPlaybackSourceRef s; transcriptRef := transcriptRef s;
     isProcessingRef := isProcessingRef s; isListeningRef := isListeningRef s;
     startRecordingTimeoutRef := startRecordingTimeoutRef s;
     isAiSpeakingRef := isAiSpeakingRef s; targetRateRef := targetRateRef s;
     manualBufferRef := manualBufferRef s; pendingManualCommitRef := pendingManualCommitRef s;
     pendingManualCommitTimeoutRef := pendingManualCommitTimeoutRef s; sockets := sockets s;
     timers := timers s; pending := pending s; next := next s; effects := effects s |}.

Definition set_errorMessage (v : option jsstring) (s : Session) : Session :=
  {| systemPrompt := systemPrompt s; selectedVoiceId := selectedVoiceId s;
     manualMode := manualMode s; status := status s; errorMessage := v;
     isUserSpeaking := isUserSpeaking s; isAiSpeaking := isAiSpeaking s;
     transcript := transcript s; interimTranscript := interimTranscript s;
     streamRef := streamRef s; wsRef := wsRef s; audioContextRef := audioContextRef s;
     playbackContextRef := playbackContextRef s; processorRef := processorRef s;
     sourceRef := sourceRef s; currentAudioRef := currentAudioRef s;
     currentPlaybackSourceRef := currentPlaybackSourceRef s; transcriptRef := transcriptRef s;
     isProcessingRef := isProcessingRef s; isListeningRef := isListeningRef s;
     startRecordingTimeoutRef := startRecordingTimeoutRef s;
     isAiSpeakingRef := isAiSpeakingRef s; targetRateRef := targetRateRef s;
     manualBufferRef := manualBufferRef s; pendingManualCommitRef := pendingManualCommitRef s;
     pendingManualCommitTimeoutRef := pendingManualCommitTimeoutRef s; sockets := sockets s;
     timers := timers s; pending := pending s; next := next s; effects := effects s |}.

Definition set_isUserSpeaking (v : bool) (s : Session) : Session :=
  {| systemPrompt := systemPrompt s; selectedVoiceId := selectedVoiceId s;
     manualMode := manualMode s; status := status s; errorMessage := errorMessage s;
     isUserSpeaking := v; isAiSpeaking := isAiSpeaking s; transcript := transcript s;
     interimTranscript := interimTranscript s; streamRef := streamRef s; wsRef := wsRef s;
     audioContextRef := audioContextRef s; playbackContextRef := playbackContextRef s;
     processorRef := processorRef s; sourceRef := sourceRef s;
     currentAudioRef := currentAudioRef s;
     currentPlaybackSourceRef := currentPlaybackSourceRef s; transcriptRef := transcriptRef s;
     isProcessingRef := isProcessingRef s; isListeningRef := isListeningRef s;
     startRecordingTimeoutRef := startRecordingTimeoutRef s;
     isAiSpeakingRef := isAiSpeakingRef s; targetRateRef := targetRateRef s;
     manualBufferRef := manualBufferRef s; pendingManualCommitRef := pendingManualCommitRef s;
     pendingManualCommitTimeoutRef := pendingManualCommitTimeoutRef s; sockets := sockets s;
     timers := timers s; pending := pending s; next := next s; effects := effects s |}.

Definition set_isAiSpeaking (v : bool) (s : Session) : Session :=
  {| systemPrompt := systemPrompt s; selectedVoiceId := selectedVoiceId s;
     manualMode := manualMode s; status := status s; errorMessage := errorMessage s;
     isUserSpeaking := isUserSpeaking s; isAiSpeaking := v; transcript := transcript s;
     interimTranscript := interimTranscript s; streamRef := streamRef s; wsRef := wsRef s;
     audioContextRef := audioContextRef s; playbackContextRef := playbackContextRef s;
     processorRef := processorRef s; sourceRef := sourceRef s;
     currentAudioRef := currentAudioRef s;
     currentPlaybackSourceRef := currentPlaybackSourceRef s; transcriptRef := transcriptRef s;
     isProcessingRef := isProcessingRef s; isListeningRef := isListeningRef s;
     startRecordingTimeoutRef := startRecordingTimeoutRef s;
     isAiSpeakingRef := isAiSpeakingRef s; targetRateRef := targetRateRef s;
     manualBufferRef := manualBufferRef s; pendingManualCommitRef := pendingManualCommitRef s;
     pendingManualCommitTimeoutRef := pendingManualCommitTimeoutRef s; sockets := sockets s;
     timers := timers s; pending := pending s; next := next s; effects := effects s |}.

Definition set_transcript (v : list Message) (s : Session) : Session :=
  {| systemPrompt := systemPrompt s; selectedVoiceId := selectedVoiceId s;
     manualMode := manualMode s; status := status s; errorMessage := errorMessage s;
     isUserSpeaking := isUserSpeaking s; isAiSpeaking := isAiSpeaking s; transcript := v;
     interimTranscript := interimTranscript s; streamRef := streamRef s; wsRef := wsRef s;
     audioContextRef := audioContextRef s; playbackContextRef := playbackContextRef s;
     processorRef := processorRef s; sourceRef := sourceRef s;
     currentAudioRef := currentAudioRef s;
     currentPlaybackSourceRef := currentPlaybackSourceRef s; transcriptRef := transcriptRef s;
     isProcessingRef := isProcessingRef s; isListeningRef := isListeningRef s;
     startRecordingTimeoutRef := startRecordingTimeoutRef s;
     isAiSpeakingRef := isAiSpeakingRef s; targetRateRef := targetRateRef s;
     manualBufferRef := manualBufferRef s; pendingManualCommitRef := pendingManualCommitRef s;
     pendingManualCommitTimeoutRef := pendingManualCommitTimeoutRef s; sockets := sockets s;
     timers := timers s; pending := pending s; next := next s; effects := effects s |}.

Definition set_interimTranscript (v : jsstring) (s : Session) : Session :=
  {| systemPrompt := systemPrompt s; selectedVoiceId := selectedVoiceId s;
     manualMode := manualMode s; status := status s; errorMessage := errorMessage s;
     isUserSpeaking := isUserSpeaking s; isAiSpeaking := isAiSpeaking s;
     transcript := transcript s; interimTranscript := v; streamRef := streamRef s;
     wsRef := wsRef s; audioContextRef := audioContextRef s;
     playbackContextRef := playbackContextRef s; processorRef := processorRef s;
     sourceRef := sourceRef s; currentAudioRef := currentAudioRef s;
     currentPlaybackSourceRef := currentPlaybackSourceRef s; transcriptRef := transcriptRef s;
     isProcessingRef := isProcessingRef s; isListeningRef := isListeningRef s;
     startRecordingTimeoutRef := startRecordingTimeoutRef s;
     isAiSpeakingRef := isAiSpeakingRef s; targetRateRef := targetRateRef s;
     manualBufferRef := manualBufferRef s; pendingManualCommitRef := pendingManualCommitRef s;
     pendingManualCommitTimeoutRef := pendingManualCommitTimeoutRef s; sockets := sockets s;
     timers := timers s; pending := pending s; next := next s; effects := effects s |}.

Definition set_streamRef (v : option nat) (s : Session) : Session :=
  {| systemPrompt := systemPrompt s; selectedVoiceId := selectedVoiceId s;
     manualMode := manualMode s; status := status s; errorMessage := errorMessage s;
     isUserSpeaking := isUserSpeaking s; isAiSpeaking := isAiSpeaking s;
     transcript := transcript s; interimTranscript := interimTranscript s; streamRef := v;
     wsRef := wsRef s; audioContextRef := audioContextRef s;
     playbackContextRef := playbackContextRef s; processorRef := processorRef s;
     sourceRef := sourceRef s; currentAudioRef := currentAudioRef s;
     currentPlaybackSourceRef := currentPlaybackSourceRef s; transcriptRef := transcriptRef s;
     isProcessingRef := isProcessingRef s; isListeningRef := isListeningRef s;
     startRecordingTimeoutRef := startRecordingTimeoutRef s;
     isAiSpeakingRef := isAiSpeakingRef s; targetRateRef := targetRateRef s;
     manualBufferRef := manualBufferRef s; pendingManualCommitRef := pendingManualCommitRef s;
     pendingManualCommitTimeoutRef := pendingManualCommitTimeoutRef s; sockets := sockets s;
     timers := timers s; pending := pending s; next := next s; effects := effects s |}.

Definition set_wsRef (v : option nat) (s : Session) : Session :=
  {| systemPrompt := systemPrompt s; selectedVoiceId := selectedVoiceId s;
     manualMode := manualMode s; status := status s; errorMessage := errorMessage s;
     isUserSpeaking := isUserSpeaking s; isAiSpeaking := isAiSpeaking s;
     transcript := transcript s; interimTranscript := interimTranscript s;
     streamRef := streamRef s; wsRef := v; audioContextRef := audioContextRef s;
     playbackContextRef := playbackContextRef s; processorRef := processorRef s;
     sourceRef := sourceRef s; currentAudioRef := currentAudioRef s;
     currentPlaybackSourceRef := currentPlaybackSourceRef s; transcriptRef := transcriptRef s;
     isProcessingRef := isProcessingRef s; isListeningRef := isListeningRef s;
     startRecordingTimeoutRef := startRecordingTimeoutRef s;
     isAiSpeakingRef := isAiSpeakingRef s; targetRateRef := targetRateRef s;
     manualBufferRef := manualBufferRef s; pendingManualCommitRef := pendingManualCommitRef s;
     pendingManualCommitTimeoutRef := pendingManualCommitTimeoutRef s; sockets := sockets s;
     timers := timers s; pending := pending s; next := next s; effects := effects s |}.

Definition set_audioContextRef (v : option nat) (s : Session) : Session :=
  {| systemPrompt := systemPrompt s; selectedVoiceId := selectedVoiceId s;
     manualMode := manualMode s; status := status s; errorMessage := errorMessage s;
     isUserSpeaking := isUserSpeaking s; isAiSpeaking := isAiSpeaking s;
     transcript := transcript s; interimTranscript := interimTranscript s;
     streamRef := streamRef s; wsRef := wsRef s; audioContextRef := v;
     playbackContextRef := playbackContextRef s; processorRef := processorRef s;
     sourceRef := sourceRef s; currentAudioRef := currentAudioRef s;
     currentPlaybackSourceRef := currentPlaybackSourceRef s; transcriptRef := transcriptRef s;
     isProcessingRef := isProcessingRef s; isListeningRef := isListeningRef s;
     startRecordingTimeoutRef := startRecordingTimeoutRef s;
     isAiSpeakingRef := isAiSpeakingRef s; targetRateRef := targetRateRef s;
     manualBufferRef := manualBufferRef s; pendingManualCommitRef := pendingManualCommitRef s;
     pendingManualCommitTimeoutRef := pendingManualCommitTimeoutRef s; sockets := sockets s;
     timers := timers s; pending := pending s; next := next s; effects := effects s |}.

Definition set_playbackContextRef (v : option nat) (s : Session) : Session :=
  {| systemPrompt := systemPrompt s; selectedVoiceId := selectedVoiceId s;
     manualMode := manualMode s; status := status s; errorMessage := errorMessage s;
     isUserSpeaking := isUserSpeaking s; isAiSpeaking := isAiSpeaking s;
     transcript := transcript s; interimTranscript := interimTranscript s;
     streamRef := streamRef s; wsRef := wsRef s; audioContextRef := audioContextRef s;
     playbackContextRef := v; processorRef := processorRef s; sourceRef := sourceRef s;
     currentAudioRef := currentAudioRef s;
     currentPlaybackSourceRef := currentPlaybackSourceRef s; transcriptRef := transcriptRef s;
     isProcessingRef := isProcessingRef s; isListeningRef := isListeningRef s;
     startRecordingTimeoutRef := startRecordingTimeoutRef s;
     isAiSpeakingRef := isAiSpeakingRef s; targetRateRef := targetRateRef s;
     manualBufferRef := manualBufferRef s; pendingManualCommitRef := pendingManualCommitRef s;
     pendingManualCommitTimeoutRef := pendingManualCommitTimeoutRef s; sockets := sockets s;
     timers := timers s; pending := pending s; next := next s; effects := effects s |}.

Definition set_processorRef (v : option nat) (s : Session) : Session :=
  {| systemPrompt := systemPrompt s; selectedVoiceId := selectedVoiceId s;
     manualMode := manualMode s; status := status s; errorMessage := errorMessage s;
     isUserSpeaking := isUserSpeaking s; isAiSpeaking := isAiSpeaking s;
     transcript := transcript s; interimTranscript := interimTranscript s;
     streamRef := streamRef s; wsRef := wsRef s; audioContextRef := audioContextRef s;
     playbackContextRef := playbackContextRef s; processorRef := v; sourceRef := sourceRef s;
     currentAudioRef := currentAudioRef s;
     currentPlaybackSourceRef := currentPlaybackSourceRef s; transcriptRef := transcriptRef s;
     isProcessingRef := isProcessingRef s; isListeningRef := isListeningRef s;
     startRecordingTimeoutRef := startRecordingTimeoutRef s;
     isAiSpeakingRef := isAiSpeakingRef s; targetRateRef := targetRateRef s;
     manualBufferRef := manualBufferRef s; pendingManualCommitRef := pendingManualCommitRef s;
     pendingManualCommitTimeoutRef := pendingManualCommitTimeoutRef s; sockets := sockets s;
     timers := timers s; pending := pending s; next := next s; effects := effects s |}.

Definition set_sourceRef (v : option nat) (s : Session) : Session :=
  {| systemPrompt := systemPrompt s; selectedVoiceId := selectedVoiceId s;
     manualMode := manualMode s; status := status s; errorMessage := errorMessage s;
     isUserSpeaking := isUserSpeaking s; isAiSpeaking := isAiSpeaking s;
     transcript := transcript s; interimTranscript := interimTranscript s;
     streamRef := streamRef s; wsRef := wsRef s; audioContextRef := audioContextRef s;
     playbackContextRef := playbackContextRef s; processorRef := processorRef s;
     sourceRef := v; currentAudioRef := currentAudioRef s;
     currentPlaybackSourceRef := currentPlaybackSourceRef s; transcriptRef := transcriptRef s;
     isProcessingRef := isProcessingRef s; isListeningRef := isListeningRef s;
     startRecordingTimeoutRef := startRecordingTimeoutRef s;
     isAiSpeakingRef := isAiSpeakingRef s; targetRateRef := targetRateRef s;
     manualBufferRef := manualBufferRef s; pendingManualCommitRef := pendingManualCommitRef s;
     pendingManualCommitTimeoutRef := pendingManualCommitTimeoutRef s; sockets := sockets s;
     timers := timers s; pending := pending s; next := next s; effects := effects s |}.

Definition set_currentAudioRef (v : option nat) (s : Session) : Session :=
  {| systemPrompt := systemPrompt s; selectedVoiceId := selectedVoiceId s;
     manualMode := manualMode s; status := status s; errorMessage := errorMessage s;
     isUserSpeaking := isUserSpeaking s; isAiSpeaking := isAiSpeaking s;
     transcript := transcript s; interimTranscript := interimTranscript s;
     streamRef := streamRef s; wsRef := wsRef s; audioContextRef := audioContextRef s;
     playbackContextRef := playbackContextRef s; processorRef := processorRef s;
     sourceRef := sourceRef s; currentAudioRef := v;
     currentPlaybackSourceRef := currentPlaybackSourceRef s; transcriptRef := transcriptRef s;
     isProcessingRef := isProcessingRef s; isListeningRef := isListeningRef s;
     startRecordingTimeoutRef := startRecordingTimeoutRef s;
     isAiSpeakingRef := isAiSpeakingRef s; targetRateRef := targetRateRef s;
     manualBufferRef := manualBufferRef s; pendingManualCommitRef := pendingManualCommitRef s;
     pendingManualCommitTimeoutRef := pendingManualCommitTimeoutRef s; sockets := sockets s;
     timers := timers s; pending := pending s; next := next s; effects := effects s |}.

Definition set_currentPlaybackSourceRef (v : option nat) (s : Session) : Session :=
  {| systemPrompt := systemPrompt s; selectedVoiceId := selectedVoiceId s;
     manualMode := manualMode s; status := status s; errorMessage := errorMessage s;
     isUserSpeaking := isUserSpeaking s; isAiSpeaking := isAiSpeaking s;
     transcript := transcript s; interimTranscript := interimTranscript s;
     streamRef := streamRef s; wsRef := wsRef s; audioContextRef := audioContextRef s;
     playbackContextRef := playbackContextRef s; processorRef := processorRef s;
     sourceRef := sourceRef s; currentAudioRef := currentAudioRef s;
     currentPlaybackSourceRef := v; transcriptRef := transcriptRef s;
     isProcessingRef := isProcessingRef s; isListeningRef := isListeningRef s;
     startRecordingTimeoutRef := startRecordingTimeoutRef s;
     isAiSpeakingRef := isAiSpeakingRef s; targetRateRef := targetRateRef s;
     manualBufferRef := manualBufferRef s; pendingManualCommitRef := pendingManualCommitRef s;
     pendingManualCommitTimeoutRef := pendingManualCommitTimeoutRef s; sockets := sockets s;
     timers := timers s; pending := pending s; next := next s; effects := effects s |}.

Definition set_transcriptRef (v : list Message) (s : Session) : Session :=
  {| systemPrompt := systemPrompt s; selectedVoiceId := selectedVoiceId s;
     manualMode := manualMode s; status := status s; errorMessage := errorMessage s;
     isUserSpeaking := isUserSpeaking s; isAiSpeaking := isAiSpeaking s;
     transcript := transcript s; interimTranscript := interimTranscript s;
     streamRef := streamRef s; wsRef := wsRef s; audioContextRef := audioContextRef s;
     playbackContextRef := playbackContextRef s; processorRef := processorRef s;
     sourceRef := sourceRef s; currentAudioRef := currentAudioRef s;
     currentPlaybackSourceRef := currentPlaybackSourceRef s; transcriptRef := v;
     isProcessingRef := isProcessingRef s; isListeningRef := isListeningRef s;
     startRecordingTimeoutRef := startRecordingTimeoutRef s;
     isAiSpeakingRef := isAiSpeakingRef s; targetRateRef := targetRateRef s;
     manualBufferRef := manualBufferRef s; pendingManualCommitRef := pendingManualCommitRef s;
     pendingManualCommitTimeoutRef := pendingManualCommitTimeoutRef s; sockets := sockets s;
     timers := timers s; pending := pending s; next := next s; effects := effects s |}.

Definition set_isProcessingRef (v : bool) (s : Session) : Session :=
  {| systemPrompt := systemPrompt s; selectedVoiceId := selectedVoiceId s;
     manualMode := manualMode s; status := status s; errorMessage := errorMessage s;
     isUserSpeaking := isUserSpeaking s; isAiSpeaking := isAiSpeaking s;
     transcript := transcript s; interimTranscript := interimTranscript s;
     streamRef := streamRef s; wsRef := wsRef s; audioContextRef := audioContextRef s;
     playbackContextRef := playbackContextRef s; processorRef := processorRef s;
     sourceRef := sourceRef s; currentAudioRef := currentAudioRef s;
     currentPlaybackSourceRef := currentPlaybackSourceRef s; transcriptRef := transcriptRef s;
     isProcessingRef := v; isListeningRef := isListeningRef s;
     startRecordingTimeoutRef := startRecordingTimeoutRef s;
     isAiSpeakingRef := isAiSpeakingRef s; targetRateRef := targetRateRef s;
     manualBufferRef := manualBufferRef s; pendingManualCommitRef := pendingManualCommitRef s;
     pendingManualCommitTimeoutRef := pendingManualCommitTimeoutRef s; sockets := sockets s;
     timers := timers s; pending := pending s; next := next s; effects := effects s |}.

Definition set_isListeningRef (v : bool) (s : Session) : Session :=
  {| systemPrompt := systemPrompt s; selectedVoiceId := selectedVoiceId s;
     manualMode := manualMode s; status := status s; errorMessage := errorMessage s;
     isUserSpeaking := isUserSpeaking s; isAiSpeaking := isAiSpeaking s;
     transcript := transcript s; interimTranscript := interimTranscript s;
     streamRef := streamRef s; wsRef := wsRef s; audioContextRef := audioContextRef s;
     playbackContextRef := playbackContextRef s; processorRef := processorRef s;
     sourceRef := sourceRef s; currentAudioRef := currentAudioRef s;
     currentPlaybackSourceRef := currentPlaybackSourceRef s; transcriptRef := transcriptRef s;
     isProcessingRef := isProcessingRef s; isListeningRef := v;
     startRecordingTimeoutRef := startRecordingTimeoutRef s;
     isAiSpeakingRef := isAiSpeakingRef s; targetRateRef := targetRateRef s;
     manualBufferRef := manualBufferRef s; pendingManualCommitRef := pendingManualCommitRef s;
     pendingManualCommitTimeoutRef := pendingManualCommitTimeoutRef s; sockets := sockets s;
     timers := timers s; pending := pending s; next := next s; effects := effects s |}.

Definition set_startRecordingTimeoutRef (v : option nat) (s : Session) : Session :=
  {| systemPrompt := systemPrompt s; selectedVoiceId := selectedVoiceId s;
     manualMode := manualMode s; status := status s; errorMessage := errorMessage s;
     isUserSpeaking := isUserSpeaking s; isAiSpeaking := isAiSpeaking s;
     transcript := transcript s; interimTranscript := interimTranscript s;
     streamRef := streamRef s; wsRef := wsRef s; audioContextRef := audioContextRef s;
     playbackContextRef := playbackContextRef s; processorRef := processorRef s;
     sourceRef := sourceRef s; currentAudioRef := currentAudioRef s;
     currentPlaybackSourceRef := currentPlaybackSourceRef s; transcriptRef := transcriptRef s;
     isProcessingRef := isProcessingRef s; isListeningRef := isListeningRef s;
     startRecordingTimeoutRef := v; isAiSpeakingRef := isAiSpeakingRef s;
     targetRateRef := targetRateRef s; manualBufferRef := manualBufferRef s;
     pendingManualCommitRef := pendingManualCommitRef s;
     pendingManualCommitTimeoutRef := pendingManualCommitTimeoutRef s; sockets := sockets s;
     timers := timers s; pending := pending s; next := next s; effects := effects s |}.

Definition set_isAiSpeakingRef (v : bool) (s : Session) : Session :=
  {| systemPrompt := systemPrompt s; selectedVoiceId := selectedVoiceId s;
     manualMode := manualMode s; status := status s; errorMessage := errorMessage s;
     isUserSpeaking := isUserSpeaking s; isAiSpeaking := isAiSpeaking s;
     transcript := transcript s; interimTranscript := interimTranscript s;
     streamRef := streamRef s; wsRef := wsRef s; audioContextRef := audioContextRef s;
     playbackContextRef := playbackContextRef s; processorRef := processorRef s;
     sourceRef := sourceRef s; currentAudioRef := currentAudioRef s;
     currentPlaybackSourceRef := currentPlaybackSourceRef s; transcriptRef := transcriptRef s;
     isProcessingRef := isProcessingRef s; isListeningRef := isListeningRef s;
     startRecordingTimeoutRef := startRecordingTimeoutRef s; isAiSpeakingRef := v;
     targetRateRef := targetRateRef s; manualBufferRef := manualBufferRef s;
     pendingManualCommitRef := pendingManualCommitRef s;
     pendingManualCommitTimeoutRef := pendingManualCommitTimeoutRef s; sockets := sockets s;
     timers := timers s; pending := pending s; next := next s; effects := effects s |}.

Definition set_targetRateRef (v : Z) (s : Session) : Session :=
  {| systemPrompt := systemPrompt s; selectedVoiceId := selectedVoiceId s;
     manualMode := manualMode s; status := status s; errorMessage := errorMessage s;
     isUserSpeaking := isUserSpeaking s; isAiSpeaking := isAiSpeaking s;
     transcript := transcript s; interimTranscript := interimTranscript s;
     streamRef := streamRef s; wsRef := wsRef s; audioContextRef := audioContextRef s;
     playbackContextRef := playbackContextRef s; processorRef := processorRef s;
     sourceRef := sourceRef s; currentAudioRef := currentAudioRef s;
     currentPlaybackSourceRef := currentPlaybackSourceRef s; transcriptRef := transcriptRef s;
     isProcessingRef := isProcessingRef s; isListeningRef := isListeningRef s;
     startRecordingTimeoutRef := startRecordingTimeoutRef s;
     isAiSpeakingRef := isAiSpeakingRef s; targetRateRef := v;
     manualBufferRef := manualBufferRef s; pendingManualCommitRef := pendingManualCommitRef s;
     pendingManualCommitTimeoutRef := pendingManualCommitTimeoutRef s; sockets := sockets s;
     timers := timers s; pending := pending s; next := next s; effects := effects s |}.

Definition set_manualBufferRef (v : list jsstring) (s : Session) : Session :=
  {| systemPrompt := systemPrompt s; selectedVoiceId := selectedVoiceId s;
     manualMode := manualMode s; status := status s; errorMessage := errorMessage s;
     isUserSpeaking := isUserSpeaking s; isAiSpeaking := isAiSpeaking s;
     transcript := transcript s; interimTranscript := interimTranscript s;
     streamRef := streamRef s; wsRef := wsRef s; audioContextRef := audioContextRef s;
     playbackContextRef := playbackContextRef s; processorRef := processorRef s;
     sourceRef := sourceRef s; currentAudioRef := currentAudioRef s;
     currentPlaybackSourceRef := currentPlaybackSourceRef s; transcriptRef := transcriptRef s;
     isProcessingRef := isProcessingRef s; isListeningRef := isListeningRef s;
     startRecordingTimeoutRef := startRecordingTimeoutRef s;
     isAiSpeakingRef := isAiSpeakingRef s; targetRateRef := targetRateRef s;
     manualBufferRef := v; pendingManualCommitRef := pendingManualCommitRef s;
     pendingManualCommitTimeoutRef := pendingManualCommitTimeoutRef s; sockets := sockets s;
     timers := timers s; pending := pending s; next := next s; effects := effects s |}.

Definition set_pendingManualCommitRef (v : bool) (s : Session) : Session :=
  {| systemPrompt := systemPrompt s; selectedVoiceId := selectedVoiceId s;
     manualMode := manualMode s; status := status s; errorMessage := errorMessage s;
     isUserSpeaking := isUserSpeaking s; isAiSpeaking := isAiSpeaking s;
     transcript := transcript s; interimTranscript := interimTranscript s;
     streamRef := streamRef s; wsRef := wsRef s; audioContextRef := audioContextRef s;
     playbackContextRef := playbackContextRef s; processorRef := processorRef s;
     sourceRef := sourceRef s; currentAudioRef := currentAudioRef s;
     currentPlaybackSourceRef := currentPlaybackSourceRef s; transcriptRef := transcriptRef s;
     isProcessingRef := isProcessingRef s; isListeningRef := isListeningRef s;
     startRecordingTimeoutRef := startRecordingTimeoutRef s;
     isAiSpeakingRef := isAiSpeakingRef s; targetRateRef := targetRateRef s;
     manualBufferRef := manualBufferRef s; pendingManualCommitRef := v;
     pendingManualCommitTimeoutRef := pendingManualCommitTimeoutRef s; sockets := sockets s;
     timers := timers s; pending := pending s; next := next s; effects := effects s |}.

Definition set_pendingManualCommitTimeoutRef (v : option nat) (s : Session) : Session :=
  {| systemPrompt := systemPrompt s; selectedVoiceId := selectedVoiceId s;
     manualMode := manualMode s; status := status s; errorMessage := errorMessage s;
     isUserSpeaking := isUserSpeaking s; isAiSpeaking := isAiSpeaking s;
     transcript := transcript s; interimTranscript := interimTranscript s;
     streamRef := streamRef s; wsRef := wsRef s; audioContextRef := audioContextRef s;
     playbackContextRef := playbackContextRef s; processorRef := processorRef s;
     sourceRef := sourceRef s; currentAudioRef := currentAudioRef s;
     currentPlaybackSourceRef := currentPlaybackSourceRef s; transcriptRef := transcriptRef s;
     isProcessingRef := isProcessingRef s; isListeningRef := isListeningRef s;
     startRecordingTimeoutRef := startRecordingTimeoutRef s;
     isAiSpeakingRef := isAiSpeakingRef s; targetRateRef := targetRateRef s;
     manualBufferRef := manualBufferRef s; pendingManualCommitRef := pendingManualCommitRef s;
     pendingManualCommitTimeoutRef := v; sockets := sockets s; timers := timers s;
     pending := pending s; next := next s; effects := effects s |}.

Definition set_sockets (v : gmap nat Socket) (s : Session) : Session :=
  {| systemPrompt := systemPrompt s; selectedVoiceId := selectedVoiceId s;
     manualMode := manualMode s; status := status s; errorMessage := errorMessage s;
     isUserSpeaking := isUserSpeaking s; isAiSpeaking := isAiSpeaking s;
     transcript := transcript s; interimTranscript := interimTranscript s;
     streamRef := streamRef s; wsRef := wsRef s; audioContextRef := audioContextRef s;
     playbackContextRef := playbackContextRef s; processorRef := processorRef s;
     sourceRef := sourceRef s; currentAudioRef := currentAudioRef s;
     currentPlaybackSourceRef := currentPlaybackSourceRef s; transcriptRef := transcriptRef s;
     isProcessingRef := isProcessingRef s; isListeningRef := isListeningRef s;
     startRecordingTimeoutRef := startRecordingTimeoutRef s;
     isAiSpeakingRef := isAiSpeakingRef s; targetRateRef := targetRateRef s;
     manualBufferRef := manualBufferRef s; pendingManualCommitRef := pendingManualCommitRef s;
     pendingManualCommitTimeoutRef := pendingManualCommitTimeoutRef s; sockets := v;
     timers := timers s; pending := pending s; next := next s; effects := effects s |}.

Definition set_timers (v : gmap nat TimerKind) (s : Session) : Session :=
  {| systemPrompt := systemPrompt s; selectedVoiceId := selectedVoiceId s;
     manualMode := manualMode s; status := status s; errorMessage := errorMessage s;
     isUserSpeaking := isUserSpeaking s; isAiSpeaking := isAiSpeaking s;
     transcript := transcript s; interimTranscript := interimTranscript s;
     streamRef := streamRef s; wsRef := wsRef s; audioContextRef := audioContextRef s;
     playbackContextRef := playbackContextRef s; processorRef := processorRef s;
     sourceRef := sourceRef s; currentAudioRef := currentAudioRef s;
     currentPlaybackSourceRef := currentPlaybackSourceRef s; transcriptRef := transcriptRef s;
     isProcessingRef := isProcessingRef s; isListeningRef := isListeningRef s;
     startRecordingTimeoutRef := startRecordingTimeoutRef s;
     isAiSpeakingRef := isAiSpeakingRef s; targetRateRef := targetRateRef s;
     manualBufferRef := manualBufferRef s; pendingManualCommitRef := pendingManualCommitRef s;
     pendingManualCommitTimeoutRef := pendingManualCommitTimeoutRef s; sockets := sockets s;
     timers := v; pending := pending s; next := next s; effects := effects s |}.

Definition set_pending (v : gmap nat Cont) (s : Session) : Session :=
  {| systemPrompt := systemPrompt s; selectedVoiceId := selectedVoiceId s;
     manualMode := manualMode s; status := status s; errorMessage := errorMessage s;
     isUserSpeaking := isUserSpeaking s; isAiSpeaking := isAiSpeaking s;
     transcript := transcript s; interimTranscript := interimTranscript s;
     streamRef := streamRef s; wsRef := wsRef s; audioContextRef := audioContextRef s;
     playbackContextRef := playbackContextRef s; processorRef := processorRef s;
     sourceRef := sourceRef s; currentAudioRef := currentAudioRef s;
     currentPlaybackSourceRef := currentPlaybackSourceRef s; transcriptRef := transcriptRef s;
     isProcessingRef := isProcessingRef s; isListeningRef := isListeningRef s;
     startRecordingTimeoutRef := startRecordingTimeoutRef s;
     isAiSpeakingRef := isAiSpeakingRef s; targetRateRef := targetRateRef s;
     manualBufferRef := manualBufferRef s; pendingManualCommitRef := pendingManualCommitRef s;
     pendingManualCommitTimeoutRef := pendingManualCommitTimeoutRef s; sockets := sockets s;
     timers := timers s; pending := v; next := next s; effects := effects s |}.

Definition set_next (v : nat) (s : Session) : Session :=
  {| systemPrompt := systemPrompt s; selectedVoiceId := selectedVoiceId s;
     manualMode := manualMode s; status := status s; errorMessage := errorMessage s;
     isUserSpeaking := isUserSpeaking s; isAiSpeaking := isAiSpeaking s;
     transcript := transcript s; interimTranscript := interimTranscript s;
     streamRef := streamRef s; wsRef := wsRef s; audioContextRef := audioContextRef s;
     playbackContextRef := playbackContextRef s; processorRef := processorRef s;
     sourceRef := sourceRef s; currentAudioRef := currentAudioRef s;
     currentPlaybackSourceRef := currentPlaybackSourceRef s; transcriptRef := transcriptRef s;
     isProcessingRef := isProcessingRef s; isListeningRef := isListeningRef s;
     startRecordingTimeoutRef := startRecordingTimeoutRef s;
     isAiSpeakingRef := isAiSpeakingRef s; targetRateRef := targetRateRef s;
     manualBufferRef := manualBufferRef s; pendingManualCommitRef := pendingManualCommitRef s;
     pendingManualCommitTimeoutRef := pendingManualCommitTimeoutRef s; sockets := sockets s;
     timers := timers s; pending := pending s; next := v; effects := effects s |}.

Definition set_effects (v : list Effect) (s : Session) : Session :=
  {| systemPrompt := systemPrompt s; selectedVoiceId := selectedVoiceId s;
     manualMode := manualMode s; status := status s; errorMessage := errorMessage s;
     isUserSpeaking := isUserSpeaking s; isAiSpeaking := isAiSpeaking s;
     transcript := transcript s; interimTranscript := interimTranscript s;
     streamRef := streamRef s; wsRef := wsRef s; audioContextRef := audioContextRef s;
     playbackContextRef := playbackContextRef s; processorRef := processorRef s;
     sourceRef := sourceRef s; currentAudioRef := currentAudioRef s;
     currentPlaybackSourceRef := currentPlaybackSourceRef s; transcriptRef := transcriptRef s;
     isProcessingRef := isProcessingRef s; isListeningRef := isListeningRef s;
     startRecordingTimeoutRef := startRecordingTimeoutRef s;
     isAiSpeakingRef := isAiSpeakingRef s; targetRateRef := targetRateRef s;
     manualBufferRef := manualBufferRef s; pendingManualCommitRef := pendingManualCommitRef s;
     pendingManualCommitTimeoutRef := pendingManualCommitTimeoutRef s; sockets := sockets s;
     timers := timers s; pending := pending s; next := next s; effects := v |}.

(** *** Runtime: effects, suspended continuations, timers, sockets *)

Definition log (e : Effect) (s : Session) : Session :=
  set_effects (effects s ++ [e]) s.

(** Ids of timers, sockets, audio objects and suspended calls are drawn
    from one counter; it starts at 1, so a timer id is truthy as in a
    browser. *)
Definition bump (s : Session) : Session := set_next (S (next s)) s.

(** Suspend on the outside world; the continuation is kept under the
    fresh id [next s]. *)
Definition suspend (c : Cont) (s : Session) : Session :=
  bump (set_pending (<[next s := c]> (pending s)) s).

(** The continuation [k] has run, or will never run. *)
Definition drop (k : nat) (s : Session) : Session :=
  set_pending (delete k (pending s)) s.

(** [setTimeout(handler, delay kind)], returning the id [next s]. *)
Definition setTimeout (kind : TimerKind) (s : Session) : Session :=
  bump (set_timers (<[next s := kind]> (timers s)) s).

Definition clearTimeout (id : nat) (s : Session) : Session :=
  set_timers (delete id (timers s)) s.

Definition readyStateOf (w : nat) (s : Session) : option ReadyState :=
  readyState <$> sockets s !! w.

Definition setReadyState (w : nat) (r : ReadyState) (s : Session) : Session :=
  set_sockets
    (alter (fun k => {| readyState := r; ws_stream := ws_stream k; ws_ctx := ws_ctx k |})
       w (sockets s)) s.

(** [ws.readyState === WebSocket.OPEN] *)
Definition isOpen (w : nat) (s : Session) : bool :=
  match readyStateOf w s with
  | Some OPEN => true
  | _ => false
  end.

(** [ws.close()]: nothing on a socket that is closing or closed. *)
Definition ws_close (w : nat) (s : Session) : Session :=
  match readyStateOf w s with
  | Some CONNECTING | Some OPEN => log (WsCloseCall w) (setReadyState w CLOSING s)
  | _ => s
  end.

(** [err instanceof Error ? err.message : fallback] *)
Definition messageOf (err : Thrown) (fallback : string) : jsstring :=
  match err with
  | ErrorObject m => m
  | NotAnError => lit fallback
  end.

(** *** The callbacks of the hook *)

Definition stopRecording (s : Session) : Session :=
  let s := match wsRef s with
           | Some ws => if isOpen ws s then set_wsRef None (ws_close ws s) else s
           | None => s
           end in
  let s := match processorRef s with
           | Some proc => set_processorRef None (log (DisconnectNode proc) s)
           | None => s
           end in
  let s := match sourceRef s with
           | Some src => set_sourceRef None (log (DisconnectNode src) s)
           | None => s
           end in
  let s := match streamRef s with
           | Some stream => set_streamRef None (log (StopTracks stream) s)
           | None => s
           end in
  let s := match audioContextRef s with
           | Some ctx => log (CloseAudioContext ctx) s
           | None => s
           end in
  let s := set_audioContextRef None s in
  set_isListeningRef false s.

(** [startRecording]: the guard, then [start()] up to [getUserMedia]. *)
Definition startRecording (s : Session) : Session :=
  if isProcessingRef s || isListeningRef s then s
  else suspend AwaitUserMedia (log GetUserMedia s).

(** The [catch] of [start()]. *)
Definition start_catch (err : Thrown) (s : Session) : Session :=
  let s := set_errorMessage (Some (messageOf err "Could not start live transcription")) s in
  set_status error s.

(** [start()] from the result of [getUserMedia] up to [fetchScribeToken]. *)
Definition start_afterUserMedia (r : Thrown + unit) (s : Session) : Session :=
  match r with
  | inl err => start_catch err s
  | inr _ =>
      let stream := next s in
      let s := set_streamRef (Some stream) (bump s) in
      let ctx := next s in
      let s := set_audioContextRef (Some ctx) (bump s) in
      suspend (AwaitToken stream ctx) (log FetchScribeToken s)
  end.

(** [start()] from the token to the new socket. *)
Definition start_afterToken (stream ctx : nat) (r : Thrown + unit) (s : Session) : Session :=
  match r with
  | inl err => start_catch err s
  | inr _ =>
      let s := set_targetRateRef 16000 s in
      let commitStrategy := if manualMode s then lit "manual" else lit "vad" in
      let ws := next s in
      let s := set_sockets
                 (<[ws := {| readyState := CONNECTING; ws_stream := stream; ws_ctx := ctx |}]>
                    (sockets s)) (bump s) in
      let s := log (NewWebSocket ws commitStrategy) s in
      set_wsRef (Some ws) s
  end.

Definition startRecordingAfterAI (s : Session) : Session :=
  let id := next s in
  set_startRecordingTimeoutRef (Some id) (setTimeout StartRecordingTimer s).

(** The callback of the timer set by [startRecordingAfterAI]. *)
Definition startRecordingTimeout (s : Session) : Session :=
  startRecording (set_startRecordingTimeoutRef None s).

(** [done] of [speakWithVoiceApi]; its [onDone] is [startRecordingAfterAI]
    and its [setError] is [setErrorMessage], as [speak], the one caller,
    passes them. *)
Definition done (s : Session) : Session :=
  let s := set_isAiSpeakingRef false s in
  let s := set_isAiSpeaking false s in
  startRecordingAfterAI s.

(** [speakWithVoiceApi] up to the call of [fetchVoiceAudio]. *)
Definition speakWithVoiceApi (utterance : jsstring) (s : Session) : Session :=
  if negb (truthy (trim utterance)) then startRecordingAfterAI s
  else
    let s := set_isAiSpeakingRef true s in
    let s := set_isAiSpeaking true s in
    let s := set_errorMessage None s in
    suspend AwaitVoice (log (FetchVoice utterance (selectedVoiceId s)) s).

(** The [.then] of [fetchVoiceAudio]: playback starts on the Web Audio
    path when it is usable ([webAudio]: not iOS, and resume and decode
    succeed) and a playback context exists, on an [Audio] element
    otherwise.  The playing object's id is also the key of its
    [onended]/[onerror] continuation. *)
Definition voice_then (webAudio : bool) (s : Session) : Session :=
  match (if webAudio then playbackContextRef s else None) with
  | Some _ =>
      let source := next s in
      set_currentPlaybackSourceRef (Some source) (suspend (AwaitPlayback WebAudio) s)
  | None =>
      let audioEl := next s in
      set_currentAudioRef (Some audioEl) (suspend (AwaitPlayback HtmlAudio) s)
  end.

(** The [.catch] of [fetchVoiceAudio]. *)
Definition voice_catch (err : Thrown) (s : Session) : Session :=
  let s := set_errorMessage (Some (messageOf err "Voice API failed")) s in
  done s.

(** [onended] ([ended = true]) and [onerror] or a rejected [play()]
    ([ended = false]) of the playing object. *)
Definition playback_settled (path : PlaybackPath) (ended : bool) (s : Session) : Session :=
  match path with
  | WebAudio => done (set_currentPlaybackSourceRef None s)
  | HtmlAudio =>
      let s := set_currentAudioRef None s in
      if ended then done s
      else done (set_errorMessage (Some (lit "Audio playback failed")) s)
  end.

Definition speak (utterance : jsstring) (s : Session) : Session :=
  if negb (truthy (trim utterance)) then startRecording s
  else
    let s := match currentAudioRef s with
             | Some el => set_currentAudioRef None (drop el (log (PauseAudio el) s))
             | None => s
             end in
    let s := match currentPlaybackSourceRef s with
             | Some src => set_currentPlaybackSourceRef None (log (StopSource src) s)
             | None => s
             end in
    speakWithVoiceApi utterance s.

(** [processUserInput] up to its [await fetchInterviewerQuestion(..)]. *)
Definition processUserInput (userText : jsstring) (s : Session) : Session :=
  if isProcessingRef s || negb (truthy (trim userText)) then s
  else
    let s := set_isProcessingRef true s in
    let s := stopRecording s in
    let nextWithUser := transcriptRef s ++ [{| role := user; text := userText |}] in
    let s := set_transcriptRef nextWithUser s in
    let s := set_transcript nextWithUser s in
    let s := set_interimTranscript [] s in
    suspend (AwaitInterviewer nextWithUser)
      (log (FetchInterviewer (systemPrompt s) nextWithUser) s).

(** [processUserInput] from the settled request to its end: the rest of
    the [try] (which runs [speak] to completion, [speak] having no
    [await] of its own), or the [catch]; then the [finally]. *)
Definition processUserInput_resumed
    (nextWithUser : list Message) (r : Thrown + jsstring) (s : Session) : Session :=
  let s :=
    match r with
    | inr question =>
        let nextWithAi := nextWithUser ++ [{| role := ai; text := question |}] in
        let s := set_transcriptRef nextWithAi s in
        let s := set_transcript nextWithAi s in
        speak question s
    | inl err =>
        let s := set_errorMessage (Some (messageOf err "API error")) s in
        let s := set_status error s in
        set_isProcessingRef false s
    end in
  set_isProcessingRef false s.

(** [ws.onerror] *)
Definition ws_onerror (s : Session) : Session :=
  let s := set_errorMessage (Some (lit "Live transcription connection failed")) s in
  set_status error s.

(** [ws.onclose] *)
Definition ws_onclose (s : Session) : Session := set_wsRef None s.

(** [ws.onopen]; [graph = false] is an exception while the audio graph is
    built (raised by [createMediaStreamSource], before any ref is set). *)
Definition ws_onopen (ws : nat) (graph : bool) (s : Session) : Session :=
  let s := set_errorMessage None s in
  if graph then
    let source := next s in
    let s := set_sourceRef (Some source) (bump s) in
    let processor := next s in
    let s := set_processorRef (Some processor) (bump s) in
    let s := set_isListeningRef true s in
    let s := set_isUserSpeaking true s in
    let s := if manualMode s then set_manualBufferRef [] s else s in
    set_interimTranscript (lit "Listening...") s
  else
    let s := set_errorMessage (Some (lit "Microphone access denied or unavailable")) s in
    let s := set_status error s in
    ws_close ws s.

Definition typeIs (k : string) (msg : ScribeMessage) : bool :=
  match message_type msg with
  | Some t => eqb t (lit k)
  | None => false
  end.

(** The [partial_transcript] branch of [ws.onmessage]. *)
Definition onPartialTranscript (t : jsstring) (s : Session) : Session :=
  if manualMode s && (0 <? List.length (manualBufferRef s))%nat then
    let accumulated := join (lit " ") (manualBufferRef s) ++ lit " " ++ t in
    set_interimTranscript accumulated s
  else set_interimTranscript t s.

(** The [committed_transcript] branch of [ws.onmessage]. *)
Definition onCommittedTranscript (raw : jsstring) (s : Session) : Session :=
  let t := trim raw in
  if negb (truthy t) then s
  else if isAiSpeakingRef s then s
  else if manualMode s then
    let s := set_manualBufferRef (manualBufferRef s ++ [t]) s in
    if pendingManualCommitRef s then
      let s := match pendingManualCommitTimeoutRef s with
               | Some id => set_pendingManualCommitTimeoutRef None (clearTimeout id s)
               | None => s
               end in
      let fullText := trim (join (lit " ") (manualBufferRef s)) in
      let s := set_manualBufferRef [] s in
      let s := set_pendingManualCommitRef false s in
      let s := stopRecording s in
      if truthy fullText then processUserInput fullText s else s
    else set_interimTranscript (join (lit " ") (manualBufferRef s)) s
  else processUserInput t (stopRecording s).

(** The [error] / [auth_error] / [quota_exceeded] branch of [ws.onmessage]. *)
Definition onScribeError (msg : ScribeMessage) (s : Session) : Session :=
  let err := match msg_error msg with
             | Some e => e
             | None => lit "Transcription error"
             end in
  let s := set_errorMessage (Some err) s in
  let s := stopRecording s in
  startRecording s.

(** [ws.onmessage] *)
Definition ws_onmessage (data : WsData) (s : Session) : Session :=
  match data with
  | Unparseable => s
  | Parsed msg =>
      match (if typeIs "partial_transcript" msg then msg_text msg else None) with
      | Some t => onPartialTranscript t s
      | None =>
          match (if typeIs "committed_transcript" msg then msg_text msg else None) with
          | Some t => onCommittedTranscript t s
          | None =>
              if typeIs "error" msg || typeIs "auth_error" msg || typeIs "quota_exceeded" msg
              then onScribeError msg s
              else s
          end
      end
  end.

Definition commitManual (s : Session) : Session :=
  match wsRef s with
  | None => s
  | Some w =>
      if negb (isOpen w s) || negb (isListeningRef s) then s
      else if isAiSpeakingRef s then s
      else
        let s := set_pendingManualCommitRef true s in
        let rate := targetRateRef s in
        let silentChunk := Codec.createSilentPcmBase64 1024 in
        let s := log (WsSend w {| audio_base_64 := silentChunk;
                                  sample_rate := rate; commit := true |}) s in
        let id := next s in
        set_pendingManualCommitTimeoutRef (Some id) (setTimeout ManualCommitTimer s)
  end.

(** The callback of the timer set by [commitManual]. *)
Definition manualCommitTimeout (s : Session) : Session :=
  let s := set_pendingManualCommitTimeoutRef None s in
  if pendingManualCommitRef s && (0 <? List.length (manualBufferRef s))%nat then
    let s := set_pendingManualCommitRef false s in
    let fullText := trim (join (lit " ") (manualBufferRef s)) in
    let s := set_manualBufferRef [] s in
    let s := stopRecording s in
    if truthy fullText then processUserInput fullText s else s
  else s.

Definition greeting : jsstring :=
  lit "Hello, I am your OpenJournal assistant. How can I help you?".

Definition connect (s : Session) : Session :=
  let s := set_status connecting s in
  let s := set_errorMessage None s in
  let s := set_transcriptRef [] s in
  let ctx := next s in
  let s := set_playbackContextRef (Some ctx) (bump s) in
  let s := set_status connected s in
  speak greeting s.

Definition disconnect (s : Session) : Session :=
  let s := match pendingManualCommitTimeoutRef s with
           | Some id => set_pendingManualCommitTimeoutRef None (clearTimeout id s)
           | None => s
           end in
  let s := match startRecordingTimeoutRef s with
           | Some id => set_startRecordingTimeoutRef None (clearTimeout id s)
           | None => s
           end in
  let s := match currentAudioRef s with
           | Some el => set_currentAudioRef None (drop el (log (PauseAudio el) s))
           | None => s
           end in
  let s := match currentPlaybackSourceRef s with
           | Some src => set_currentPlaybackSourceRef None (log (StopSource src) s)
           | None => s
           end in
  let s := match playbackContextRef s with
           | Some ctx => set_playbackContextRef None (log (CloseAudioContext ctx) s)
           | None => s
           end in
  let s := stopRecording s in
  let s := set_status disconnected s in
  let s := set_errorMessage None s in
  let s := set_isUserSpeaking false s in
  let s := set_isAiSpeaking false s in
  let s := set_isAiSpeakingRef false s in
  let s := set_isProcessingRef false s in
  let s := set_isListeningRef false s in
  let s := set_manualBufferRef [] s in
  set_pendingManualCommitRef false s.

(** *** The event loop

    The hook runs on one thread; every callback runs to completion.  An
    event is what the outside world does next: a command of the UI, a
    timer that fires, a request or a playback that settles, a socket
    event.  An event whose timer was cleared, whose continuation is gone
    or whose socket is not in the state that produces it does not occur:
    [step] leaves the session as it is. *)
Inductive Event :=
| Connect
| Disconnect
| UserCommitRequested
| TimerFired (id : nat)
| DialogueResponse (k : nat) (r : Thrown + jsstring)
| SynthesisResponse (k : nat) (r : Thrown + bool)
| PlaybackEnded (k : nat) (ended : bool)
| MicPermission (k : nat) (r : Thrown + unit)
| TokenResponse (k : nat) (r : Thrown + unit)
| SocketOpen (ws : nat) (graph : bool)
| SocketMessage (ws : nat) (data : WsData)
| SocketError (ws : nat)
| SocketClose (ws : nat).

Definition step (s : Session) (e : Event) : Session :=
  match e with
  | Connect => connect s
  | Disconnect => disconnect s
  | UserCommitRequested => commitManual s
  | TimerFired id =>
      match timers s !! id with
      | Some StartRecordingTimer => startRecordingTimeout (clearTimeout id s)
      | Some ManualCommitTimer => manualCommitTimeout (clearTimeout id s)
      | None => s
      end
  | DialogueResponse k r =>
      match pending s !! k with
      | Some (AwaitInterviewer nextWithUser) => processUserInput_resumed nextWithUser r (drop k s)
      | _ => s
      end
  | SynthesisResponse k r =>
      match pending s !! k with
      | Some AwaitVoice =>
          match r with
          | inr webAudio => voice_then webAudio (drop k s)
          | inl err => voice_catch err (drop k s)
          end
      | _ => s
      end
  | PlaybackEnded k ended =>
      match pending s !! k with
      | Some (AwaitPlayback path) => playback_settled path ended (drop k s)
      | _ => s
      end
  | MicPermission k r =>
      match pending s !! k with
      | Some AwaitUserMedia => start_afterUserMedia r (drop k s)
      | _ => s
      end
  | TokenResponse k r =>
      match pending s !! k with
      | Some (AwaitToken stream ctx) => start_afterToken stream ctx r (drop k s)
      | _ => s
      end
  | SocketOpen ws graph =>
      match readyStateOf ws s with
      | Some CONNECTING => ws_onopen ws graph (setReadyState ws OPEN s)
      | _ => s
      end
  | SocketMessage ws data =>
      if isOpen ws s then ws_onmessage data s else s
  | SocketError ws =>
      match readyStateOf ws s with
      | Some CONNECTING | Some OPEN | Some CLOSING => ws_onerror s
      | _ => s
      end
  | SocketClose ws =>
      match readyStateOf ws s with
      | Some CONNECTING | Some OPEN | Some CLOSING => ws_onclose (setReadyState ws CLOSED s)
      | _ => s
      end
  end.

(** A run of the event loop. *)
Definition run (s : Session) (events : list Event) : Session :=
  fold_left step events s.

(** The hook as first rendered. *)
Definition init (prompt voiceId : jsstring) (manual : bool) : Session :=
  {| systemPrompt := prompt; selectedVoiceId := voiceId; manualMode := manual;
     status := disconnected; errorMessage := None;
     isUserSpeaking := false; isAiSpeaking := false;
     transcript := []; interimTranscript := [];
     streamRef := None; wsRef := None; audioContextRef := None;
     playbackContextRef := None; processorRef := None; sourceRef := None;
     currentAudioRef := None; currentPlaybackSourceRef := None;
     transcriptRef := []; isProcessingRef := false; isListeningRef := false;
     startRecordingTimeoutRef := None; isAiSpeakingRef := false;
     targetRateRef := 16000; manualBufferRef := []; pendingManualCommitRef := false;
     pendingManualCommitTimeoutRef := None;
     sockets := ∅; timers := ∅; pending := ∅; next := 1; effects := [] |}.

(** The states the hook can be in. *)
Inductive reachable : Session -> Prop :=
| reachable_init prompt voiceId manual : reachable (init prompt voiceId manual)
| reachable_step s e : reachable s -> reachable (step s e).

(** *** Observations used to state the properties *)

Definition isDialogueRequest (e : Effect) : bool :=
  match e with FetchInterviewer _ _ => true | _ => false end.

Definition isSynthesisRequest (e : Effect) : bool :=
  match e with FetchVoice _ _ => true | _ => false end.

Definition isListenAttempt (e : Effect) : bool :=
  match e with GetUserMedia => true | _ => false end.

Definition isSend (e : Effect) : bool :=
  match e with WsSend _ _ => true | _ => false end.

(** How many turn pipelines (dialogue requests) have been started. *)
Definition pipelines (s : Session) : nat :=
  List.length (List.filter isDialogueRequest (effects s)).

Definition listenAttempts (s : Session) : nat :=
  List.length (List.filter isListenAttempt (effects s)).

(** [const x = ref.current; if (x) { .. }]: the shape of every release
    step of [stopRecording]. *)
Definition whenSet (ref : Session -> option nat) (f : nat -> Session -> Session)
    (s : Session) : Session :=
  match ref s with
  | Some x => f x s
  | None => s
  end.

(** The calls [stopRecording] makes, in order. *)
Definition teardown (s : Session) : list Effect :=
  match wsRef s with
  | Some ws => if isOpen ws s then [WsCloseCall ws] else []
  | None => []
  end
  ++ match processorRef s with Some proc => [DisconnectNode proc] | None => [] end
  ++ match sourceRef s with Some src => [DisconnectNode src] | None => [] end
  ++ match streamRef s with Some stream => [StopTracks stream] | None => [] end
  ++ match audioContextRef s with Some ctx => [CloseAudioContext ctx] | None => [] end.

(** The events that ask for a user turn to be finalized: a committed
    transcript, a manual commit request, a timer that fires. *)
Definition finalizeEvent (e : Event) : Prop :=
  match e with
  | UserCommitRequested => True
  | TimerFired _ => True
  | SocketMessage _ (Parsed msg) => typeIs "committed_transcript" msg = true
  | _ => False
  end.

(** [msg.error ?? "Transcription error"] *)
Definition scribeErrorText (msg : ScribeMessage) : jsstring :=
  match msg_error msg with
  | Some e => e
  | None => lit "Transcription error"
  end.

(** A fragment as [ws.onmessage] buffers it: trimmed and not empty. *)
Definition fragment (t : jsstring) : Prop := t <> [] /\ trim t = t.

(** *** A concrete session

    The hook mounted with a prompt and a voice; the events from [connect]
    to the first listening period (greeting synthesized and played, the
    700 ms timer, microphone, token, socket 9 open); and realtime
    messages. *)
Definition demo (manual : bool) : Session :=
  init (lit "Ask one question.") (lit "21m00Tcm4TlvDq8ikWAM") manual.

Definition toListening : list Event :=
  [Connect; SynthesisResponse 2 (inr true); PlaybackEnded 3 true; TimerFired 4;
   MicPermission 5 (inr tt); TokenResponse 8 (inr tt); SocketOpen 9 true].

Definition listening (manual : bool) : Session := run (demo manual) toListening.

Definition scribe (type content : string) : WsData :=
  Parsed {| message_type := Some (lit type); msg_text := Some (lit content);
            msg_error := None |}.

Definition scribeFailure (type : string) : WsData :=
  Parsed {| message_type := Some (lit type); msg_text := None;
            msg_error := Some (lit "invalid token") |}.

End Session.

(** ** The WAV upload helper [blobToWavBase64] *)

Module WavBase64.
Import Codec.

(** [arrayBufferToBase64]: one character per byte, then [btoa]. *)
Definition arrayBufferToBase64 (buffer : list Z) : string := btoa buffer.

(** [blobToWavBase64], from the buffer [decodeAudioData] resolves with. *)
Definition blobToWavBase64 (fl64 : Q -> Q) (audioBuffer : AudioBuffer) : string :=
  arrayBufferToBase64 (audioBufferToWav fl64 audioBuffer).

(** A capture buffer at 48 kHz, to be sent at 16 kHz. *)
Definition capture : list Q := [1 # 2; -1 # 4; 3 # 2; 0; 1 # 4; 1; -1].

End WavBase64.

(** ** Observations on the transcript and on the sockets of the session *)

Module Turns.
Import JsString Session.

(** [fragment] as a test: the text is not empty and [trim] leaves it alone. *)
Definition isFragment (t : jsstring) : bool := truthy t && eqb (trim t) t.

(** The transcript read as turns: a user entry holds a trimmed, non-empty
    text; an assistant entry comes only directly after a user entry. *)
Fixpoint turns (afterUser : bool) (l : list Message) : bool :=
  match l with
  | [] => true
  | m :: r =>
      match role m with
      | user => isFragment (text m) && turns true r
      | ai => afterUser && turns false r
      end
  end.

Definition endsWithUser (l : list Message) : bool :=
  match last l with
  | Some m => match role m with user => true | ai => false end
  | None => false
  end.

(** What a suspended call holds: the transcript a dialogue request was
    issued with reads as turns and ends with the user's entry. *)
Definition heldTurns (c : Cont) : Prop :=
  match c with
  | AwaitInterviewer nextWithUser =>
      turns false nextWithUser = true /\ endsWithUser nextWithUser = true
  | _ => True
  end.

(** The [Audio] element in [currentAudioRef] is older than the next id,
    and its key holds its own [onended]/[onerror] continuation, if any. *)
Definition audioElement (s : Session) : Prop :=
  forall el, currentAudioRef s = Some el ->
    (el < next s)%nat /\
    forall c, pending s !! el = Some c -> c = AwaitPlayback HtmlAudio.

Definition shaped (s : Session) : Prop :=
  turns false (transcriptRef s) = true /\
  turns false (transcript s) = true /\
  map_Forall (fun _ c => heldTurns c) (pending s) /\
  audioElement s.

(** The two halves of [disconnect] around its call of [stopRecording]:
    the timers and playback handles it lets go of first, and the state it
    resets last. *)
Definition disconnect_handles (s : Session) : Session :=
  let s := match pendingManualCommitTimeoutRef s with
           | Some id => set_pendingManualCommitTimeoutRef None (clearTimeout id s)
           | None => s
           end in
  let s := match startRecordingTimeoutRef s with
           | Some id => set_startRecordingTimeoutRef None (clearTimeout id s)
           | None => s
           end in
  let s := match currentAudioRef s with
           | Some el => set_currentAudioRef None (drop el (log (PauseAudio el) s))
           | None => s
           end in
  let s := match currentPlaybackSourceRef s with
           | Some src => set_currentPlaybackSourceRef None (log (StopSource src) s)
           | None => s
           end in
  match playbackContextRef s with
  | Some ctx => set_playbackContextRef None (log (CloseAudioContext ctx) s)
  | None => s
  end.

Definition disconnect_state (s : Session) : Session :=
  let s := set_status disconnected s in
  let s := set_errorMessage None s in
  let s := set_isUserSpeaking false s in
  let s := set_isAiSpeaking false s in
  let s := set_isAiSpeakingRef false s in
  let s := set_isProcessingRef false s in
  let s := set_isListeningRef false s in
  let s := set_manualBufferRef [] s in
  set_pendingManualCommitRef false s.

Definition isSocketClose (e : Effect) : bool :=
  match e with WsCloseCall _ => true | _ => false end.

(** A turn whose dialogue request is in flight, and the session while
    its socket is still connecting (the token has just arrived). *)
Definition awaitingReply : Session :=
  step (listening false) (SocketMessage 9 (scribe "committed_transcript" "I slept badly")).

Definition socketConnecting : Session :=
  run (demo false)
    [Connect; SynthesisResponse 2 (inr true); PlaybackEnded 3 true; TimerFired 4;
     MicPermission 5 (inr tt); TokenResponse 8 (inr tt)].

End Turns.

(** ** The journal history [useJournalHistory] *)

Module Journal.
Import JsString Session.

Record JournalEntry := {
  id : jsstring;
  date : jsstring;
  preview : jsstring;
  fullTranscript : list Message;
}.

(** The one-character string U+2026. *)
Definition ellipsis : jsstring := [8230%N].

(** [transcriptToPreview(messages, maxLen)] *)
Definition transcriptToPreview (messages : list Message) (maxLen : nat) : jsstring :=
  let text := join (lit " ") (map text messages) in
  if (List.length text <=? maxLen)%nat then text
  else trim (firstn maxLen text) ++ ellipsis.

(** [saveEntry(transcript)]: the new list of entries and the value
    returned ([None] is [undefined]).  [newId] is what [generateId()]
    returns and [now] what [new Date().toISOString()] returns. *)
Definition saveEntry (newId now : jsstring) (transcript : list Message)
    (entries : list JournalEntry) : list JournalEntry * option jsstring :=
  match transcript with
  | [] => (entries, None)
  | _ =>
      let entry := {| id := newId; date := now;
                      preview := transcriptToPreview transcript 100;
                      fullTranscript := transcript |} in
      (entry :: entries, Some newId)
  end.

Definition clearHistory (entries : list JournalEntry) : list JournalEntry := [].

(** [deleteEntry(id)] *)
Definition deleteEntry (entryId : jsstring) (entries : list JournalEntry) : list JournalEntry :=
  List.filter (fun e => negb (eqb (id e) entryId)) entries.

(** What [localStorage] holds under the key of the journal, as
    [loadFromStorage] tells the cases apart: reading or parsing it
    throws; there is no item, or an empty one; it is JSON but not an
    array; or it is an array.  The items of a stored array are taken to
    have the shape of an entry, as [saveToStorage] writes them; their
    contents are whatever was stored: nothing is validated. *)
Inductive Stored :=
| Unreadable
| Absent
| NotAnArray
| StoredArray (items : list JournalEntry).

(** [loadFromStorage()] *)
Definition loadFromStorage (stored : Stored) : list JournalEntry :=
  match stored with
  | StoredArray items => items
  | Unreadable | Absent | NotAnArray => []
  end.

(** A conversation of two entries, and the ids of two saved entries. *)
Definition conversation : list Message :=
  [{| role := user; text := lit "I slept badly" |};
   {| role := ai; text := lit "Why was that?" |}].

End Journal.

(** ** The page [Personaplex] and its [ConnectButton]

    The page holds the hook, the journal and the toast.  The page states
    [transcript] and [interimTranscript] are the fields of the same name
    of the session, which the hook writes through [onTranscriptUpdate]
    and [onInterimTranscript].  The settings are left as the page first
    renders them (the default prompt, the default voice, manual mode
    off): a page whose settings were changed is not covered.  The
    journal starts as [loadFromStorage] returns it; that the page writes
    it back after every change is not tracked.  One event is one handler
    followed by one render and its effects. *)

Module Page.
Import JsString Session Journal.

Record Page := {
  hook : Session;
  entries : list JournalEntry;
  toastMessage : option jsstring;
  (** the [setTimeout(() => setToastMessage(null), 3000)] not yet fired *)
  toastTimers : nat;
}.

(** [isConnected: status === "connected"] *)
Definition isConnected (s : Session) : bool :=
  match status s with connected => true | _ => false end.

Definition set_hook (v : Session) (p : Page) : Page :=
  {| hook := v; entries := entries p; toastMessage := toastMessage p;
     toastTimers := toastTimers p |}.

Definition set_entries (v : list JournalEntry) (p : Page) : Page :=
  {| hook := hook p; entries := v; toastMessage := toastMessage p;
     toastTimers := toastTimers p |}.

(** [setToastMessage(msg); setTimeout(() => setToastMessage(null), 3000)] *)
Definition toast (msg : jsstring) (p : Page) : Page :=
  {| hook := hook p; entries := entries p; toastMessage := Some msg;
     toastTimers := S (toastTimers p) |}.

Definition handleConnect (p : Page) : Page := set_hook (connect (hook p)) p.

(** [handleDisconnect]; [newId] and [now] are what [generateId()] and
    [new Date().toISOString()] return inside [saveEntry]. *)
Definition handleDisconnect (newId now : jsstring) (p : Page) : Page :=
  let transcript := transcript (hook p) in
  let p :=
    if (0 <? List.length transcript)%nat then
      let p := set_entries (fst (saveEntry newId now transcript (entries p))) p in
      toast (lit "Journal entry saved.") p
    else p in
  let p := set_hook (set_transcript [] (hook p)) p in
  let p := set_hook (set_interimTranscript [] (hook p)) p in
  set_hook (disconnect (hook p)) p.

(** The effect that depends on [isConnected]: it runs after a render in
    which [isConnected] changed. *)
Definition isConnected_effect (before : bool) (p : Page) : Page :=
  if negb (Bool.eqb before (isConnected (hook p))) then
    if negb (isConnected (hook p)) then
      let p := set_hook (set_transcript [] (hook p)) p in
      set_hook (set_interimTranscript [] (hook p)) p
    else p
  else p.

Inductive PageEvent :=
| ConnectButtonClick (newId now : jsstring)
| DoneSpeakingClick
| DeleteEntryClick (entryId : jsstring)
| GalleryToast (msg : jsstring)
| ToastTimeout
| Environment (e : Event).

Definition handle (p : Page) (ev : PageEvent) : Page :=
  match ev with
  | ConnectButtonClick newId now =>
      (* [disabled={disabled || status === "connecting"}],
         [onClick={isConnected ? onDisconnect : onConnect}] *)
      match status (hook p) with
      | connecting => p
      | connected => handleDisconnect newId now p
      | _ => handleConnect p
      end
  | DoneSpeakingClick =>
      (* rendered when [isConnected && manualMode && isUserSpeaking] *)
      if isConnected (hook p) && manualMode (hook p) && isUserSpeaking (hook p)
      then set_hook (commitManual (hook p)) p
      else p
  | DeleteEntryClick entryId => set_entries (deleteEntry entryId (entries p)) p
  | GalleryToast msg => toast msg p
  | ToastTimeout =>
      match toastTimers p with
      | O => p
      | S n => {| hook := hook p; entries := entries p; toastMessage := None;
                  toastTimers := n |}
      end
  | Environment e =>
      match e with
      | Connect | Disconnect | UserCommitRequested => p
      | _ => set_hook (Session.step (hook p) e) p
      end
  end.

Definition step (p : Page) (ev : PageEvent) : Page :=
  isConnected_effect (isConnected (hook p)) (handle p ev).

Definition run (p : Page) (events : list PageEvent) : Page := fold_left step events p.

Definition DEFAULT_PERSONAPLEX_PROMPT : jsstring :=
  lit ("You are an empathetic and insightful conversational journaling "
     ++ "assistant. Your goal is to provide a supportive space for the user to "
     ++ "reflect on their thoughts, experiences, and emotions. Read the user's "
     ++ "entries and respond naturally. Ask open-ended questions to encourage "
     ++ "further exploration, but always let the user guide the direction and "
     ++ "depth of the conversation. Avoid being overly prescriptive, giving "
     ++ "unsolicited advice, or summarizing their thoughts unnecessarily. Just "
     ++ "be a curious, active listener. Always facilitate conversation that "
     ++ "gets the user exploring their thoughts and emotions. Try to keep "
     ++ "responses brief and concise when possible to conserve tokens.")%string.

Definition DEFAULT_VOICE_ID : jsstring := lit "21m00Tcm4TlvDq8ikWAM".

(** The page after its first render and the effects of mounting: the
    hook with the initial settings ([textPrompt], [selectedVoiceId] and
    [manualMode] as [useState] initialises them), the journal as
    [setEntries(loadFromStorage())] sets it. *)
Definition mount (stored : Stored) : Page :=
  {| hook := init DEFAULT_PERSONAPLEX_PROMPT DEFAULT_VOICE_ID false;
     entries := loadFromStorage stored; toastMessage := None; toastTimers := 0 |}.

Inductive reachablePage : Page -> Prop :=
| reachable_mount stored : reachablePage (mount stored)
| reachable_event p ev : reachablePage p -> reachablePage (step p ev).

(** A first session, up to the dialogue request of its first turn. *)
Definition firstTurn : list PageEvent :=
  ConnectButtonClick (lit "entry-0") (lit "2026-01-01T00:00:00.000Z") ::
  map Environment
    [SynthesisResponse 2 (inr true); PlaybackEnded 3 true; TimerFired 4;
     MicPermission 5 (inr tt); TokenResponse 8 (inr tt); SocketOpen 9 true;
     SocketMessage 9 (scribe "committed_transcript" "I slept badly")].

(** The page, mounted over an empty storage, while the dialogue request
    of its first turn is in flight. *)
Definition awaitingPage : Page := run (mount Absent) firstTurn.

(** A stored journal whose one entry holds no conversation. *)
Definition storedJournal : Stored :=
  StoredArray [{| id := lit "entry-old"; date := lit "2025-12-31T00:00:00.000Z";
                  preview := []; fullTranscript := [] |}].

End Page.

(** ** The handlers after their upstream call

    [Api] models each handler up to its first upstream [fetch]; this is
    the rest: what the handler answers once the third-party service has
    answered, or the call has failed.  Responses carry their body as
    the JSON value that [JSON.stringify] is applied to. *)

Module Upstream.
Import JsString Api.

(** A value read out of parsed JSON; [None] is [undefined]. *)
Definition Value : Type := option Json.

Definition nullish (v : Value) : bool :=
  match v with
  | None | Some JNull => true
  | _ => false
  end.

(** [a ?? b] *)
Definition coalesce (a b : Value) : Value := if nullish a then b else a.

(** [v?.k]; none of the keys read is a property of a string, a number,
    a boolean or an array. *)
Definition get (k : string) (v : Value) : Value :=
  match v with
  | Some j => optProp k j
  | None => None
  end.

(** [v.k]: [None] is the TypeError of reading a property of [null] or
    [undefined]. *)
Definition read (k : string) (v : Value) : option Value :=
  match v with
  | Some j => prop k j
  | None => None
  end.

(** [v?.[0]] *)
Definition index0 (v : Value) : Value :=
  match v with
  | Some (JArr (x :: _)) => Some x
  | Some (JStr (c :: _)) => Some (JStr [c])
  | Some (JObj fields) => optProp "0" (JObj fields)
  | _ => None
  end.

(** A value in a condition. *)
Definition truthyValue (v : Value) : bool :=
  match v with
  | None | Some JNull => false
  | Some (JBool b) => b
  | Some (JNum n) => negb (Qeq_bool n 0)
  | Some (JStr s) => truthy s
  | Some (JArr _) | Some (JObj _) => true
  end.

(** [typeof v === "object"] *)
Definition typeofObject (v : Value) : bool :=
  match v with
  | Some JNull | Some (JArr _) | Some (JObj _) => true
  | _ => false
  end.

(** The number [n] in a template literal; [n] is an integer. *)
Definition decimal (n : Z) : jsstring := lit (NilZero.string_of_int (Z.to_int n)).

(** What the upstream service answered: [res.status] and the text of
    the body. *)
Record Fetched := { f_status : Z; f_rawText : jsstring }.

(** [res.ok] *)
Definition ok (status : Z) : bool := ((200 <=? status) && (status <=? 299))%Z.

(** What a handler can raise: the rejection of [fetch] or of reading the
    body, and the exceptions of the engine. *)
Inductive Exception :=
| Rejected (err : Session.Thrown)
| SyntaxError (text : jsstring)
| NullProperty (k : string)
| NotCallable (k : string)
| StatusRange (status : Z)
| NullBodyStatus (status : Z).

Record Reply := { replyStatus : Z; replyBody : Json }.

Definition object1 (k : string) (v : Value) : Json :=
  match v with
  | Some j => JObj [(lit k, j)]
  | None => JObj []
  end.

Definition errorReply (m : string) (code : Z) : Reply :=
  {| replyStatus := code; replyBody := object1 "error" (Some (JStr (lit m))) |}.

(** A null body status that [new Response] accepts as a status. *)
Definition nullBodyStatus (status : Z) : bool :=
  ((status =? 204) || (status =? 205) || (status =? 304))%Z.

(** [new Response(JSON.stringify(body), { status })] *)
Definition newResponse (body : Json) (status : Z) : Exception + Reply :=
  if ((status <? 200) || (599 <? status))%Z then inl (StatusRange status)
  else if nullBodyStatus status then inl (NullBodyStatus status)
  else inr {| replyStatus := status; replyBody := body |}.

Definition RACHEL : jsstring := lit "21m00Tcm4TlvDq8ikWAM".

Definition voiceJson (v : Voice) : Json :=
  JObj [(lit "voice_id", JStr (voice_id v)); (lit "name", JStr (name v))].

Definition FALLBACK_JSON : list Json := map voiceJson FALLBACK_VOICES.

(** [{ voice_id: v.voice_id ?? v.id ?? "", name: v.name }] of an item
    that is not [null]. *)
Definition mapVoice (v : Json) : Json * Value :=
  (match coalesce (coalesce (get "voice_id" (Some v)) (get "id" (Some v))) (Some (JStr [])) with
   | Some j => j
   | None => JStr []
   end,
   get "name" (Some v)).

Definition voiceOut (v : Json * Value) : Json :=
  JObj ((lit "voice_id", fst v) ::
        match snd v with
        | Some n => [(lit "name", n)]
        | None => []
        end).

Definition isNull (j : Json) : bool :=
  match j with JNull => true | _ => false end.

Definition isString (s : jsstring) (j : Json) : bool :=
  match j with JStr t => eqb t s | _ => false end.

Definition voicesReply (voices : list Json) : Reply :=
  {| replyStatus := 200; replyBody := object1 "voices" (Some (JArr voices)) |}.

Section Engine.

(** [JSON.parse]; [None] is its SyntaxError. *)
Variable JSON_parse : jsstring -> option Json.

(** [String(v)] of a value that is neither a string nor [undefined]. *)
Variable ToString : Json -> jsstring.

(** The [message] of an exception of the engine. *)
Variable message : Exception -> jsstring.

Definition String_ (v : Value) : jsstring :=
  match v with
  | None => lit "undefined"
  | Some (JStr s) => s
  | Some j => ToString j
  end.

(** The outer [catch (err)] of a handler:
    [err instanceof Error ? err.message : "Unknown error"]. *)
Definition caught (e : Exception) : Reply :=
  {| replyStatus := 500;
     replyBody := object1 "error"
       (Some (JStr (match e with
                    | Rejected err => Session.messageOf err "Unknown error"
                    | _ => message e
                    end))) |}.

(** [let data = {}; if (rawText.trim()) { try { data = JSON.parse(rawText) } catch {} }] *)
Definition parseOrEmpty (rawText : jsstring) : Json :=
  if truthy (trim rawText) then
    match JSON_parse rawText with
    | Some j => j
    | None => JObj []
    end
  else JObj [].

(** [rawText.trim() ? rawText.slice(0, n) : null] *)
Definition snippetOrNull (n : nat) (rawText : jsstring) : Value :=
  if truthy (trim rawText) then Some (JStr (firstn n rawText)) else Some JNull.

(** [block && typeof block.text === "string" ? block.text : ""] *)
Definition blockText (block : Json) : jsstring :=
  if truthyValue (Some block) then
    match get "text" (Some block) with
    | Some (JStr t) => t
    | _ => []
    end
  else [].

(** /api/interviewer, from [await fetch(..)] on. *)
Definition interviewer_respond (upstream : Session.Thrown + Fetched) : Reply :=
  match upstream with
  | inl err => caught (Rejected err)
  | inr res =>
      let rawText := f_rawText res in
      let data := Some (parseOrEmpty rawText) in
      if negb (ok (f_status res)) then
        let errMsg :=
          coalesce
            (coalesce
               (coalesce (get "message" (get "error" data)) (get "error" data))
               (snippetOrNull 200 rawText))
            (Some (JStr (lit "OpenRouter request failed (" ++ decimal (f_status res)
                         ++ lit ")"))) in
        {| replyStatus := 500; replyBody := object1 "error" (Some (JStr (String_ errMsg))) |}
      else
        let choice := index0 (get "choices" data) in
        let content := get "content" (get "message" choice) in
        match (match content with
               | Some (JStr s) => Some s
               | Some (JArr blocks) => Some (List.concat (map blockText blocks))
               | _ => None
               end) with
        | None => errorReply "No content generated" 500
        | Some text =>
            if negb (truthy text) || negb (truthy (trim text))
            then errorReply "No content generated" 500
            else {| replyStatus := 200;
                    replyBody := object1 "question" (Some (JStr (trim text))) |}
        end
  end.

(** /api/scribe-token, from [await fetch(..)] on. *)
Definition scribe_token_respond (upstream : Session.Thrown + Fetched) : Reply :=
  match upstream with
  | inl err => caught (Rejected err)
  | inr res =>
      let rawText := f_rawText res in
      let data := Some (parseOrEmpty rawText) in
      if negb (ok (f_status res)) then
        match read "detail" data with
        | None => caught (NullProperty "detail")
        | Some detail =>
            let errMsg :=
              coalesce
                (coalesce
                   (if typeofObject detail then get "message" detail else Some (JBool false))
                   (snippetOrNull 200 rawText))
                (Some (JStr (lit "ElevenLabs token failed (" ++ decimal (f_status res)
                             ++ lit ")"))) in
            {| replyStatus := 500; replyBody := object1 "error" errMsg |}
        end
      else
        match read "token" data with
        | None => caught (NullProperty "token")
        | Some (Some (JStr token)) =>
            if truthy token
            then {| replyStatus := 200; replyBody := object1 "token" (Some (JStr token)) |}
            else errorReply "No token in response" 500
        | Some _ => errorReply "No token in response" 500
        end
  end.

(** /api/voices, from [await fetch(..)] on; every exception ends in the
    fallback list. *)
Definition voices_respond (upstream : Session.Thrown + Fetched) : Reply :=
  match upstream with
  | inl _ => voicesReply FALLBACK_JSON
  | inr res =>
      if negb (ok (f_status res)) then voicesReply FALLBACK_JSON
      else
        match JSON_parse (f_rawText res) with
        | None => voicesReply FALLBACK_JSON
        | Some data =>
            match read "voices" (Some data) with
            | None => voicesReply FALLBACK_JSON
            | Some dataVoices =>
                match coalesce dataVoices (Some (JArr FALLBACK_JSON)) with
                | Some (JArr rawVoices) =>
                    if existsb isNull rawVoices then voicesReply FALLBACK_JSON
                    else
                      let voices :=
                        List.filter (fun v => truthyValue (Some (fst v)))
                          (map mapVoice rawVoices) in
                      let hasRachel := existsb (fun v => isString RACHEL (fst v)) voices in
                      let voicesWithDefault :=
                        if hasRachel then voices
                        else (JStr RACHEL, Some (JStr (lit "Rachel"))) :: voices in
                      voicesReply (map voiceOut voicesWithDefault)
                | _ => voicesReply FALLBACK_JSON
                end
            end
        end
  end.

(** /api/reformat, from [await fetch(..)] on. *)
Definition reformat_respond (upstream : Session.Thrown + Fetched) : Reply :=
  match upstream with
  | inl err => caught (Rejected err)
  | inr res =>
      match JSON_parse (f_rawText res) with
      | None => caught (SyntaxError (f_rawText res))
      | Some data =>
          if negb (ok (f_status res)) then
            match read "error" (Some data) with
            | None => caught (NullProperty "error")
            | Some err =>
                let errMsg :=
                  coalesce (coalesce (get "message" err) err)
                    (Some (JStr (lit "OpenRouter request failed"))) in
                match newResponse (object1 "error" errMsg) (f_status res) with
                | inl e => caught e
                | inr r => r
                end
            end
          else
            match read "choices" (Some data) with
            | None => caught (NullProperty "choices")
            | Some choices =>
                match get "content" (get "message" (index0 choices)) with
                | Some (JStr text) =>
                    if truthy text
                    then {| replyStatus := 200;
                            replyBody := object1 "text" (Some (JStr (trim text))) |}
                    else errorReply "No content generated" 500
                | _ => errorReply "No content generated" 500
                end
            end
      end
  end.

(** /api/voice, from [await fetch(..)] on; [arrayBuffer] is what
    [res.arrayBuffer()] gives. *)
Definition voice_respond (upstream : Session.Thrown + Fetched)
    (arrayBuffer : Session.Thrown + list Z) : Reply :=
  match upstream with
  | inl err => caught (Rejected err)
  | inr res =>
      let rawText := f_rawText res in
      if negb (ok (f_status res)) then
        let errMsg : Value :=
          if truthy (trim rawText) then
            match JSON_parse rawText with
            | Some err =>
                match read "detail" (Some err), read "message" (Some err) with
                | Some detail, Some msg =>
                    coalesce (coalesce (get "message" detail) msg)
                      (Some (JStr (firstn 200 rawText)))
                | _, _ => Some (JStr (firstn 200 rawText))
                end
            | None => Some (JStr (firstn 200 rawText))
            end
          else Some (JStr (lit "ElevenLabs request failed (" ++ decimal (f_status res)
                           ++ lit ")")) in
        {| replyStatus := 500; replyBody := object1 "error" errMsg |}
      else
        match arrayBuffer with
        | inl err => caught (Rejected err)
        | inr bytes =>
            {| replyStatus := 200;
               replyBody := JObj [(lit "audio", JStr (lit (Codec.btoa bytes)));
                                  (lit "format", JStr (lit "mp3"))] |}
        end
  end.

(** /api/transcribe, from the upstream request on; [f_status] is
    [res.statusCode ?? 0]. *)
Definition transcribe_respond (upstream : Session.Thrown + Fetched) : Reply :=
  match upstream with
  | inl err => caught (Rejected err)
  | inr res =>
      let rawText := f_rawText res in
      let statusCode := f_status res in
      let data := Some (parseOrEmpty rawText) in
      if ((statusCode <? 200) || (300 <=? statusCode))%Z then
        let errDetail := get "detail" data in
        let errMsg :=
          coalesce
            (coalesce
               (coalesce
                  (coalesce
                     (if typeofObject errDetail then get "message" errDetail
                      else Some (JBool false))
                     (match errDetail with
                      | Some (JStr d) => Some (JStr d)
                      | _ => Some JNull
                      end))
                  (get "message" data))
               (snippetOrNull 300 rawText))
            (Some (JStr (lit "ElevenLabs STT failed (" ++ decimal statusCode ++ lit ")"))) in
        {| replyStatus := 500; replyBody := object1 "error" errMsg |}
      else
        let text := get "text" data in
        let transcript := if nullish text then [] else trim (String_ text) in
        {| replyStatus := 200; replyBody := object1 "text" (Some (JStr transcript)) |}
  end.

(** A response of [Api] as it is sent; [thrown] is the [message] of the
    exception that an outer [catch] received. *)
Definition wire (thrown : jsstring) (r : Response) : Reply :=
  {| replyStatus := status r;
     replyBody :=
       match body r with
       | ErrorBody (Message m) => object1 "error" (Some (JStr m))
       | ErrorBody ExceptionMessage => object1 "error" (Some (JStr thrown))
       | VoicesBody list => object1 "voices" (Some (JArr (map voiceJson list)))
       end |}.

(** The handlers from end to end: [request] is what [request.json()]
    gives, [upstream] what the third-party service answers if called. *)
Definition answer (base64Length : jsstring -> nat) (thrown : jsstring)
    (e : Endpoint) (env : Env) (request : option Json)
    (upstream : Session.Thrown + Fetched) (arrayBuffer : Session.Thrown + list Z) : Reply :=
  match handle base64Length e env request with
  | Respond r => wire thrown r
  | CallUpstream =>
      match e with
      | interviewer => interviewer_respond upstream
      | voice => voice_respond upstream arrayBuffer
      | voices => voices_respond upstream
      | scribe_token => scribe_token_respond upstream
      | transcribe => transcribe_respond upstream
      | reformat => reformat_respond upstream
      end
  end.

End Engine.

(** An engine for examples: it parses the JSON texts of a table, and
    names its exceptions by their kind. *)
Definition tableParse (table : list (jsstring * Json)) (text : jsstring) : option Json :=
  snd <$> List.find (fun kv => eqb (fst kv) text) table.

Definition plainToString (j : Json) : jsstring :=
  match j with
  | JBool true => lit "true"
  | JBool false => lit "false"
  | JNull => lit "null"
  | _ => lit "[object Object]"
  end.

Definition plainMessage (e : Exception) : jsstring :=
  match e with
  | Rejected err => Session.messageOf err "Unknown error"
  | SyntaxError _ => lit "Unexpected token"
  | NullProperty _ => lit "Cannot read properties of null"
  | NotCallable _ => lit "is not a function"
  | StatusRange _ => lit "init[status] must be in the range of 200 to 599, inclusive."
  | NullBodyStatus _ => lit "Response with null body status cannot have body"
  end.

(** JSON texts: a string literal without escapes, and an object of one
    member. *)
Definition quoted (s : string) : jsstring := 34%N :: lit s ++ [34%N].

Definition member (k : string) (v : jsstring) : jsstring :=
  lit "{" ++ quoted k ++ lit ":" ++ v ++ lit "}".

Definition chatText : jsstring :=
  member "choices"
    (lit "[" ++ member "message" (member "content" (quoted "  Why was that? ")) ++ lit "]").

Definition questionText : jsstring := member "question" (quoted "Why was that?").

Definition unauthorizedText : jsstring := member "detail" (quoted "Unauthorized").

Definition errorFalseText : jsstring := member "error" (lit "false").

Definition rateLimitedText : jsstring :=
  member "error" (member "message" (quoted "Rate limit exceeded")).

Definition missingKeyText : jsstring :=
  member "error" (quoted "OPENROUTER_API_KEY is not configured").

Definition audioText : jsstring :=
  lit "{" ++ quoted "audio" ++ lit ":" ++ quoted "SUQz" ++ lit "," ++ quoted "format"
  ++ lit ":" ++ quoted "mp3" ++ lit "}".

Definition exampleParse : jsstring -> option Json :=
  tableParse
    [(chatText,
      JObj [(lit "choices",
             JArr [JObj [(lit "message",
                          JObj [(lit "content", JStr (lit "  Why was that? "))])]])]);
     (questionText, JObj [(lit "question", JStr (lit "Why was that?"))]);
     (unauthorizedText, JObj [(lit "detail", JStr (lit "Unauthorized"))]);
     (errorFalseText, JObj [(lit "error", JBool false)]);
     (rateLimitedText,
      JObj [(lit "error", JObj [(lit "message", JStr (lit "Rate limit exceeded"))])]);
     (missingKeyText, JObj [(lit "error", JStr (lit "OPENROUTER_API_KEY is not configured"))]);
     (audioText, JObj [(lit "audio", JStr (lit "SUQz")); (lit "format", JStr (lit "mp3"))])].

Definition configured : Env :=
  {| OPENROUTER_API_KEY := Some (lit "sk-or-example");
     ELEVENLABS_API_KEY := Some (lit "sk-el-example") |}.

End Upstream.

(** ** The client side of the API: the three fetchers of the hook *)

Module Client.
Import JsString Api Upstream.

(** What [fetch] resolved with, and the text of the body. *)
Record Received := { res_status : Z; res_statusText : jsstring; res_rawText : jsstring }.

(** [s.replace(/\s+/g, " ")]; [inRun] tells that the character before
    was white space. *)
Fixpoint collapseSpaces (inRun : bool) (s : jsstring) : jsstring :=
  match s with
  | [] => []
  | c :: r =>
      if isWhiteSpace c then
        if inRun then collapseSpaces true r else 32%N :: collapseSpaces true r
      else c :: collapseSpaces false r
  end.

Section Engine.

Variable JSON_parse : jsstring -> option Json.
Variable ToString : Json -> jsstring.
Variable message : Exception -> jsstring.

(** [throw new Error(data.error || fallback)] *)
Definition throwErrorOr (data : Json) (fallback : jsstring) : Session.Thrown :=
  match read "error" (Some data) with
  | None => Session.ErrorObject (message (NullProperty "error"))
  | Some e =>
      if truthyValue e then Session.ErrorObject (String_ ToString e)
      else Session.ErrorObject fallback
  end.

(** [let data = {}; if (rawText.trim()) { try { data = JSON.parse(rawText) }
    catch { throw new Error(unparsable) } }] *)
Definition parseOrThrow (unparsable : jsstring) (rawText : jsstring) : Session.Thrown + Json :=
  if truthy (trim rawText) then
    match JSON_parse rawText with
    | Some j => inr j
    | None => inl (Session.ErrorObject unparsable)
    end
  else inr (JObj []).

(** [snippet || res.statusText] with
    [snippet = rawText.slice(0, 80).replace(/\s+/g, " ")] *)
Definition snippetOr (res : Received) : jsstring :=
  let snippet := collapseSpaces false (firstn 80 (res_rawText res)) in
  if truthy snippet then snippet else res_statusText res.

Definition fetchInterviewerQuestion (response : Session.Thrown + Received)
    : Session.Thrown + jsstring :=
  match response with
  | inl err => inl err
  | inr res =>
      let status := res_status res in
      let unparsable :=
        if (status =? 404)%Z
        then lit "API route not found. Use 'vercel dev' for local dev with API."
        else if ok status then lit "Invalid response from server"
        else lit "Server error (" ++ decimal status ++ lit "): " ++ snippetOr res in
      match parseOrThrow unparsable (res_rawText res) with
      | inl err => inl err
      | inr data =>
          if negb (ok status) then
            inl (throwErrorOr data
                   (lit "Interviewer API failed (" ++ decimal status ++ lit ")"))
          else
            match read "question" (Some data) with
            | None => inl (Session.ErrorObject (message (NullProperty "question")))
            | Some (Some (JStr question)) =>
                if truthy question then inr question
                else inl (throwErrorOr data (lit "No question in response"))
            | Some _ => inl (throwErrorOr data (lit "No question in response"))
            end
      end
  end.

(** The result is [{ base64, format }] with [format = data.format ?? "mp3"]. *)
Definition fetchVoiceAudio (response : Session.Thrown + Received)
    : Session.Thrown + jsstring * Json :=
  match response with
  | inl err => inl err
  | inr res =>
      let status := res_status res in
      let unparsable :=
        if (status =? 404)%Z
        then lit "Voice API not found. Run 'npm run dev' (starts both Vite + API server). If port 3001 is in use, add API_PORT=3002 and VITE_API_URL=http://localhost:3002 to .env"
        else if ok status then lit "Invalid response from Voice API"
        else lit "Voice API error (" ++ decimal status ++ lit "): " ++ snippetOr res in
      match parseOrThrow unparsable (res_rawText res) with
      | inl err => inl err
      | inr data =>
          if negb (ok status) then
            inl (throwErrorOr data (lit "Voice API failed (" ++ decimal status ++ lit ")"))
          else
            match read "audio" (Some data) with
            | None => inl (Session.ErrorObject (message (NullProperty "audio")))
            | Some (Some (JStr audio)) =>
                if truthy audio then
                  inr (audio,
                       match coalesce (get "format" (Some data)) (Some (JStr (lit "mp3"))) with
                       | Some f => f
                       | None => JStr (lit "mp3")
                       end)
                else inl (throwErrorOr data (lit "No audio in response"))
            | Some _ => inl (throwErrorOr data (lit "No audio in response"))
            end
      end
  end.

Definition fetchScribeToken (response : Session.Thrown + Received)
    : Session.Thrown + jsstring :=
  match response with
  | inl err => inl err
  | inr res =>
      let status := res_status res in
      let unparsable :=
        if (status =? 404)%Z then lit "Scribe token API not found. Run 'npm run dev'."
        else lit "Scribe token API error (" ++ decimal status ++ lit ")" in
      match parseOrThrow unparsable (res_rawText res) with
      | inl err => inl err
      | inr data =>
          if negb (ok status) then
            inl (throwErrorOr data
                   (lit "Scribe token API failed (" ++ decimal status ++ lit ")"))
          else
            match read "token" (Some data) with
            | None => inl (Session.ErrorObject (message (NullProperty "token")))
            | Some (Some (JStr token)) =>
                if truthy token then inr token
                else inl (throwErrorOr data (lit "No token in response"))
            | Some _ => inl (throwErrorOr data (lit "No token in response"))
            end
      end
  end.

(** [fetchReformattedEntry] of the gallery: [res.json()], then
    [data.text], which may be [undefined]. *)
Definition fetchReformattedEntry (response : Session.Thrown + Received)
    : Session.Thrown + Value :=
  match response with
  | inl err => inl err
  | inr res =>
      match JSON_parse (res_rawText res) with
      | None => inl (Session.ErrorObject (message (SyntaxError (res_rawText res))))
      | Some data =>
          if negb (ok (res_status res)) then inl (throwErrorOr data (lit "Failed to reformat"))
          else
            match read "text" (Some data) with
            | None => inl (Session.ErrorObject (message (NullProperty "text")))
            | Some text => inr text
            end
      end
  end.

End Engine.

(** The reply of a handler as the client receives it: [rawText] is the
    text [JSON.stringify] made of the body. *)
Definition deliver (r : Reply) (statusText rawText : jsstring) : Received :=
  {| res_status := replyStatus r; res_statusText := statusText; res_rawText := rawText |}.

End Client.

(** ** The development server [scripts/api-server.ts] *)

Module Router.
Import JsString Api Upstream.

(** [url.split("?")[0]] *)
Fixpoint pathname (url : jsstring) : jsstring :=
  match url with
  | [] => []
  | c :: r => if (c =? 63)%N then [] else c :: pathname r
  end.

(** The chain of [if (pathname === .. && method === ..)]. *)
Definition route (url method : jsstring) : option Endpoint :=
  let pathname := pathname url in
  if eqb pathname (lit "/api/interviewer") && eqb method (lit "POST") then Some interviewer
  else if eqb pathname (lit "/api/voice") && eqb method (lit "POST") then Some voice
  else if eqb pathname (lit "/api/voices") && eqb method (lit "GET") then Some voices
  else if eqb pathname (lit "/api/scribe-token") && eqb method (lit "GET") then Some scribe_token
  else if eqb pathname (lit "/api/transcribe") && eqb method (lit "POST") then Some transcribe
  else if eqb pathname (lit "/api/reformat") && eqb method (lit "POST") then Some reformat
  else None.

Section Engine.

Variable JSON_parse : jsstring -> option Json.
Variable ToString : Json -> jsstring.
Variable message : Exception -> jsstring.
Variable base64Length : jsstring -> nat.

(** [request.json()] of the [Request] built with [body: body || undefined];
    the two GET routes build a request without a body and do not read it. *)
Definition requestJson (body : jsstring) : option Json :=
  if truthy body then JSON_parse body else None.

(** [handleRequest], for a [url] that [new Request] accepts; [thrown] is
    the message of the exception a handler catches before its upstream
    call, if it catches one. *)
Definition handleRequest (thrown : jsstring) (env : Env) (url method body : jsstring)
    (upstream : Session.Thrown + Fetched) (arrayBuffer : Session.Thrown + list Z) : Reply :=
  match route url method with
  | Some e =>
      answer JSON_parse ToString message base64Length thrown e env (requestJson body)
        upstream arrayBuffer
  | None => errorReply "Not found" 404
  end.

End Engine.

End Router.

(* ===================================================================== *)
(** * Part II. Properties *)
(* ===================================================================== *)

(** ** Strings: what [trim] returns *)

Module JsStringFacts.
Import JsString.

Lemma trimStart_blank s : forallb isWhiteSpace s = true -> trimStart s = [].
Proof.
  induction s as [|c r IH]; [reflexivity|]. cbn. intros H.
  apply andb_true_iff in H as [-> Hr]. exact (IH Hr).
Qed.

Lemma trim_blank s : forallb isWhiteSpace s = true -> trim s = [].
Proof. intros H. unfold trim. rewrite (trimStart_blank s H). reflexivity. Qed.

Lemma trimStart_kept s : headKept s = true -> trimStart s = s.
Proof. destruct s as [|c r]; [discriminate|]. cbn. intros H. apply negb_true_iff in H. rewrite H. reflexivity. Qed.

Lemma trimStart_head s : trimStart s = [] \/ headKept (trimStart s) = true.
Proof.
  induction s as [|c r IH]; [left; reflexivity|]. cbn.
  destruct (isWhiteSpace c) eqn:E; [exact IH|]. right. cbn. rewrite E. reflexivity.
Qed.

Lemma trimStart_suffix s : exists p, s = p ++ trimStart s.
Proof.
  induction s as [|c r [p IH]]; [exists []; reflexivity|]. cbn.
  destruct (isWhiteSpace c); [exists (c :: p); cbn; congruence | exists []; reflexivity].
Qed.

Lemma headKept_app s t : headKept s = true -> headKept (s ++ t) = true.
Proof. destruct s; [discriminate | exact id]. Qed.

Lemma headKept_nonempty s : headKept s = true -> s <> [].
Proof. destruct s; [discriminate | discriminate]. Qed.

Lemma trim_clean s : clean s -> trim s = s.
Proof.
  intros [Hh Hl]. unfold trim, trimEnd.
  rewrite (trimStart_kept s Hh), (trimStart_kept _ Hl). apply rev_involutive.
Qed.

Lemma trim_result s : trim s = [] \/ clean (trim s).
Proof.
  unfold trim, trimEnd. set (u := trimStart s).
  destruct (trimStart_head s) as [E|Hu]; fold u in E || fold u in Hu.
  - left. rewrite E. reflexivity.
  - destruct (trimStart_head (rev u)) as [E|Hv]; [left; rewrite E; reflexivity|].
    right. set (v := trimStart (rev u)) in *. split.
    + destruct (trimStart_suffix (rev u)) as [p Hp]. fold v in Hp.
      assert (Hu' : u = rev v ++ rev p).
      { rewrite <- (rev_involutive u), Hp, rev_app_distr. reflexivity. }
      destruct (rev v) as [|c r] eqn:Er.
      * apply (f_equal (@rev N)) in Er. rewrite rev_involutive in Er. subst v.
        rewrite Er in Hv. discriminate.
      * rewrite Hu' in Hu. exact Hu.
    + rewrite rev_involutive. exact Hv.
Qed.

Lemma clean_nonempty s : clean s -> s <> [].
Proof. intros [H _]. exact (headKept_nonempty s H). Qed.

Lemma join_cons_cons sep x y r : join sep (x :: y :: r) = x ++ sep ++ join sep (y :: r).
Proof. reflexivity. Qed.

(** Fragments joined by a separator start and end as fragments do. *)
Lemma join_clean sep l : l <> [] -> Forall clean l -> clean (join sep l).
Proof.
  intros Hne Hl. induction Hl as [|x r Hx Hr IH]; [congruence|].
  destruct r as [|y r]; [exact Hx|].
  rewrite join_cons_cons. destruct Hx as [Hh Ht]. split.
  - apply headKept_app, Hh.
  - rewrite !rev_app_distr, <- app_assoc. apply headKept_app, IH. discriminate.
Qed.


End JsStringFacts.

(** ** The audio codec *)

Module CodecFacts.
Import Codec.

(** *** base64 *)

Lemma b64_inverse n : sextet n -> b64_index (b64 n) = Some n /\ is_pad (b64 n) = false.
Proof.
  intros [Hlo Hhi].
  assert (Hk : exists k : nat, (k < 64)%nat /\ n = Z.of_nat k).
  { exists (Z.to_nat n). split; lia. }
  destruct Hk as (k & Hk & ->). clear Hlo Hhi.
  do 64 (destruct k as [|k]; [split; reflexivity|]). lia.
Qed.

Lemma triples_ind {A} (P : list A -> Prop) :
  P [] -> (forall a, P [a]) -> (forall a b, P [a; b]) ->
  (forall a b c r, P r -> P (a :: b :: c :: r)) ->
  forall l, P l.
Proof.
  intros H0 H1 H2 H3 l.
  assert (H : forall n l, (List.length l <= n)%nat -> P l).
  { induction n as [|n IH]; intros [|a [|b [|c r]]] Hl; cbn in Hl; auto; try lia.
    apply H3, IH. cbn in *. lia. }
  apply (H (List.length l)). lia.
Qed.

Ltac divmod := unfold sextet, byte in *; Z.div_mod_to_equations; lia.

Ltac sextets :=
  repeat match goal with
  | |- context [b64_index (b64 ?n)] =>
      let H := fresh in
      assert (H : sextet n) by divmod;
      destruct (b64_inverse n H) as [-> ?]; clear H
  | |- context [is_pad (b64 ?n)] =>
      let H := fresh in
      assert (H : sextet n) by divmod;
      destruct (b64_inverse n H) as [_ ->]; clear H
  end.

Lemma atob_btoa l : Forall byte l -> atob (btoa l) = Some l.
Proof.
  induction l as [|a|a b|a b c r IH] using triples_ind; intros Hl.
  - reflexivity.
  - inversion_clear Hl as [|? ? Ha _].
    cbn [btoa atob]. sextets. cbn. repeat f_equal; divmod.
  - inversion_clear Hl as [|? ? Ha Hl']. inversion_clear Hl' as [|? ? Hb _].
    cbn [btoa atob]. sextets. cbn. repeat f_equal; divmod.
  - inversion_clear Hl as [|? ? Ha Hl']. inversion_clear Hl' as [|? ? Hb Hl''].
    inversion_clear Hl'' as [|? ? Hc Hr].
    cbn [btoa atob]. sextets. rewrite (IH Hr). cbn. repeat f_equal; divmod.
Qed.


(** *** 16-bit PCM *)

Lemma le16_bytes pcm : Forall byte (flat_map le16 pcm).
Proof.
  induction pcm as [|v pcm IH]; cbn; [constructor|].
  constructor; [divmod|]. constructor; [divmod | exact IH].
Qed.

Lemma int16_of_le16 v : int16 v -> int16_of_le (v mod 256) ((v / 256) mod 256) = v.
Proof.
  unfold int16, int16_of_le. intros Hv.
  destruct (Z.leb_spec 32768 (v mod 256 + 256 * ((v / 256) mod 256))); divmod.
Qed.

Lemma pcm_of_le16 pcm : Forall int16 pcm -> pcm_of_bytes (flat_map le16 pcm) = Some pcm.
Proof.
  induction 1 as [|v pcm Hv _ IH]; [reflexivity|].
  cbn [flat_map le16 app pcm_of_bytes]. rewrite IH, (int16_of_le16 v Hv). reflexivity.
Qed.

Lemma decodePcmBase64_btoa pcm :
  Forall int16 pcm -> decodePcmBase64 (btoa (flat_map le16 pcm)) = Some pcm.
Proof.
  intros H. unfold decodePcmBase64. rewrite (atob_btoa _ (le16_bytes pcm)).
  exact (pcm_of_le16 pcm H).
Qed.

Lemma ToInt16_range x : int16 (ToInt16 x).
Proof.
  unfold ToInt16, int16.
  destruct (Z.leb_spec 32768 (Qtrunc x mod 65536)); divmod.
Qed.

(** *** Truncation and the clamp *)

Lemma Qtrunc_comp x y : x == y -> Qtrunc x = Qtrunc y.
Proof.
  intros H. unfold Qtrunc. rewrite (Qfloor_comp _ _ H), (Qceiling_comp _ _ H).
  replace (Qle_bool 0 y) with (Qle_bool 0 x); [reflexivity|].
  apply eq_true_iff_eq. rewrite !Qle_bool_iff, H. reflexivity.
Qed.

Lemma Qtrunc_inject_Z z : Qtrunc (inject_Z z) = z.
Proof. unfold Qtrunc. rewrite Qfloor_Z, Qceiling_Z. destruct (Qle_bool _ _); reflexivity. Qed.

Lemma Qltb_lt x y : Qltb x y = true <-> x < y.
Proof.
  unfold Qltb. rewrite negb_true_iff, <- not_true_iff_false, Qle_bool_iff.
  split; [apply Qnot_le_lt | apply Qlt_not_le].
Qed.

Lemma Qltb_ge x y : Qltb x y = false <-> y <= x.
Proof. unfold Qltb. rewrite negb_false_iff. apply Qle_bool_iff. Qed.

Lemma clamp_range x : -1 <= clamp x <= 1.
Proof.
  unfold clamp, Math_max, Math_min.
  destruct (Qle_bool 1 x) eqn:H1; [change (Qle_bool (-1) 1) with true; cbv iota; lra|].
  destruct (Qle_bool (-1) x) eqn:H2.
  - apply Qle_bool_iff in H2. apply not_true_iff_false in H1.
    rewrite Qle_bool_iff in H1. apply Qnot_le_lt in H1. lra.
  - lra.
Qed.

Lemma clamp_id x : -1 <= x <= 1 -> clamp x == x.
Proof.
  intros Hx. unfold clamp, Math_max, Math_min.
  destruct (Qle_bool 1 x) eqn:H1.
  - apply Qle_bool_iff in H1. change (Qle_bool (-1) 1) with true. cbv iota. lra.
  - destruct (Qle_bool (-1) x) eqn:H2; [reflexivity|].
    apply not_true_iff_false in H2. rewrite Qle_bool_iff in H2. lra.
Qed.

Lemma clamp_choice x : clamp x = x \/ clamp x = 1 \/ clamp x = -1.
Proof.
  unfold clamp, Math_max, Math_min.
  destruct (Qle_bool 1 x); [change (Qle_bool (-1) 1) with true; auto|].
  destruct (Qle_bool (-1) x); auto.
Qed.


Lemma Qceiling_bounds y : inject_Z (Qceiling y) - 1 < y /\ y <= inject_Z (Qceiling y).
Proof.
  split; [|apply Qle_ceiling].
  pose proof (Qceiling_lt y) as H. unfold Z.sub in H. rewrite inject_Z_plus in H. exact H.
Qed.

Lemma Qfloor_bounds y : inject_Z (Qfloor y) <= y /\ y < inject_Z (Qfloor y) + 1.
Proof.
  split; [apply Qfloor_le|].
  pose proof (Qlt_floor y) as H. rewrite inject_Z_plus in H. exact H.
Qed.

Lemma ToInt16_small y : int16 (Qtrunc y) -> ToInt16 y = Qtrunc y.
Proof.
  unfold int16, ToInt16. intros H.
  destruct (Z.leb_spec 32768 (Qtrunc y mod 65536)); divmod.
Qed.

Lemma ToInt16_comp x y : x == y -> ToInt16 x = ToInt16 y.
Proof. intros H. unfold ToInt16. rewrite (Qtrunc_comp _ _ H). reflexivity. Qed.

(** *** Exactness of the scaling on binary32 samples *)

Lemma binary32_unit : is_binary32 1 /\ is_binary32 (-1).
Proof.
  split; [exists 1%Z, 0%Z | exists (-1)%Z, 0%Z]; repeat split; try lia; reflexivity.
Qed.

Lemma binary32_clamp x : is_binary32 x -> is_binary32 (clamp x).
Proof.
  intros Hx. destruct (clamp_choice x) as [-> | [-> | ->]];
    [exact Hx | apply binary32_unit | apply binary32_unit].
Qed.

(** A binary32 value times a 16-bit integer has at most 40 significant
    bits: the product is a binary64 value, and no rounding takes place. *)
Lemma binary64_scaled x (k : Z) :
  is_binary32 x -> (0 <= k <= 2 ^ 16)%Z -> is_binary64 (x * inject_Z k).
Proof.
  intros (m & e & Hm & He & Hx) Hk. exists (m * k)%Z, e. repeat split; try lia.
  - rewrite Z.abs_mul. apply Z.le_lt_trans with (Z.abs m * 2 ^ 16)%Z; [|lia].
    apply Z.mul_le_mono_nonneg_l; lia.
  - rewrite Hx, inject_Z_mult. ring.
Qed.

Section Quantisation.

Variable fl64 : Q -> Q.
Variable fl32 : Q -> Q.

(** What IEEE 754 rounding guarantees: a representable result is
    returned as it is. *)
Hypothesis fl64_exact : forall q, is_binary64 q -> fl64 q == q.

Lemma scale_exact x :
  is_binary32 x ->
  scale fl64 x == (if Qltb (clamp x) 0 then clamp x * 32768 else clamp x * 32767).
Proof.
  intros Hx. unfold scale. cbv zeta.
  destruct (Qltb (clamp x) 0); apply fl64_exact;
    [apply (binary64_scaled _ 32768) | apply (binary64_scaled _ 32767)];
    auto using binary32_clamp; lia.
Qed.

(** The stored sample is the scaled clamped input truncated toward zero;
    the 16-bit store never wraps. *)
Lemma quantize_bounds x :
  is_binary32 x ->
  let c := clamp x in
  let v := inject_Z (quantize fl64 x) in
  (c < 0 -> c * 32768 <= v /\ v < c * 32768 + 1 /\ v <= 0) /\
  (0 <= c -> v <= c * 32767 /\ c * 32767 < v + 1 /\ 0 <= v).
Proof.
  intros Hx. cbv zeta. unfold quantize. rewrite (ToInt16_comp _ _ (scale_exact x Hx)).
  pose proof (clamp_range x) as [Hlo Hhi]. set (c := clamp x) in *.
  destruct (Qltb c 0) eqn:Hc.
  - apply Qltb_lt in Hc. split; [intros _ | intros H; lra]. set (y := c * 32768).
    assert (Hy : -32768 <= y < 0) by (unfold y; lra).
    assert (Ht : Qtrunc y = Qceiling y).
    { unfold Qtrunc. destruct (Qle_bool 0 y) eqn:E; [|reflexivity].
      apply Qle_bool_iff in E. lra. }
    destruct (Qceiling_bounds y) as [Hl Hu].
    assert (Hk : (-32768 <= Qceiling y <= 0)%Z).
    { split.
      - rewrite <- (Qceiling_Z (-32768)). apply Qceiling_resp_le. apply Hy.
      - rewrite <- (Qceiling_Z 0). apply Qceiling_resp_le. apply Qlt_le_weak, Hy. }
    rewrite ToInt16_small by (rewrite Ht; unfold int16; lia).
    rewrite Ht. set (k := Qceiling y) in *.
    assert (Hk0 : inject_Z k <= 0) by (change 0 with (inject_Z 0); rewrite <- Zle_Qle; lia).
    clearbody k. repeat split; lra.
  - apply Qltb_ge in Hc. split; [intros H; lra | intros _]. set (y := c * 32767).
    assert (Hy : 0 <= y <= 32767) by (unfold y; lra).
    assert (Ht : Qtrunc y = Qfloor y).
    { unfold Qtrunc. destruct (Qle_bool 0 y) eqn:E; [reflexivity|].
      apply not_true_iff_false in E. rewrite Qle_bool_iff in E. tauto. }
    destruct (Qfloor_bounds y) as [Hl Hu].
    assert (Hk : (0 <= Qfloor y <= 32767)%Z).
    { split.
      - rewrite <- (Qfloor_Z 0). apply Qfloor_resp_le. apply Hy.
      - rewrite <- (Qfloor_Z 32767). apply Qfloor_resp_le. apply Hy. }
    rewrite ToInt16_small by (rewrite Ht; unfold int16; lia).
    rewrite Ht. set (k := Qfloor y) in *.
    assert (Hk0 : 0 <= inject_Z k) by (change 0 with (inject_Z 0); rewrite <- Zle_Qle; lia).
    clearbody k. repeat split; lra.
Qed.

(** The stored sample is within one quantisation step of the clamped
    input under the inverse of the two scale factors, and within two
    steps under the uniform scale 1/32768. *)
Lemma quantize_error x :
  is_binary32 x ->
  Qabs (dequantize (quantize fl64 x) - clamp x) < 1 # 32767 /\
  Qabs (inject_Z (quantize fl64 x) / 32768 - clamp x) < 2 # 32768.
Proof.
  intros Hx. pose proof (quantize_bounds x Hx) as H. cbv zeta in H.
  pose proof (clamp_range x) as [Hlo Hhi].
  set (c := clamp x) in *. set (k := quantize fl64 x) in *. clearbody c k.
  destruct H as [Hneg Hpos].
  set (u := inject_Z k / 32768).
  assert (Hu : u * 32768 == inject_Z k) by (unfold u; field). clearbody u.
  set (w := inject_Z k / 32767).
  assert (Hw : w * 32767 == inject_Z k) by (unfold w; field).
  assert (Hd : dequantize k == (if (k <? 0)%Z then u else w)).
  { unfold dequantize. destruct (k <? 0)%Z; [|reflexivity].
    apply (Qmult_inj_r _ _ 32768); [discriminate|]. rewrite Hu. field. }
  clearbody w. split; apply Qabs_Qlt_condition.
  - rewrite Hd. destruct (Qlt_le_dec c 0) as [Hc|Hc].
    + destruct (Hneg Hc) as (H1 & H2 & H3).
      destruct (Z.ltb_spec k 0) as [Hk|Hk]; [lra|].
      assert (E : inject_Z k == 0).
      { apply Qle_antisym; [exact H3|]. change 0 with (inject_Z 0). rewrite <- Zle_Qle. exact Hk. }
      lra.
    + destruct (Hpos Hc) as (H1 & H2 & H3).
      destruct (Z.ltb_spec k 0) as [Hk|Hk]; [|lra].
      rewrite Zlt_Qlt in Hk. change (inject_Z 0) with 0 in Hk. lra.
  - destruct (Qlt_le_dec c 0) as [Hc|Hc].
    + destruct (Hneg Hc) as (H1 & H2 & H3). lra.
    + destruct (Hpos Hc) as (H1 & H2 & H3). lra.
Qed.

(** C7. Encoding with equal source and target rates resamples nothing:
    the chunk is the base64 of the little-endian 16-bit quantisation of
    the samples themselves, and what a receiver decodes from it is, sample
    by sample, within one quantisation step of the input clamped to
    [-1, 1] (within two steps under the uniform scale 1/32768), hence of
    the input itself wherever that lies in [-1, 1].
    (That the function is deterministic and free of effects is what it
    means for it to be a function of this embedding.) *)
Theorem float32ToPcmBase64_same_rate (samples : list Q) (targetRate sourceRate : Q) :
  Forall is_binary32 samples ->
  targetRate == sourceRate ->
  float32ToPcmBase64 fl64 fl32 samples (Some targetRate) (Some sourceRate)
    = Some (btoa (flat_map le16 (map (quantize fl64) samples))) /\
  exists pcm,
    decodePcmBase64 (btoa (flat_map le16 (map (quantize fl64) samples))) = Some pcm /\
    Forall2 (fun x v =>
               Qabs (dequantize v - clamp x) < 1 # 32767 /\
               Qabs (inject_Z v / 32768 - clamp x) < 2 # 32768 /\
               (-1 <= x <= 1 -> Qabs (dequantize v - x) < 1 # 32767))
            samples pcm.
Proof.
  intros Hs Hr. split.
  - unfold float32ToPcmBase64.
    replace (Qeq_bool targetRate sourceRate) with true
      by (symmetry; apply Qeq_bool_iff, Hr).
    rewrite andb_false_r. reflexivity.
  - exists (map (quantize fl64) samples). split.
    + apply decodePcmBase64_btoa. clear Hs.
      induction samples as [|x l IH]; cbn [map]; constructor;
        [apply ToInt16_range | exact IH].
    + induction Hs as [|x l Hx _ IH]; cbn [map]; constructor; [|exact IH].
      destruct (quantize_error x Hx) as [He Hu]. split; [exact He|]. split; [exact Hu|].
      intros Hin. pose proof (clamp_id x Hin) as Hc.
      apply Qabs_Qlt_condition. apply Qabs_Qlt_condition in He.
      set (d := dequantize (quantize fl64 x)) in *. clearbody d.
      set (c := clamp x) in *. clearbody c. lra.
Qed.

(** *** The WAV container *)

Lemma le_value_le16 v : le_value (le16 v) = (v mod 65536)%Z.
Proof. unfold le16, le_value. divmod. Qed.

Lemma le_value_le32 v : le_value (le32 v) = (v mod 4294967296)%Z.
Proof. unfold le32, le_value. divmod. Qed.

Lemma ToUint32_int q (z : Z) : q == inject_Z z -> ToUint32 q = (z mod 4294967296)%Z.
Proof. intros H. unfold ToUint32. rewrite (Qtrunc_comp _ _ H), Qtrunc_inject_Z. reflexivity. Qed.

Lemma binary64_int (z : Z) q : (Z.abs z < 2 ^ 53)%Z -> q == inject_Z z -> is_binary64 q.
Proof.
  intros Hz Hq. exists z, 0%Z. repeat split; try lia.
  rewrite Hq. change (pow2 0) with 1. ring.
Qed.

Lemma pcm_of_samples (g : nat -> Z) (l : list nat) :
  (forall i, int16 (g i)) ->
  pcm_of_bytes (flat_map (fun i => le16 (g i)) l) = Some (map g l).
Proof.
  intros Hg. induction l as [|i l IH]; [reflexivity|].
  cbn [flat_map le16 app pcm_of_bytes map]. rewrite IH, (int16_of_le16 _ (Hg i)). reflexivity.
Qed.

Lemma length_samples (g : nat -> Z) (l : list nat) :
  List.length (flat_map (fun i => le16 (g i)) l) = (2 * List.length l)%nat.
Proof. induction l as [|i l IH]; cbn [flat_map le16 app List.length]; lia. Qed.

Lemma wavSample_int16 ab i : int16 (wavSample fl64 ab i).
Proof.
  unfold wavSample. destruct (mixed fl64 ab i); [apply ToInt16_range | unfold int16; lia].
Qed.

Lemma wavSample_stereoMean ab i :
  wf_AudioBuffer ab -> (i < frames ab)%nat ->
  wavSample fl64 ab i = quantize fl64 (stereoMean fl64 ab i).
Proof.
  intros [Hne Hlen] Hi. unfold wavSample, mixed, stereoMean, getChannelData, numberOfChannels.
  destruct (channels ab) as [|c0 [|c1 rest]]; [congruence| |].
  - inversion_clear Hlen as [|? ? Hl _]. cbn.
    rewrite (nth_error_nth' c0 0) by lia. reflexivity.
  - inversion_clear Hlen as [|? ? Hl Hrest]. inversion_clear Hrest as [|? ? Hr _]. cbn.
    rewrite (nth_error_nth' c0 0), (nth_error_nth' c1 0) by lia. reflexivity.
Qed.

Lemma wavHeader_length ab : List.length (wavHeader fl64 ab) = 44%nat.
Proof. reflexivity. Qed.

Lemma wavHeader_fields ab :
  exists riff data, wavHeader fl64 ab =
    (writeString "RIFF" ++ le32 riff ++ writeString "WAVE" ++ writeString "fmt "
     ++ le32 16 ++ le16 1 ++ le16 1
     ++ le32 (ToUint32 (sampleRate ab)) ++ le32 (ToUint32 (fl64 (sampleRate ab * (1 * (16 / 8)))))
     ++ le16 2 ++ le16 16 ++ writeString "data" ++ le32 data)%Z
    /\ riff = ((36 + 2 * Z.of_nat (frames ab)) mod 4294967296)%Z
    /\ data = ((2 * Z.of_nat (frames ab)) mod 4294967296)%Z.
Proof.
  eexists _, _. split; [reflexivity|]. split.
  - apply ToUint32_int. rewrite inject_Z_plus, inject_Z_mult. field.
  - apply ToUint32_int. rewrite inject_Z_mult. field.
Qed.

(** C8 (amended). For a buffer of N frames the output is 44 header bytes
    followed by 2N data bytes; the header is RIFF, the RIFF size, WAVE,
    fmt , a 16-byte PCM format chunk declaring one channel, the sample
    rate, the byte rate, block align 2 and 16 bits, then data and the
    data size, each at its canonical offset and width; the sizes are
    36 + 2N and 2N (modulo 2^32, the width of the fields); and the data
    are the 16-bit quantisation of the mean of the first two channels
    (of the only channel of a mono buffer). *)
Theorem audioBufferToWav_layout (ab : AudioBuffer) :
  wf_AudioBuffer ab ->
  let N := Z.of_nat (frames ab) in
  let wav := audioBufferToWav fl64 ab in
  List.length wav = (44 + 2 * frames ab)%nat /\
  slice 0 4 wav = writeString "RIFF" /\
  le_value (slice 4 4 wav) = ((36 + 2 * N) mod 2 ^ 32)%Z /\
  slice 8 4 wav = writeString "WAVE" /\
  slice 12 4 wav = writeString "fmt " /\
  le_value (slice 16 4 wav) = 16%Z /\
  le_value (slice 20 2 wav) = 1%Z /\
  le_value (slice 22 2 wav) = 1%Z /\
  le_value (slice 24 4 wav) = ToUint32 (sampleRate ab) /\
  le_value (slice 32 2 wav) = 2%Z /\
  le_value (slice 34 2 wav) = 16%Z /\
  slice 36 4 wav = writeString "data" /\
  le_value (slice 40 4 wav) = ((2 * N) mod 2 ^ 32)%Z /\
  ((36 + 2 * N < 2 ^ 32)%Z ->
     le_value (slice 4 4 wav) = (36 + 2 * N)%Z /\ le_value (slice 40 4 wav) = (2 * N)%Z) /\
  (forall S : Z, (0 <= S)%Z -> (2 * S < 2 ^ 32)%Z -> sampleRate ab == inject_Z S ->
     le_value (slice 24 4 wav) = S /\ le_value (slice 28 4 wav) = (2 * S)%Z) /\
  pcm_of_bytes (skipn 44 wav)
    = Some (map (fun i => quantize fl64 (stereoMean fl64 ab i)) (seq 0 (frames ab))).
Proof.
  intros Hwf N wav.
  destruct (wavHeader_fields ab) as (riff & data & Hh & Hriff & Hdata).
  fold N in Hriff, Hdata.
  unfold wav, audioBufferToWav. rewrite Hh.
  set (samples := flat_map _ _).
  assert (Hlen : List.length samples = (2 * frames ab)%nat).
  { unfold samples. rewrite length_samples, length_seq. reflexivity. }
  assert (Hu32 : forall v, (0 <= v < 4294967296)%Z -> le_value (le32 v) = v).
  { intros v Hv. rewrite le_value_le32. apply Z.mod_small, Hv. }
  assert (Hriff' : le_value (le32 riff) = ((36 + 2 * N) mod 2 ^ 32)%Z).
  { rewrite le_value_le32, Hriff. apply Z.mod_mod. lia. }
  assert (Hdata' : le_value (le32 data) = ((2 * N) mod 2 ^ 32)%Z).
  { rewrite le_value_le32, Hdata. apply Z.mod_mod. lia. }
  assert (Hrate : le_value (le32 (ToUint32 (sampleRate ab))) = ToUint32 (sampleRate ab)).
  { apply Hu32. unfold ToUint32. apply Z.mod_pos_bound. lia. }
  split. { rewrite <- Hh, length_app, wavHeader_length, Hlen. reflexivity. }
  split. { reflexivity. }
  split. { exact Hriff'. }
  split. { reflexivity. }
  split. { reflexivity. }
  split. { reflexivity. }
  split. { reflexivity. }
  split. { reflexivity. }
  split. { exact Hrate. }
  split. { reflexivity. }
  split. { reflexivity. }
  split. { reflexivity. }
  split. { exact Hdata'. }
  split.
  { intros Hsmall. split.
    - change (le_value (le32 riff) = (36 + 2 * N)%Z). rewrite Hriff'. apply Z.mod_small. lia.
    - change (le_value (le32 data) = (2 * N)%Z). rewrite Hdata'. apply Z.mod_small. lia. }
  split.
  { intros S HS0 HS Heq. split.
    - change (le_value (le32 (ToUint32 (sampleRate ab))) = S).
      rewrite Hrate, (ToUint32_int _ S Heq). apply Z.mod_small. lia.
    - change (le_value (le32 (ToUint32 (fl64 (sampleRate ab * (1 * (16 / 8)))))) = (2 * S)%Z).
      assert (Hprod : sampleRate ab * (1 * (16 / 8)) == inject_Z (2 * S)).
      { rewrite Heq, inject_Z_mult. field. }
      rewrite le_value_le32, (ToUint32_int _ (2 * S)).
      + rewrite Z.mod_mod by lia. apply Z.mod_small. lia.
      + rewrite fl64_exact; [exact Hprod|]. apply (binary64_int (2 * S)); [lia | exact Hprod]. }
  rewrite <- Hh. rewrite skipn_app, wavHeader_length.
  rewrite skipn_all2 by (rewrite wavHeader_length; lia). cbn [app]. rewrite Nat.sub_diag, drop_0. unfold samples.
  rewrite pcm_of_samples by apply wavSample_int16.
  f_equal. apply map_ext_in. intros i Hi. apply in_seq in Hi.
  apply wavSample_stereoMean; [exact Hwf | lia].
Qed.


End Quantisation.

Lemma float32ToPcmBase64_same_rate_witness :
  let samples := [1 # 2; -1 # 4; 3 # 2] in
  Forall is_binary32 samples /\
  float32ToPcmBase64 exactRounding exactRounding samples (Some 16000) (Some 16000)
    = Some "/z8A4P9/"%string /\
  decodePcmBase64 "/z8A4P9/" = Some [16383; -8192; 32767]%Z.
Proof.
  cbv zeta.
  assert (Hs : Forall is_binary32 [1 # 2; -1 # 4; 3 # 2]).
  { repeat constructor.
    - exists 1%Z, (-1)%Z. repeat split; try lia; reflexivity.
    - exists (-1)%Z, (-2)%Z. repeat split; try lia; reflexivity.
    - exists 3%Z, (-1)%Z. repeat split; try lia; reflexivity. }
  split; [exact Hs|].
  destruct (float32ToPcmBase64_same_rate exactRounding exactRounding
              (fun q _ => Qeq_refl q) _ 16000 16000 Hs (Qeq_refl _)) as [-> _].
  split; vm_compute; reflexivity.
Defined.

Lemma audioBufferToWav_layout_witness :
  wf_AudioBuffer stereo /\
  List.length (audioBufferToWav exactRounding stereo) = 48%nat /\
  le_value (slice 40 4 (audioBufferToWav exactRounding stereo)) = 4%Z /\
  pcm_of_bytes (skipn 44 (audioBufferToWav exactRounding stereo)) = Some [16383; 0]%Z.
Proof.
  assert (Hwf : wf_AudioBuffer stereo).
  { split; [discriminate|]. repeat constructor. }
  split; [exact Hwf|].
  pose proof (audioBufferToWav_layout exactRounding (fun q _ => Qeq_refl q) stereo Hwf) as H.
  cbv zeta in H.
  destruct H as (Hlen & _ & _ & _ & _ & _ & _ & _ & _ & _ & _ & _ & Hdata & _ & _ & Hpcm).
  split; [exact Hlen|]. split; [exact Hdata|]. rewrite Hpcm. vm_compute. reflexivity.
Defined.

(** C8, as stated, fails on a buffer of three channels: the third channel
    never reaches the output, which is not the mean of the channels. *)
Lemma audioBufferToWav_third_channel_ignored :
  wf_AudioBuffer surround /\
  pcm_of_bytes (skipn 44 (audioBufferToWav exactRounding surround)) = Some [32767%Z] /\
  quantize exactRounding (meanOfChannels surround 0) = 10922%Z.
Proof.
  split; [split; [discriminate | repeat constructor]|].
  split; vm_compute; reflexivity.
Qed.

End CodecFacts.

(** ** The credential guard of the backend routes *)

Module ApiFacts.
Import JsString Api.

(** C9 (amended). With the credential of a route unset or empty, every
    route but /api/voices answers 500 with an [{error}] body, whatever
    the request; /api/voices answers 200 with the built-in voice list. *)
Theorem missing_credential_response
    (base64Length : jsstring -> nat) (e : Endpoint) (env : Env) (request : option Json) :
  missing (credential e env) = true ->
  (e <> voices -> isErrorResponse 500 (handle base64Length e env request)) /\
  (e = voices ->
   handle base64Length e env request
     = Respond {| status := 200; body := VoicesBody FALLBACK_VOICES |}).
Proof.
  intros Hm. split.
  - intros Hne. destruct e; cbn [handle credential] in *; try congruence;
      unfold interviewer_POST, voice_POST, scribe_token_GET, transcribe_POST, reformat_POST;
      rewrite Hm; eexists; reflexivity.
  - intros ->. cbn [handle credential] in *. unfold voices_GET. rewrite Hm. reflexivity.
Qed.

Lemma missing_credential_response_witness :
  missing (credential interviewer unconfigured) = true /\
  isErrorResponse 500 (handle (fun _ => 0%nat) interviewer unconfigured (Some JNull)).
Proof.
  assert (Hm : missing (credential interviewer unconfigured) = true) by reflexivity.
  split; [exact Hm|].
  destruct (missing_credential_response (fun _ => 0%nat) interviewer unconfigured
              (Some JNull) Hm) as [H _].
  apply H. discriminate.
Defined.

(** C9, as stated, fails for /api/voices, which answers 200 with the
    fallback list when its credential is missing. *)
Lemma voices_without_credential :
  missing (credential voices unconfigured) = true /\
  handle (fun _ => 0%nat) voices unconfigured None
    = Respond {| status := 200; body := VoicesBody FALLBACK_VOICES |} /\
  ~ isErrorResponse 500 (handle (fun _ => 0%nat) voices unconfigured None).
Proof.
  split; [reflexivity|]. split; [reflexivity|]. intros [e He]. discriminate He.
Qed.

End ApiFacts.

(** ** The session: frames, invariants and the turn-taking properties *)

Module SessionFacts.
Import JsString Session JsStringFacts.

Ltac split_match :=
  match goal with
  | |- context [match ?x with _ => _ end] =>
      lazymatch x with
      | context [match _ with _ => _ end] => fail
      | _ => destruct x eqn:?
      end
  end.

Lemma stopRecording_steps s :
  stopRecording s =
    set_isListeningRef false
      (set_audioContextRef None
        (whenSet audioContextRef (fun ctx => log (CloseAudioContext ctx))
          (whenSet streamRef (fun stream s => set_streamRef None (log (StopTracks stream) s))
            (whenSet sourceRef (fun src s => set_sourceRef None (log (DisconnectNode src) s))
              (whenSet processorRef
                 (fun proc s => set_processorRef None (log (DisconnectNode proc) s))
                 (whenSet wsRef
                    (fun ws s => if isOpen ws s then set_wsRef None (ws_close ws s) else s)
                    s)))))).
Proof. reflexivity. Qed.

(** A release step leaves alone whatever its body leaves alone. *)
Lemma whenSet_frame {A} (P : Session -> A) ref f s :
  (forall x, P (f x s) = P s) -> P (whenSet ref f s) = P s.
Proof. intros H. unfold whenSet. destruct (ref s); [apply H | reflexivity]. Qed.

Ltac release_frame P :=
  rewrite stopRecording_steps; cbn;
  repeat (rewrite (whenSet_frame P);
          [| intros; unfold ws_close, log, setReadyState; repeat split_match; reflexivity]);
  reflexivity.

Lemma whenSet_effects ref (E : nat -> Effect) f s :
  (forall x, effects (f x s) = effects s ++ [E x]) ->
  effects (whenSet ref f s)
    = effects s ++ match ref s with Some x => [E x] | None => [] end.
Proof.
  intros H. unfold whenSet. destruct (ref s); [apply H | symmetry; apply app_nil_r].
Qed.

Lemma stopRecording_frame s :
  let s' := stopRecording s in
  isProcessingRef s' = isProcessingRef s /\
  transcriptRef s' = transcriptRef s /\
  transcript s' = transcript s /\
  status s' = status s /\
  errorMessage s' = errorMessage s /\
  isAiSpeakingRef s' = isAiSpeakingRef s /\
  manualBufferRef s' = manualBufferRef s /\
  pendingManualCommitRef s' = pendingManualCommitRef s /\
  pendingManualCommitTimeoutRef s' = pendingManualCommitTimeoutRef s /\
  timers s' = timers s /\
  pending s' = pending s /\
  next s' = next s /\
  systemPrompt s' = systemPrompt s /\
  manualMode s' = manualMode s /\
  isListeningRef s' = false.
Proof.
  cbv zeta. repeat split.
  - release_frame isProcessingRef.
  - release_frame transcriptRef.
  - release_frame transcript.
  - release_frame status.
  - release_frame errorMessage.
  - release_frame isAiSpeakingRef.
  - release_frame manualBufferRef.
  - release_frame pendingManualCommitRef.
  - release_frame pendingManualCommitTimeoutRef.
  - release_frame timers.
  - release_frame pending.
  - release_frame next.
  - release_frame systemPrompt.
  - release_frame manualMode.
Qed.

Lemma stopRecording_effects s : effects (stopRecording s) = effects s ++ teardown s.
Proof.
  rewrite stopRecording_steps. cbn. unfold teardown.
  set (s1 := whenSet wsRef _ s).
  assert (H1 : effects s1 = effects s ++
            match wsRef s with Some ws => if isOpen ws s then [WsCloseCall ws] else [] | None => [] end
          /\ processorRef s1 = processorRef s /\ sourceRef s1 = sourceRef s
          /\ streamRef s1 = streamRef s /\ audioContextRef s1 = audioContextRef s).
  { unfold s1, whenSet, ws_close, isOpen, readyStateOf, setReadyState, log.
    repeat (cbn; split_match); cbn; rewrite ?app_nil_r; repeat split; congruence. }
  destruct H1 as (E1 & Rp & Rs & Rt & Ra). clearbody s1.
  set (s2 := whenSet processorRef _ s1).
  assert (H2 : effects s2 = effects s1 ++
            match processorRef s1 with Some x => [DisconnectNode x] | None => [] end
          /\ sourceRef s2 = sourceRef s1 /\ streamRef s2 = streamRef s1
          /\ audioContextRef s2 = audioContextRef s1).
  { unfold s2, whenSet. unfold processorRef. split_match; cbn; rewrite ?app_nil_r; repeat split; reflexivity. }
  destruct H2 as (E2 & Rs2 & Rt2 & Ra2). clearbody s2.
  set (s3 := whenSet sourceRef _ s2).
  assert (H3 : effects s3 = effects s2 ++
            match sourceRef s2 with Some x => [DisconnectNode x] | None => [] end
          /\ streamRef s3 = streamRef s2 /\ audioContextRef s3 = audioContextRef s2).
  { unfold s3, whenSet. unfold sourceRef. split_match; cbn; rewrite ?app_nil_r; repeat split; reflexivity. }
  destruct H3 as (E3 & Rt3 & Ra3). clearbody s3.
  set (s4 := whenSet streamRef _ s3).
  assert (H4 : effects s4 = effects s3 ++
            match streamRef s3 with Some x => [StopTracks x] | None => [] end
          /\ audioContextRef s4 = audioContextRef s3).
  { unfold s4, whenSet. unfold streamRef. split_match; cbn; rewrite ?app_nil_r; repeat split; reflexivity. }
  destruct H4 as (E4 & Ra4). clearbody s4.
  unfold whenSet. unfold audioContextRef, streamRef, sourceRef, processorRef in *.
  rewrite Ra4, Ra3, Ra2, Ra.
  split_match; cbn; rewrite ?app_nil_r;
    rewrite E4, E3, E2, E1, Rt3, Rt2, Rt, Rs2, Rs, Rp, <- ?app_assoc; reflexivity.
Qed.

Lemma teardown_silent s :
  List.filter isDialogueRequest (teardown s) = [] /\
  List.filter isListenAttempt (teardown s) = [] /\
  List.filter isSynthesisRequest (teardown s) = [] /\
  List.filter isSend (teardown s) = [].
Proof. unfold teardown. repeat split_match; cbn; auto. Qed.


Lemma stopRecording_isProcessingRef s : isProcessingRef (stopRecording s) = isProcessingRef s.
Proof. apply (stopRecording_frame s). Qed.

Lemma stopRecording_transcriptRef s : transcriptRef (stopRecording s) = transcriptRef s.
Proof. apply (stopRecording_frame s). Qed.

Lemma stopRecording_status s : status (stopRecording s) = status s.
Proof. apply (stopRecording_frame s). Qed.

Lemma stopRecording_errorMessage s : errorMessage (stopRecording s) = errorMessage s.
Proof. apply (stopRecording_frame s). Qed.

Lemma stopRecording_isAiSpeakingRef s : isAiSpeakingRef (stopRecording s) = isAiSpeakingRef s.
Proof. apply (stopRecording_frame s). Qed.

Lemma stopRecording_manualBufferRef s : manualBufferRef (stopRecording s) = manualBufferRef s.
Proof. apply (stopRecording_frame s). Qed.

Lemma stopRecording_pendingManualCommitRef s :
  pendingManualCommitRef (stopRecording s) = pendingManualCommitRef s.
Proof. apply (stopRecording_frame s). Qed.

Lemma stopRecording_pendingManualCommitTimeoutRef s :
  pendingManualCommitTimeoutRef (stopRecording s) = pendingManualCommitTimeoutRef s.
Proof. apply (stopRecording_frame s). Qed.

Lemma stopRecording_timers s : timers (stopRecording s) = timers s.
Proof. apply (stopRecording_frame s). Qed.

Lemma stopRecording_pending s : pending (stopRecording s) = pending s.
Proof. apply (stopRecording_frame s). Qed.

Lemma stopRecording_next s : next (stopRecording s) = next s.
Proof. apply (stopRecording_frame s). Qed.

Lemma stopRecording_systemPrompt s : systemPrompt (stopRecording s) = systemPrompt s.
Proof. apply (stopRecording_frame s). Qed.

Lemma stopRecording_manualMode s : manualMode (stopRecording s) = manualMode s.
Proof. apply (stopRecording_frame s). Qed.

Lemma stopRecording_isListeningRef s : isListeningRef (stopRecording s) = false.
Proof. apply (stopRecording_frame s). Qed.

Lemma stopRecording_pipelines s : pipelines (stopRecording s) = pipelines s.
Proof.
  unfold pipelines. rewrite stopRecording_effects, List.filter_app, length_app.
  destruct (teardown_silent s) as (-> & _). cbn. lia.
Qed.

Lemma stopRecording_listenAttempts s : listenAttempts (stopRecording s) = listenAttempts s.
Proof.
  unfold listenAttempts. rewrite stopRecording_effects, List.filter_app, length_app.
  destruct (teardown_silent s) as (_ & -> & _). cbn. lia.
Qed.

#[local] Arguments pipelines : simpl never.
#[local] Arguments listenAttempts : simpl never.

(** The counters read the log only. *)
Lemma pipelines_log e s :
  pipelines (log e s) = (pipelines s + if isDialogueRequest e then 1 else 0)%nat.
Proof.
  unfold pipelines, log. cbn. rewrite List.filter_app, length_app.
  cbn [List.filter]. destruct (isDialogueRequest e); cbn; lia.
Qed.

Lemma listenAttempts_log e s :
  listenAttempts (log e s) = (listenAttempts s + if isListenAttempt e then 1 else 0)%nat.
Proof.
  unfold listenAttempts, log. cbn. rewrite List.filter_app, length_app.
  cbn [List.filter]. destruct (isListenAttempt e); cbn; lia.
Qed.

Lemma pipelines_same s s' : effects s' = effects s -> pipelines s' = pipelines s.
Proof. unfold pipelines. intros ->. reflexivity. Qed.

Lemma listenAttempts_same s s' : effects s' = effects s -> listenAttempts s' = listenAttempts s.
Proof. unfold listenAttempts. intros ->. reflexivity. Qed.

#[local] Opaque stopRecording.

Ltac frames :=
  repeat first
    [ rewrite stopRecording_isProcessingRef | rewrite stopRecording_transcriptRef
    | rewrite stopRecording_status | rewrite stopRecording_errorMessage
    | rewrite stopRecording_isAiSpeakingRef | rewrite stopRecording_manualBufferRef
    | rewrite stopRecording_pendingManualCommitRef
    | rewrite stopRecording_pendingManualCommitTimeoutRef
    | rewrite stopRecording_timers | rewrite stopRecording_pending
    | rewrite stopRecording_next | rewrite stopRecording_systemPrompt
    | rewrite stopRecording_manualMode | rewrite stopRecording_isListeningRef
    | rewrite stopRecording_pipelines | rewrite stopRecording_listenAttempts
    | progress cbn ].

Lemma truthy_nonempty (t : jsstring) : t <> [] -> truthy t = true.
Proof. destruct t; [congruence | reflexivity]. Qed.

(** The finalize handler refuses a second turn. *)
Lemma processUserInput_busy t s : isProcessingRef s = true -> processUserInput t s = s.
Proof. intros H. unfold processUserInput. rewrite H. reflexivity. Qed.

(** The finalize handler starting a turn. *)
Lemma processUserInput_starts t s :
  isProcessingRef s = false -> trim t <> [] ->
  let s' := processUserInput t s in
  let turn := transcriptRef s ++ [{| role := user; text := t |}] in
  isProcessingRef s' = true /\
  transcriptRef s' = turn /\
  transcript s' = turn /\
  effects s' = effects (stopRecording (set_isProcessingRef true s))
               ++ [FetchInterviewer (systemPrompt s) turn] /\
  pending s' !! next s = Some (AwaitInterviewer turn) /\
  pipelines s' = S (pipelines s) /\
  isListeningRef s' = false /\
  manualBufferRef s' = manualBufferRef s /\
  pendingManualCommitRef s' = pendingManualCommitRef s /\
  pendingManualCommitTimeoutRef s' = pendingManualCommitTimeoutRef s /\
  timers s' = timers s /\
  status s' = status s.
Proof.
  intros Hp Ht. cbv zeta. unfold processUserInput. rewrite Hp, (truthy_nonempty _ Ht).
  cbn [negb orb]. unfold suspend, bump, log. frames.
  repeat split; try reflexivity.
  - apply lookup_insert_eq.
  - unfold pipelines. frames. rewrite List.filter_app, length_app. cbn.
    fold (pipelines (stopRecording (set_isProcessingRef true s))).
    rewrite stopRecording_pipelines. unfold pipelines. cbn. lia.
Qed.

#[local] Opaque trim join Codec.createSilentPcmBase64.

Lemma greeting_spoken : negb (truthy (trim greeting)) = false.
Proof. vm_compute. reflexivity. Qed.

Ltac busy Hp :=
  repeat first
    [ rewrite greeting_spoken
    | rewrite processUserInput_busy by (frames; exact Hp)
    | split_match
    | progress frames ];
  try exact Hp; try reflexivity; try congruence.

(** No callback but the end of [processUserInput] and [disconnect]
    clears the processing flag. *)
Lemma step_keeps_flag s e :
  isProcessingRef s = true ->
  (forall k r, e <> DialogueResponse k r) -> e <> Disconnect ->
  isProcessingRef (step s e) = true.
Proof.
  intros Hp Hd Hx. destruct e; try congruence; [| | | | | | | | | |].
  - unfold step, connect, speak, speakWithVoiceApi, suspend, bump, log, drop. busy Hp.
  - unfold step, commitManual, setTimeout, bump, log. busy Hp.
  - unfold step, startRecordingTimeout, manualCommitTimeout, startRecording, clearTimeout. busy Hp.
  - unfold step, voice_then, voice_catch, done, startRecordingAfterAI, setTimeout, suspend,
      bump, drop. busy Hp.
  - unfold step, playback_settled, done, startRecordingAfterAI, setTimeout, bump, drop. busy Hp.
  - unfold step, start_afterUserMedia, start_catch, suspend, bump, log, drop. busy Hp.
  - unfold step, start_afterToken, start_catch, bump, log, drop. busy Hp.
  - unfold step, ws_onopen, ws_close, setReadyState, readyStateOf, bump, log. busy Hp.
  - unfold step, ws_onmessage, onPartialTranscript, onCommittedTranscript, onScribeError,
      startRecording, clearTimeout. busy Hp.
  - unfold step, ws_onerror. busy Hp.
  - unfold step, ws_onclose, setReadyState. busy Hp.
Qed.

Lemma typeIs_inv k msg : typeIs k msg = true -> message_type msg = Some (lit k).
Proof.
  unfold typeIs, eqb. destruct (message_type msg) as [t|]; [|discriminate].
  intros H. apply bool_decide_eq_true in H. congruence.
Qed.

Lemma committed_not_other msg :
  typeIs "committed_transcript" msg = true ->
  typeIs "partial_transcript" msg = false /\ typeIs "error" msg = false /\
  typeIs "auth_error" msg = false /\ typeIs "quota_exceeded" msg = false.
Proof.
  intros H. apply typeIs_inv in H. unfold typeIs. rewrite H.
  repeat split; vm_compute; reflexivity.
Qed.

(** A [committed_transcript] message runs the committed branch on its
    text, and does nothing when it carries no string. *)
Lemma onmessage_committed msg s :
  typeIs "committed_transcript" msg = true ->
  ws_onmessage (Parsed msg) s =
    match msg_text msg with
    | Some t => onCommittedTranscript t s
    | None => s
    end.
Proof.
  intros H. destruct (committed_not_other msg H) as (Hp & He & Ha & Hq).
  unfold ws_onmessage. rewrite Hp, H, He, Ha, Hq. destruct (msg_text msg); reflexivity.
Qed.

Lemma teardown_no_dialogue s : List.filter isDialogueRequest (teardown s) = [].
Proof. apply (teardown_silent s). Qed.

Lemma teardown_no_listen s : List.filter isListenAttempt (teardown s) = [].
Proof. apply (teardown_silent s). Qed.

Ltac count_log :=
  unfold pipelines, listenAttempts; cbn;
  repeat (rewrite stopRecording_effects; cbn);
  rewrite ?List.filter_app, ?length_app, ?teardown_no_dialogue, ?teardown_no_listen;
  cbn; try lia.

(** While a turn is being processed, an event that asks for a turn to be
    finalized adds nothing to the transcript and starts no pipeline. *)
Lemma finalize_busy s e :
  isProcessingRef s = true -> finalizeEvent e ->
  transcriptRef (step s e) = transcriptRef s /\ pipelines (step s e) = pipelines s.
Proof.
  intros Hp He. destruct e as [| | | id | | | | | | | ws [|msg] | |]; try contradiction.
  - unfold step, commitManual, setTimeout, bump, log.
    repeat split_match; split; try reflexivity; count_log.
  - unfold step, startRecordingTimeout, manualCommitTimeout, startRecording, clearTimeout.
    repeat first [ rewrite processUserInput_busy by (frames; exact Hp) | split_match
                 | progress frames ]; split; try reflexivity; try congruence; count_log.
  - cbn in He. cbn [step]. destruct (isOpen ws s); [|split; reflexivity].
    rewrite (onmessage_committed msg s He). unfold onCommittedTranscript, clearTimeout.
    repeat first [ rewrite processUserInput_busy by (frames; exact Hp) | split_match
                 | progress frames ]; split; try reflexivity; try congruence; count_log.
Qed.

Lemma run_finalize_busy s es :
  isProcessingRef s = true -> Forall finalizeEvent es ->
  isProcessingRef (run s es) = true /\
  transcriptRef (run s es) = transcriptRef s /\
  pipelines (run s es) = pipelines s.
Proof.
  intros Hp Hes. revert s Hp. induction Hes as [|e es He _ IH]; intros s Hp; [auto|].
  assert (Hp' : isProcessingRef (step s e) = true).
  { apply step_keeps_flag; [exact Hp | |]; destruct e; try discriminate; contradiction. }
  destruct (finalize_busy s e Hp He) as [Ht Hn].
  destruct (IH (step s e) Hp') as (H1 & H2 & H3).
  unfold run in *. cbn [fold_left]. rewrite H2, H3. auto.
Qed.

(** The end of [processUserInput]: the flag is cleared as soon as the
    dialogue request has settled and, on success, the reply has been
    handed to [speak]. *)
Lemma dialogue_settled s k nextWithUser r :
  pending s !! k = Some (AwaitInterviewer nextWithUser) ->
  let s' := step s (DialogueResponse k r) in
  isProcessingRef s' = false /\
  forall question, r = inr question -> trim question <> [] ->
    transcriptRef s' = nextWithUser ++ [{| role := ai; text := question |}] /\
    isAiSpeakingRef s' = true /\
    pending s' !! next s = Some AwaitVoice /\
    last (effects s') = Some (FetchVoice question (selectedVoiceId s)) /\
    timers s' = timers s.
Proof.
  intros Hk. cbv zeta. cbn [step]. rewrite Hk. split; [reflexivity|].
  intros question -> Hq. unfold processUserInput_resumed, speak, speakWithVoiceApi.
  rewrite (truthy_nonempty _ Hq). cbn [negb]. unfold suspend, bump, log, drop.
  repeat (cbn; split_match); cbn; repeat split; try reflexivity;
    try apply lookup_insert_eq; rewrite last_snoc; reflexivity.
Qed.

Lemma fragment_clean t : fragment t -> clean t.
Proof.
  intros [Hne Ht]. destruct (trim_result t) as [E|Hc]; [congruence|].
  rewrite Ht in Hc. exact Hc.
Qed.

Lemma trimmed_clean raw : trim raw <> [] -> clean (trim raw).
Proof. intros Hne. destruct (trim_result raw) as [E|Hc]; [congruence | exact Hc]. Qed.

(** What the manual strategy hands to the finalize handler: the buffered
    fragments joined by single spaces, which [trim] leaves as they are. *)
Lemma fullText_joined (buffer : list jsstring) :
  buffer <> [] -> Forall clean buffer ->
  trim (join (lit " ") buffer) = join (lit " ") buffer /\ join (lit " ") buffer <> [].
Proof.
  intros Hne Hb. pose proof (join_clean (lit " ") buffer Hne Hb) as Hc.
  split; [apply trim_clean, Hc | apply clean_nonempty, Hc].
Qed.

(** Finalizing from the manual buffer, as both the acknowledgement branch
    and the timeout branch do it. *)
Lemma manual_finalize s0 (buffer : list jsstring) :
  isProcessingRef s0 = false -> buffer <> [] -> Forall clean buffer ->
  let fullText := trim (join (lit " ") buffer) in
  let s3 := stopRecording (set_pendingManualCommitRef false (set_manualBufferRef [] s0)) in
  let s' := if truthy fullText then processUserInput fullText s3 else s3 in
  let turn := transcriptRef s0 ++ [{| role := user; text := join (lit " ") buffer |}] in
  transcriptRef s' = turn /\
  pipelines s' = S (pipelines s0) /\
  last (effects s') = Some (FetchInterviewer (systemPrompt s0) turn) /\
  manualBufferRef s' = [] /\
  pendingManualCommitRef s' = false /\
  pendingManualCommitTimeoutRef s' = pendingManualCommitTimeoutRef s0 /\
  timers s' = timers s0 /\
  isListeningRef s' = false /\
  isProcessingRef s' = true.
Proof.
  intros Hp Hne Hb. cbv zeta.
  destruct (fullText_joined buffer Hne Hb) as [-> Hft].
  rewrite (truthy_nonempty _ Hft).
  set (s3 := stopRecording _).
  assert (Hp3 : isProcessingRef s3 = false) by (unfold s3; frames; exact Hp).
  assert (Htr : trim (join (lit " ") buffer) <> []).
  { rewrite (proj1 (fullText_joined buffer Hne Hb)). exact Hft. }
  pose proof (processUserInput_starts _ s3 Hp3 Htr) as H. cbv zeta in H.
  destruct H as (H1 & H2 & H3 & H4 & H5 & H6 & H7 & H8 & H9 & H10 & H11 & H12).
  rewrite H2, H6, H4, H8, H9, H10, H11, H7, H1, last_snoc. unfold s3. frames.
  repeat split; reflexivity.
Qed.

(** C3 (amended). Manual strategy with a commit request pending: a
    [committed_transcript] fragment finalizes the turn at once with the
    buffered fragments, the new one included, joined by single spaces;
    the buffer and the pending flag are cleared and the deadline timer
    the request holds is cancelled, so it can no longer fire (and its
    callback would start nothing).  This is so whether the deadline is
    still armed or has expired on an empty buffer, which leaves the
    request pending.  A deadline that expires on a non-empty buffer
    resolves the request instead, and later finalize events start
    nothing: a request is resolved at most once. *)
Theorem manual_commit_acknowledged
    (s : Session) (ws : nat) (msg : ScribeMessage) (raw : jsstring) :
  manualMode s = true ->
  pendingManualCommitRef s = true ->
  isOpen ws s = true ->
  isAiSpeakingRef s = false ->
  isProcessingRef s = false ->
  Forall fragment (manualBufferRef s) ->
  typeIs "committed_transcript" msg = true -> msg_text msg = Some raw -> trim raw <> [] ->
  let fullText := join (lit " ") (manualBufferRef s ++ [trim raw]) in
  let turn := transcriptRef s ++ [{| role := user; text := fullText |}] in
  let s' := step s (SocketMessage ws (Parsed msg)) in
  (transcriptRef s' = turn /\
   pipelines s' = S (pipelines s) /\
   last (effects s') = Some (FetchInterviewer (systemPrompt s) turn) /\
   manualBufferRef s' = [] /\
   pendingManualCommitRef s' = false /\
   pendingManualCommitTimeoutRef s' = None /\
   isListeningRef s' = false) /\
  (forall tid, pendingManualCommitTimeoutRef s = Some tid ->
     timers s' !! tid = None /\ step s' (TimerFired tid) = s') /\
  pipelines (manualCommitTimeout s') = pipelines s' /\
  (forall tid, timers s !! tid = Some ManualCommitTimer -> manualBufferRef s <> [] ->
     let s'' := step s (TimerFired tid) in
     transcriptRef s'' =
       transcriptRef s ++ [{| role := user; text := join (lit " ") (manualBufferRef s) |}] /\
     pipelines s'' = S (pipelines s) /\
     pendingManualCommitRef s'' = false /\
     timers s'' !! tid = None /\
     forall e, finalizeEvent e -> pipelines (step s'' e) = pipelines s'').
Proof.
  intros Hm Hpend Hopen Hai Hp Hbuf Hty Htx Hraw. cbv zeta.
  assert (Hclean : Forall clean (manualBufferRef s)).
  { eapply Forall_impl; [exact Hbuf | exact fragment_clean]. }
  set (s0 := match pendingManualCommitTimeoutRef s with
             | Some id =>
                 set_pendingManualCommitTimeoutRef None
                   (clearTimeout id
                      (set_manualBufferRef (manualBufferRef s ++ [trim raw]) s))
             | None => set_manualBufferRef (manualBufferRef s ++ [trim raw]) s
             end).
  assert (Hs' : step s (SocketMessage ws (Parsed msg)) =
    let fullText := trim (join (lit " ") (manualBufferRef s ++ [trim raw])) in
    let s3 := stopRecording (set_pendingManualCommitRef false (set_manualBufferRef [] s0)) in
    if truthy fullText then processUserInput fullText s3 else s3).
  { cbn [step]. rewrite Hopen, (onmessage_committed msg s Hty), Htx.
    unfold onCommittedTranscript. rewrite (truthy_nonempty _ Hraw), Hai, Hm. cbn.
    rewrite Hpend. unfold s0. destruct (pendingManualCommitTimeoutRef s); reflexivity. }
  assert (Hs0 : isProcessingRef s0 = false /\ transcriptRef s0 = transcriptRef s /\
                pipelines s0 = pipelines s /\ systemPrompt s0 = systemPrompt s /\
                pendingManualCommitTimeoutRef s0 = None /\
                forall tid, pendingManualCommitTimeoutRef s = Some tid ->
                            timers s0 !! tid = None).
  { unfold s0, clearTimeout. destruct (pendingManualCommitTimeoutRef s) as [id|] eqn:Href; cbn;
      repeat split; try assumption; try congruence.
    intros tid [= ->]. apply lookup_delete_eq. }
  destruct Hs0 as (Hp0 & Ht0 & Hn0 & Hsp0 & Hr0 & Htm0). clearbody s0.
  assert (Hfin := manual_finalize s0 (manualBufferRef s ++ [trim raw]) Hp0).
  cbv zeta in Hfin, Hs'. rewrite <- Hs' in Hfin.
  destruct Hfin as (F1 & F2 & F3 & F4 & F5 & F6 & F7 & F8 & F9).
  { destruct (manualBufferRef s); discriminate. }
  { apply Forall_app. split; [exact Hclean|]. constructor; [|constructor].
    apply trimmed_clean, Hraw. }
  clear Hs'. set (s' := step s (SocketMessage ws (Parsed msg))) in *. clearbody s'.
  rewrite Ht0, Hn0, Hsp0, Hr0 in *.
  split; [|split; [|split]].
  - repeat split; assumption.
  - intros tid Href. assert (Ht' : timers s' !! tid = None) by (rewrite F7; auto).
    split; [exact Ht'|]. cbn [step]. rewrite Ht'. reflexivity.
  - unfold manualCommitTimeout. cbn. rewrite F5. reflexivity.
  - intros tid Htimer Hne.
    assert (Hs'' : step s (TimerFired tid) =
      let s0 := set_pendingManualCommitTimeoutRef None (clearTimeout tid s) in
      let fullText := trim (join (lit " ") (manualBufferRef s)) in
      let s3 := stopRecording (set_pendingManualCommitRef false (set_manualBufferRef [] s0)) in
      if truthy fullText then processUserInput fullText s3 else s3).
    { cbn [step]. rewrite Htimer. unfold manualCommitTimeout. cbn. rewrite Hpend.
      destruct (manualBufferRef s); [congruence | reflexivity]. }
    assert (Hfin := manual_finalize
      (set_pendingManualCommitTimeoutRef None (clearTimeout tid s)) (manualBufferRef s)
      Hp Hne Hclean).
    cbv zeta in Hfin, Hs''. rewrite <- Hs'' in Hfin.
    destruct Hfin as (G1 & G2 & G3 & G4 & G5 & G6 & G7 & G8 & G9).
    set (s'' := step s (TimerFired tid)) in *. clearbody s''.
    repeat split; try assumption.
    + rewrite G7. unfold clearTimeout. cbn. apply lookup_delete_eq.
    + intros e He. apply (finalize_busy s'' e G9 He).
Qed.


(** C5 (amended). A failed dialogue request puts the session in status
    [error] with the message of the failure, releases the processing
    flag, and schedules nothing: no timer, no suspended call, no effect,
    so listening does not resume.  The flag is released on success too.
    A failed synthesis request surfaces its message and ends the
    speaking phase, but the status stays as it was and the 700 ms timer
    that restarts listening is armed. *)
Theorem remote_failure_handling (s : Session) (k : nat) (err : Thrown) :
  (forall nextWithUser, pending s !! k = Some (AwaitInterviewer nextWithUser) ->
     let s' := step s (DialogueResponse k (inl err)) in
     status s' = error /\
     errorMessage s' = Some (messageOf err "API error") /\
     isProcessingRef s' = false /\
     timers s' = timers s /\
     pending s' = delete k (pending s) /\
     effects s' = effects s /\
     isListeningRef s' = isListeningRef s) /\
  (forall nextWithUser question, pending s !! k = Some (AwaitInterviewer nextWithUser) ->
     isProcessingRef (step s (DialogueResponse k (inr question))) = false) /\
  (pending s !! k = Some AwaitVoice ->
     let s' := step s (SynthesisResponse k (inl err)) in
     errorMessage s' = Some (messageOf err "Voice API failed") /\
     status s' = status s /\
     isProcessingRef s' = isProcessingRef s /\
     isAiSpeakingRef s' = false /\
     startRecordingTimeoutRef s' = Some (next s) /\
     timers s' !! next s = Some StartRecordingTimer /\
     delay StartRecordingTimer = 700%Z /\
     (isProcessingRef s = false -> isListeningRef s = false ->
      listenAttempts (step s' (TimerFired (next s))) = S (listenAttempts s'))).
Proof.
  split; [|split].
  - intros nextWithUser Hk. cbv zeta. cbn [step]. rewrite Hk. repeat split.
  - intros nextWithUser question Hk. cbn [step]. rewrite Hk. reflexivity.
  - intros Hk. cbv zeta. cbn [step]. rewrite Hk.
    unfold voice_catch, done, startRecordingAfterAI, setTimeout, bump, drop. cbn.
    repeat split; try apply lookup_insert_eq.
    intros Hp Hl. rewrite lookup_insert_eq.
    unfold startRecordingTimeout, startRecording, clearTimeout. cbn. rewrite Hp, Hl. cbn.
    unfold suspend, bump, log. count_log.
Qed.

Lemma failure_not_transcript msg :
  typeIs "error" msg || typeIs "auth_error" msg || typeIs "quota_exceeded" msg = true ->
  typeIs "partial_transcript" msg = false /\ typeIs "committed_transcript" msg = false.
Proof.
  intros H. apply orb_true_iff in H as [H|H]; [apply orb_true_iff in H as [H|H]|];
    apply typeIs_inv in H; unfold typeIs; rewrite H; split; vm_compute; reflexivity.
Qed.

(** C6 (amended). Each [error], [auth_error] or [quota_exceeded] message
    of the realtime channel records its text, tears the listening
    resources down and then makes one attempt to listen again (none while
    a turn is being processed); the status is not changed, and nothing
    counts or bounds the attempts across messages.  A socket-level error
    sets status [error] with its message and retries nothing. *)
Theorem channel_error_recovery (s : Session) (ws : nat) :
  (forall msg,
     isOpen ws s = true ->
     typeIs "error" msg || typeIs "auth_error" msg || typeIs "quota_exceeded" msg = true ->
     let s' := step s (SocketMessage ws (Parsed msg)) in
     errorMessage s' = Some (scribeErrorText msg) /\
     status s' = status s /\
     isListeningRef s' = false /\
     effects s' = effects s ++ teardown s
                  ++ (if isProcessingRef s then [] else [GetUserMedia]) /\
     listenAttempts s' = (listenAttempts s + if isProcessingRef s then 0 else 1)%nat /\
     (isProcessingRef s = false -> pending s' !! next s = Some AwaitUserMedia)) /\
  (forall r,
     readyStateOf ws s = Some r -> r <> CLOSED ->
     let s' := step s (SocketError ws) in
     status s' = error /\
     errorMessage s' = Some (lit "Live transcription connection failed") /\
     effects s' = effects s /\
     pending s' = pending s /\
     timers s' = timers s /\
     sockets s' = sockets s).
Proof.
  split.
  - intros msg Hopen Hty. cbv zeta. cbn [step]. rewrite Hopen.
    destruct (failure_not_transcript msg Hty) as [Hp Hc].
    unfold ws_onmessage. rewrite Hp, Hc, Hty. unfold onScribeError, startRecording.
    fold (scribeErrorText msg). frames.
    assert (Ht : teardown (set_errorMessage (Some (scribeErrorText msg)) s) = teardown s)
      by reflexivity.
    destruct (isProcessingRef s) eqn:Hproc; frames.
    + rewrite stopRecording_effects, Ht, app_nil_r. repeat split; [|congruence].
      rewrite Nat.add_0_r. apply listenAttempts_same. reflexivity.
    + unfold suspend, bump, log. frames. rewrite stopRecording_effects, Ht.
      repeat split.
      * rewrite <- app_assoc. reflexivity.
      * count_log.
      * intros _. apply lookup_insert_eq.
  - intros r Hr Hnc. cbv zeta. cbn [step]. rewrite Hr.
    destruct r; try congruence; repeat split.
Qed.

Lemma processUserInput_manualBufferRef t s :
  manualBufferRef (processUserInput t s) = manualBufferRef s.
Proof.
  unfold processUserInput. destruct (isProcessingRef s || negb (truthy (trim t)));
    [reflexivity|]. unfold suspend, bump, log. frames. reflexivity.
Qed.

(** What an event does to the manual buffer: nothing, clear it, or
    append one trimmed, non-empty fragment. *)
Lemma step_manualBufferRef s e :
  manualBufferRef (step s e) = manualBufferRef s \/
  manualBufferRef (step s e) = [] \/
  exists raw, trim raw <> [] /\ manualBufferRef (step s e) = manualBufferRef s ++ [trim raw].
Proof.
  destruct e.
  - left. unfold step, connect, speak, speakWithVoiceApi, suspend, bump, log, drop.
    rewrite greeting_spoken. repeat (cbn; split_match); reflexivity.
  - right; left. unfold step, disconnect. reflexivity.
  - left. unfold step, commitManual, setTimeout, bump, log. repeat (cbn; split_match); reflexivity.
  - unfold step, startRecordingTimeout, manualCommitTimeout, startRecording, clearTimeout,
      suspend, bump, log.
    repeat first [ rewrite processUserInput_manualBufferRef | split_match | progress frames ];
      auto.
  - left. unfold step, processUserInput_resumed, speak, speakWithVoiceApi, startRecording,
      startRecordingAfterAI, setTimeout, suspend, bump, log, drop.
    repeat (cbn; split_match); reflexivity.
  - left. unfold step, voice_then, voice_catch, done, startRecordingAfterAI, setTimeout,
      suspend, bump, drop. repeat (cbn; split_match); reflexivity.
  - left. unfold step, playback_settled, done, startRecordingAfterAI, setTimeout, bump, drop.
    repeat (cbn; split_match); reflexivity.
  - left. unfold step, start_afterUserMedia, start_catch, suspend, bump, log, drop.
    repeat (cbn; split_match); reflexivity.
  - left. unfold step, start_afterToken, start_catch, bump, log, drop.
    repeat (cbn; split_match); reflexivity.
  - unfold step, ws_onopen, ws_close, setReadyState, readyStateOf, bump, log.
    repeat (cbn; split_match); auto.
  - unfold step, ws_onmessage, onPartialTranscript, onScribeError, startRecording,
      suspend, bump, log.
    repeat first [ split_match | progress frames ]; auto.
    unfold onCommittedTranscript, clearTimeout.
    destruct (negb (truthy (trim j))) eqn:Hj; [auto|].
    assert (Hne : trim j <> []).
    { intros E. rewrite E in Hj. discriminate. }
    repeat first [ rewrite processUserInput_manualBufferRef | split_match | progress frames ];
      auto; right; right; exists j; auto.
  - left. unfold step, ws_onerror. repeat (cbn; split_match); reflexivity.
  - left. unfold step, ws_onclose, setReadyState, readyStateOf. repeat (cbn; split_match); reflexivity.
Qed.

(** In every state the hook can reach, the manual buffer holds trimmed,
    non-empty fragments. *)
Lemma reachable_buffer s : reachable s -> Forall fragment (manualBufferRef s).
Proof.
  induction 1 as [| s e _ IH]; [constructor|].
  destruct (step_manualBufferRef s e) as [-> | [-> | (raw & Hraw & ->)]];
    [exact IH | constructor |].
  apply Forall_app. split; [exact IH|]. constructor; [|constructor].
  split; [exact Hraw | apply trim_clean, trimmed_clean, Hraw].
Qed.

(** C1 (amended). The processing flag is set when a turn is finalized
    and that starts exactly one pipeline.  While it is set, the finalize
    handler is the identity, every event other than a dialogue reply and
    [disconnect] leaves it set, and no sequence of finalize events adds
    to the transcript or starts a pipeline.  The reply of any dialogue
    request that is in flight clears it, whether the request succeeded
    or failed; at that instant, on success with a reply that is not
    blank, the reply has been handed to [speak]: [isAiSpeakingRef] is
    set and the synthesis request is in flight.  Nothing is said of the
    time after that instant. *)
Theorem processingTurn_exclusive (s : Session) :
  (forall t,
     isProcessingRef s = false -> trim t <> [] ->
     isProcessingRef (processUserInput t s) = true /\
     pipelines (processUserInput t s) = S (pipelines s)) /\
  (isProcessingRef s = true ->
     (forall t, processUserInput t s = s) /\
     (forall e, (forall k r, e <> DialogueResponse k r) -> e <> Disconnect ->
        isProcessingRef (step s e) = true) /\
     (forall es, Forall finalizeEvent es ->
        isProcessingRef (run s es) = true /\
        transcriptRef (run s es) = transcriptRef s /\
        pipelines (run s es) = pipelines s)) /\
  (forall k nextWithUser r,
     pending s !! k = Some (AwaitInterviewer nextWithUser) ->
     isProcessingRef (step s (DialogueResponse k r)) = false /\
     (forall question, r = inr question -> trim question <> [] ->
        isAiSpeakingRef (step s (DialogueResponse k r)) = true /\
        pending (step s (DialogueResponse k r)) !! next s = Some AwaitVoice)).
Proof.
  split; [|split].
  - intros t Hp Ht. pose proof (processUserInput_starts t s Hp Ht) as H. cbv zeta in H.
    destruct H as (H1 & _ & _ & _ & _ & H6 & _). auto.
  - intros Hp. split; [|split].
    + intros t. apply processUserInput_busy, Hp.
    + intros e Hd Hx. apply step_keeps_flag; assumption.
    + intros es Hes. apply run_finalize_busy; assumption.
  - intros k nextWithUser r Hk.
    pose proof (dialogue_settled s k nextWithUser r Hk) as H. cbv zeta in H.
    destruct H as [H1 H2]. split; [exact H1|].
    intros question Hr Hq. destruct (H2 question Hr Hq) as (_ & Ha & Hv & _). auto.
Qed.

(** C10. Handing the finalize handler a text that is empty or only white
    space changes nothing (no transcript entry, no dialogue request, the
    processing flag as it was), and a [committed_transcript] message with
    such a text leaves the whole session as it is, listening included. *)
Theorem blank_finalize_is_noop (s : Session) (t : jsstring) :
  forallb isWhiteSpace t = true ->
  processUserInput t s = s /\
  forall ws msg,
    typeIs "committed_transcript" msg = true -> msg_text msg = Some t ->
    step s (SocketMessage ws (Parsed msg)) = s.
Proof.
  intros Hb. pose proof (trim_blank t Hb) as Ht. split.
  - unfold processUserInput. rewrite Ht. cbn. rewrite orb_true_r. reflexivity.
  - intros ws msg Hty Htx. cbn [step]. destruct (isOpen ws s); [|reflexivity].
    rewrite (onmessage_committed msg s Hty), Htx.
    unfold onCommittedTranscript. rewrite Ht. reflexivity.
Qed.

(** C2. While the assistant is speaking ([isAiSpeakingRef]), a
    [committed_transcript] message, whatever the commit strategy, and a
    manual commit request leave the session exactly as it was: no turn
    starts, the transcript keeps its length, nothing is buffered and
    nothing is sent. *)
Theorem self_echo_guard (s : Session) :
  isAiSpeakingRef s = true ->
  (forall ws msg,
     typeIs "committed_transcript" msg = true ->
     step s (SocketMessage ws (Parsed msg)) = s) /\
  step s UserCommitRequested = s.
Proof.
  intros Hai. split.
  - intros ws msg Hty. cbn [step]. destruct (isOpen ws s); [|reflexivity].
    rewrite (onmessage_committed msg s Hty). destruct (msg_text msg) as [t|]; [|reflexivity].
    unfold onCommittedTranscript. rewrite Hai. destruct (negb (truthy (trim t))); reflexivity.
  - cbn [step]. unfold commitManual. rewrite Hai.
    destruct (wsRef s) as [w|]; [|reflexivity].
    destruct (negb (isOpen w s) || negb (isListeningRef s)); reflexivity.
Qed.

End SessionFacts.

(** ** The properties on concrete runs *)

Module SessionRuns.
Import JsString Session JsStringFacts SessionFacts.
#[local] Open Scope nat_scope.

Lemma reachable_run s es : reachable s -> reachable (run s es).
Proof.
  revert s. induction es as [|e es IH]; intros s Hs; [exact Hs|].
  apply (IH (step s e)). constructor. exact Hs.
Qed.

Lemma reachable_listening manual es : reachable (run (listening manual) es).
Proof. apply reachable_run, reachable_run. constructor. Qed.

(** C1, as stated, fails: once the dialogue reply has arrived the flag
    is clear although the assistant audio has not even been fetched, and
    it is still clear while the audio plays. *)
Lemma processingTurn_released_before_playback :
  let replied :=
    run (listening false)
      [SocketMessage 9 (scribe "committed_transcript" "I had a hard day");
       DialogueResponse 12 (inr (lit "What made it hard?"))] in
  let playing := step replied (SynthesisResponse 13 (inr true)) in
  (transcriptRef replied =
     [{| role := user; text := lit "I had a hard day" |};
      {| role := ai; text := lit "What made it hard?" |}] /\
   pending replied !! 13 = Some AwaitVoice /\
   isAiSpeakingRef replied = true /\
   isProcessingRef replied = false) /\
  (pending playing !! 14 = Some (AwaitPlayback WebAudio) /\
   isAiSpeakingRef playing = true /\
   isProcessingRef playing = false).
Proof. vm_compute. repeat split. Qed.

(** Neither flag spans a whole turn.  A request that [disconnect] left
    in flight is answered during the next session: its reply clears the
    processing flag while the request of the new turn is still in
    flight. *)
Lemma processingTurn_cleared_by_older_reply :
  let second :=
    run (listening false)
      [SocketMessage 9 (scribe "committed_transcript" "I slept badly");
       Disconnect; Connect; SynthesisResponse 14 (inr true); PlaybackEnded 15 true;
       TimerFired 16; MicPermission 17 (inr tt); TokenResponse 20 (inr tt);
       SocketOpen 21 true;
       SocketMessage 21 (scribe "committed_transcript" "and woke early")] in
  let late := step second (DialogueResponse 12 (inr (lit "Why was that?"))) in
  (isProcessingRef second = true /\
   pending second !! 12%nat
   = Some (AwaitInterviewer [{| role := user; text := lit "I slept badly" |}]) /\
   pending second !! 24%nat
   = Some (AwaitInterviewer [{| role := user; text := lit "and woke early" |}])) /\
  (isProcessingRef late = false /\
   pending late !! 24%nat
   = Some (AwaitInterviewer [{| role := user; text := lit "and woke early" |}])).
Proof. vm_compute. repeat split. Qed.

(** A reply that arrives while an earlier utterance plays stops that
    utterance; when the stopped utterance reports its end, [done] clears
    [isAiSpeakingRef] although the reply has not been spoken yet, and
    the flag is still clear while the reply plays. *)
Lemma isAiSpeaking_cleared_by_earlier_utterance :
  let greeting_playing :=
    run (listening false)
      [SocketMessage 9 (scribe "committed_transcript" "I slept badly");
       Disconnect; Connect; SynthesisResponse 14 (inr true)] in
  let replied := step greeting_playing (DialogueResponse 12 (inr (lit "Why was that?"))) in
  let ended := step replied (PlaybackEnded 15 true) in
  let playing := step ended (SynthesisResponse 16 (inr true)) in
  (pending greeting_playing !! 15%nat = Some (AwaitPlayback WebAudio) /\
   currentPlaybackSourceRef greeting_playing = Some 15%nat) /\
  (isAiSpeakingRef replied = true /\ pending replied !! 16%nat = Some AwaitVoice /\
   last (effects replied)
   = Some (FetchVoice (lit "Why was that?") (lit "21m00Tcm4TlvDq8ikWAM"))) /\
  (isAiSpeakingRef ended = false /\ pending ended !! 16%nat = Some AwaitVoice) /\
  (isAiSpeakingRef playing = false /\
   pending playing !! 18%nat = Some (AwaitPlayback WebAudio)).
Proof. vm_compute. repeat split. Qed.

Lemma processingTurn_exclusive_witness :
  let turn := step (listening false)
                (SocketMessage 9 (scribe "committed_transcript" "I had a hard day")) in
  let extra := [SocketMessage 9 (scribe "committed_transcript" "and then");
                UserCommitRequested; TimerFired 4] in
  isProcessingRef turn = true /\
  pipelines turn = 1%nat /\
  transcriptRef (run turn extra) = [{| role := user; text := lit "I had a hard day" |}] /\
  pipelines (run turn extra) = 1%nat.
Proof.
  cbv zeta.
  set (turn := step (listening false)
                 (SocketMessage 9 (scribe "committed_transcript" "I had a hard day"))).
  assert (Hp : isProcessingRef turn = true) by (vm_compute; reflexivity).
  destruct (processingTurn_exclusive turn) as (_ & Hheld & _).
  destruct (Hheld Hp) as (_ & _ & Hrun).
  destruct (Hrun [SocketMessage 9 (scribe "committed_transcript" "and then");
                  UserCommitRequested; TimerFired 4]) as (_ & Ht & Hn).
  { repeat constructor. }
  split; [exact Hp|]. split; [vm_compute; reflexivity|].
  rewrite Ht, Hn. split; vm_compute; reflexivity.
Defined.

Lemma self_echo_guard_witness :
  let speaking := step (listening true) Connect in
  isAiSpeakingRef speaking = true /\
  isOpen 9 speaking = true /\
  step speaking (SocketMessage 9 (scribe "committed_transcript" "Hello, I am your")) = speaking /\
  step speaking UserCommitRequested = speaking.
Proof.
  cbv zeta. set (speaking := step (listening true) Connect).
  assert (Hai : isAiSpeakingRef speaking = true) by (vm_compute; reflexivity).
  destruct (self_echo_guard speaking Hai) as [Hmsg Hcommit].
  split; [exact Hai|]. split; [vm_compute; reflexivity|]. split; [|exact Hcommit].
  apply Hmsg. vm_compute. reflexivity.
Defined.

(** C3, as stated, fails on its last clause: a deadline that expires
    on an empty buffer resolves nothing and leaves the request pending,
    and the fragment that arrives afterwards finalizes the turn. *)
Lemma late_acknowledgement_finalizes :
  let expired := run (listening true) [UserCommitRequested; TimerFired 12] in
  let s' := step expired (SocketMessage 9 (scribe "committed_transcript" "late")) in
  (pendingManualCommitRef expired = true /\
   timers expired !! 12 = None /\
   pipelines expired = 0 /\
   isListeningRef expired = true) /\
  (transcriptRef s' = [{| role := user; text := lit "late" |}] /\
   pipelines s' = 1 /\
   pendingManualCommitRef s' = false).
Proof. vm_compute. repeat split. Qed.

Lemma manual_commit_acknowledged_witness :
  let s := run (listening true)
             [SocketMessage 9 (scribe "committed_transcript" " first "); UserCommitRequested] in
  let s' := step s (SocketMessage 9 (scribe "committed_transcript" "second")) in
  (pendingManualCommitRef s = true /\ timers s !! 12 = Some ManualCommitTimer) /\
  transcriptRef s' = [{| role := user; text := lit "first second" |}] /\
  manualBufferRef s' = [] /\
  pendingManualCommitRef s' = false /\
  timers s' !! 12 = None /\
  step s' (TimerFired 12) = s'.
Proof.
  cbv zeta.
  set (s := run (listening true)
              [SocketMessage 9 (scribe "committed_transcript" " first "); UserCommitRequested]).
  assert (Hpend : pendingManualCommitRef s = true) by (vm_compute; reflexivity).
  assert (Htimer : timers s !! 12 = Some ManualCommitTimer) by (vm_compute; reflexivity).
  assert (Href : pendingManualCommitTimeoutRef s = Some 12) by (vm_compute; reflexivity).
  pose proof (manual_commit_acknowledged s 9
    {| message_type := Some (lit "committed_transcript"); msg_text := Some (lit "second");
       msg_error := None |} (lit "second")) as H.
  cbv zeta in H.
  destruct H as ((Ht & _ & _ & Hb & Hp & _) & Hcancel & _);
    try (vm_compute; reflexivity).
  - apply reachable_buffer, reachable_listening.
  - vm_compute. discriminate.
  - destruct (Hcancel 12 Href) as [Htm Hfire].
    split; [split; assumption|]. split; [|repeat split; assumption].
    etransitivity; [exact Ht|]. vm_compute. reflexivity.
Defined.



(** C5, as stated, fails on a synthesis failure: the status stays
    [connected] and the session goes back to listening by itself. *)
Lemma synthesis_failure_resumes_listening :
  let failed :=
    run (listening false)
      [SocketMessage 9 (scribe "committed_transcript" "I had a hard day");
       DialogueResponse 12 (inr (lit "What made it hard?"));
       SynthesisResponse 13 (inl (ErrorObject (lit "Voice API failed (500)")))] in
  let later := run failed [TimerFired 14; MicPermission 15 (inr tt);
                           TokenResponse 18 (inr tt); SocketOpen 19 true] in
  (status failed = connected /\
   errorMessage failed = Some (lit "Voice API failed (500)") /\
   timers failed !! 14 = Some StartRecordingTimer) /\
  (status later = connected /\
   listenAttempts later = S (listenAttempts failed) /\
   isListeningRef later = true).
Proof. vm_compute. repeat split. Qed.

Lemma remote_failure_handling_witness :
  let asked := step (listening false)
                 (SocketMessage 9 (scribe "committed_transcript" "I had a hard day")) in
  let failed := step asked (DialogueResponse 12 (inl (ErrorObject (lit "Interviewer API failed (502)")))) in
  pending asked !! 12 = Some (AwaitInterviewer [{| role := user; text := lit "I had a hard day" |}]) /\
  status failed = error /\
  errorMessage failed = Some (lit "Interviewer API failed (502)") /\
  isProcessingRef failed = false /\
  timers failed = timers asked /\
  effects failed = effects asked.
Proof.
  cbv zeta.
  set (asked := step (listening false)
                  (SocketMessage 9 (scribe "committed_transcript" "I had a hard day"))).
  assert (Hk : pending asked !! 12
               = Some (AwaitInterviewer [{| role := user; text := lit "I had a hard day" |}]))
    by (vm_compute; reflexivity).
  destruct (remote_failure_handling asked 12 (ErrorObject (lit "Interviewer API failed (502)")))
    as (Hd & _ & _).
  pose proof (Hd _ Hk) as H. cbv zeta in H.
  destruct H as (Hs & He & Hp & Ht & _ & Hf & _).
  split; [exact Hk|]. repeat split; assumption.
Defined.

(** C6, as stated, fails: a second failure report on the re-opened
    channel triggers a second automatic attempt, and the status is still
    [connected]. *)
Lemma repeated_channel_errors_retry :
  let once := step (listening false) (SocketMessage 9 (scribeFailure "auth_error")) in
  let reopened := run once [MicPermission 12 (inr tt); TokenResponse 15 (inr tt);
                            SocketOpen 16 true] in
  let twice := step reopened (SocketMessage 16 (scribeFailure "auth_error")) in
  listenAttempts (listening false) = 1%nat /\
  (listenAttempts once = 2%nat /\ status once = connected) /\
  (isListeningRef reopened = true /\ wsRef reopened = Some 16%nat) /\
  (listenAttempts twice = 3%nat /\ status twice = connected /\
   pending twice !! 19 = Some AwaitUserMedia).
Proof. vm_compute. repeat split. Qed.

Lemma channel_error_recovery_witness :
  let s' := step (listening false) (SocketMessage 9 (scribeFailure "quota_exceeded")) in
  isOpen 9 (listening false) = true /\
  errorMessage s' = Some (lit "invalid token") /\
  status s' = connected /\
  effects s' = effects (listening false)
               ++ [WsCloseCall 9; DisconnectNode 11; DisconnectNode 10;
                   StopTracks 6; CloseAudioContext 7; GetUserMedia] /\
  listenAttempts s' = 2%nat.
Proof.
  cbv zeta.
  assert (Hopen : isOpen 9 (listening false) = true) by (vm_compute; reflexivity).
  destruct (channel_error_recovery (listening false) 9) as (Hmsg & _).
  pose proof (Hmsg {| message_type := Some (lit "quota_exceeded"); msg_text := None;
                      msg_error := Some (lit "invalid token") |} Hopen) as H.
  cbv zeta in H. destruct H as (He & Hs & _ & Hf & Hn & _); [vm_compute; reflexivity|].
  split; [exact Hopen|].
  split; [etransitivity; [exact He|]; vm_compute; reflexivity|].
  split; [etransitivity; [exact Hs|]; vm_compute; reflexivity|].
  split; [etransitivity; [exact Hf|]; vm_compute; reflexivity|].
  etransitivity; [exact Hn|]; vm_compute; reflexivity.
Defined.

Lemma blank_finalize_is_noop_witness :
  let blank := [32; 9; 10; 160]%N in
  forallb isWhiteSpace blank = true /\
  processUserInput blank (listening false) = listening false /\
  step (listening false)
    (SocketMessage 9 (Parsed {| message_type := Some (lit "committed_transcript");
                                msg_text := Some blank; msg_error := None |}))
    = listening false.
Proof.
  cbv zeta.
  assert (Hb : forallb isWhiteSpace [32; 9; 10; 160]%N = true) by reflexivity.
  destruct (blank_finalize_is_noop (listening false) _ Hb) as [Hp Hm].
  split; [exact Hb|]. split; [exact Hp|].
  apply Hm; [vm_compute|]; reflexivity.
Defined.

End SessionRuns.

(** ** More of the audio codec *)

Module CodecMore.
Import Codec CodecFacts WavBase64.

Lemma btoa_length l : String.length (btoa l) = (4 * ((List.length l + 2) / 3))%nat.
Proof.
  induction l as [|a|a b|a b c r IH] using triples_ind; try reflexivity.
  cbn [btoa String.length List.length]. rewrite IH.
  replace (S (S (S (List.length r))) + 2)%nat with (List.length r + 2 + 1 * 3)%nat by lia.
  rewrite Nat.div_add by lia. lia.
Qed.

Lemma repeat_int16 n : Forall int16 (repeat 0%Z n).
Proof. induction n; cbn; constructor; [unfold int16; lia | assumption]. Qed.

Lemma flat_map_le16_length pcm : List.length (flat_map le16 pcm) = (2 * List.length pcm)%nat.
Proof. induction pcm as [|v pcm IH]; cbn [flat_map le16 app List.length]; lia. Qed.

(** X1. The forced-flush chunk: [createSilentPcmBase64 n] is read back by a
    receiver as exactly [n] samples, all zero, and is 4 * ceil(2n / 3)
    characters long. *)
Theorem createSilentPcmBase64_decodes (numSamples : nat) :
  decodePcmBase64 (createSilentPcmBase64 numSamples) = Some (repeat 0%Z numSamples) /\
  String.length (createSilentPcmBase64 numSamples) = (4 * ((2 * numSamples + 2) / 3))%nat.
Proof.
  unfold createSilentPcmBase64. split.
  - apply decodePcmBase64_btoa, repeat_int16.
  - rewrite btoa_length, flat_map_le16_length, repeat_length. reflexivity.
Qed.

Lemma clamp_comp x y : x == y -> clamp x == clamp y.
Proof.
  intros H. unfold clamp, Math_max, Math_min.
  assert (E1 : Qle_bool 1 y = Qle_bool 1 x).
  { apply eq_true_iff_eq. rewrite !Qle_bool_iff, H. reflexivity. }
  rewrite E1. destruct (Qle_bool 1 x); [reflexivity|].
  assert (E2 : Qle_bool (-1) y = Qle_bool (-1) x).
  { apply eq_true_iff_eq. rewrite !Qle_bool_iff, H. reflexivity. }
  rewrite E2. destruct (Qle_bool (-1) x); [exact H | reflexivity].
Qed.

Lemma binary32_comp x y : x == y -> is_binary32 x -> is_binary32 y.
Proof. intros E (m & e & Hm & He & Hx). exists m, e. rewrite <- E. auto. Qed.

Lemma binary64_comp x y : x == y -> is_binary64 x -> is_binary64 y.
Proof. intros E (m & e & Hm & He & Hx). exists m, e. rewrite <- E. auto. Qed.

Lemma binary32_binary64 x : is_binary32 x -> is_binary64 x.
Proof.
  intros H. apply (binary64_comp (x * inject_Z 1)); [ring|].
  apply binary64_scaled; [exact H | lia].
Qed.

Lemma binary32_zero : is_binary32 0.
Proof. exists 0%Z, 0%Z. repeat split; try lia; reflexivity. Qed.

Lemma Qfloor_unique (q : Q) (n : Z) : inject_Z n <= q -> q < inject_Z n + 1 -> Qfloor q = n.
Proof.
  intros Hl Hu. destruct (Qfloor_bounds q) as [Fl Fu].
  assert (H1 : (n < Qfloor q + 1)%Z).
  { rewrite Zlt_Qlt, inject_Z_plus. change (inject_Z 1) with 1. lra. }
  assert (H2 : (Qfloor q < n + 1)%Z).
  { rewrite Zlt_Qlt, inject_Z_plus. change (inject_Z 1) with 1. lra. }
  lia.
Qed.

Lemma binary32_nth (l : list Q) i : Forall is_binary32 l -> is_binary32 (nth i l 0).
Proof.
  intros H. revert i. induction H as [|x l Hx _ IH]; intros [|i]; cbn;
    auto using binary32_zero.
Qed.

(** The largest binary64 value below an integer of at most 32 bits that
    is a multiple of 2^-20. *)
Lemma binary64_below (n : Z) :
  (0 <= n < 2 ^ 31)%Z -> is_binary64 (inject_Z (n + 1) - (1 # 1048576)).
Proof.
  intros Hn. exists ((n + 1) * 2 ^ 20 - 1)%Z, (-20)%Z. repeat split; try lia.
  change (pow2 (-20)) with (/ inject_Z (2 ^ 20)).
  unfold Z.sub. rewrite !inject_Z_plus, !inject_Z_mult, !inject_Z_plus.
  change (inject_Z (- (1))) with (-1). change (inject_Z 1) with 1.
  change (inject_Z (2 ^ 20)) with 1048576. set (a := inject_Z n). clearbody a. field.
Qed.

Lemma clamp_monotone x y : x <= y -> clamp x <= clamp y.
Proof.
  intros H. unfold clamp, Math_max, Math_min.
  destruct (Qle_bool 1 x) eqn:X1; destruct (Qle_bool 1 y) eqn:Y1;
    change (Qle_bool (-1) 1) with true; cbv iota;
    try (apply Qle_bool_iff in X1); try (apply Qle_bool_iff in Y1);
    try (apply not_true_iff_false in X1; rewrite Qle_bool_iff in X1);
    try (apply not_true_iff_false in Y1; rewrite Qle_bool_iff in Y1).
  - lra.
  - lra.
  - destruct (Qle_bool (-1) x) eqn:X2; [|lra].
    apply Qnot_le_lt in X1. lra.
  - destruct (Qle_bool (-1) x) eqn:X2; destruct (Qle_bool (-1) y) eqn:Y2;
      try (apply Qle_bool_iff in X2); try (apply Qle_bool_iff in Y2);
      try (apply not_true_iff_false in X2; rewrite Qle_bool_iff in X2);
      try (apply not_true_iff_false in Y2; rewrite Qle_bool_iff in Y2); lra.
Qed.

Section Saturation.

Variable fl64 : Q -> Q.

Hypothesis fl64_exact : forall q, is_binary64 q -> fl64 q == q.

Lemma quantize_comp x y : is_binary32 x -> x == y -> quantize fl64 x = quantize fl64 y.
Proof.
  intros Hx E. pose proof (binary32_comp x y E Hx) as Hy. unfold quantize.
  rewrite (ToInt16_comp _ _ (scale_exact fl64 fl64_exact x Hx)).
  rewrite (ToInt16_comp _ _ (scale_exact fl64 fl64_exact y Hy)).
  pose proof (clamp_comp x y E) as Ec.
  assert (Eb : Qltb (clamp y) 0 = Qltb (clamp x) 0).
  { apply eq_true_iff_eq. rewrite !Qltb_lt, Ec. reflexivity. }
  rewrite Eb. destruct (Qltb (clamp x) 0); apply ToInt16_comp; rewrite Ec; reflexivity.
Qed.

(** X2. Quantisation keeps the order of the samples and saturates: it never
    wraps around the 16-bit range.  Everything at or above 1 is stored as
    32767, everything at or below -1 as -32768. *)
Theorem quantize_monotone (x y : Q) :
  is_binary32 x -> is_binary32 y -> x <= y ->
  (quantize fl64 x <= quantize fl64 y)%Z /\
  (1 <= x -> quantize fl64 x = 32767%Z /\ quantize fl64 y = 32767%Z) /\
  (y <= -1 -> quantize fl64 x = (-32768)%Z /\ quantize fl64 y = (-32768)%Z).
Proof.
  intros Hx Hy Hxy.
  pose proof (quantize_bounds fl64 fl64 fl64_exact x Hx) as Bx.
  pose proof (quantize_bounds fl64 fl64 fl64_exact y Hy) as By. cbv zeta in Bx, By.
  pose proof (clamp_monotone x y Hxy) as Hc.
  pose proof (clamp_range x) as Rx. pose proof (clamp_range y) as Ry.
  pose proof (ToInt16_range (scale fl64 x)) as Ix. fold (quantize fl64 x) in Ix.
  pose proof (ToInt16_range (scale fl64 y)) as Iy. fold (quantize fl64 y) in Iy.
  unfold int16 in Ix, Iy.
  assert (Hmono : (quantize fl64 x <= quantize fl64 y)%Z).
  { set (cx := clamp x) in *. set (cy := clamp y) in *.
    set (vx := quantize fl64 x) in *. set (vy := quantize fl64 y) in *.
    clearbody cx cy vx vy. destruct Bx as [Bxn Bxp]. destruct By as [Byn Byp].
    assert (H : inject_Z vx < inject_Z vy + 1).
    { destruct (Qlt_le_dec cx 0) as [Nx|Px]; destruct (Qlt_le_dec cy 0) as [Ny|Py].
      - specialize (Bxn Nx). specialize (Byn Ny). lra.
      - specialize (Bxn Nx). specialize (Byp Py). lra.
      - lra.
      - specialize (Bxp Px). specialize (Byp Py). lra. }
    assert (H' : (vx < vy + 1)%Z).
    { rewrite Zlt_Qlt, inject_Z_plus. exact H. }
    lia. }
  split; [exact Hmono|]. split.
  - intros H1. assert (E : clamp x == 1).
    { pose proof (clamp_monotone 1 x H1) as M. change (clamp 1) with 1 in M.
      apply Qle_antisym; [apply Rx | exact M]. }
    destruct Bx as [_ Bxp]. set (vx := quantize fl64 x) in *. set (cx := clamp x) in *.
    clearbody vx cx. clear By Hc Rx Ry. specialize (Bxp ltac:(lra)).
    assert (U : inject_Z 32767 < inject_Z (vx + 1))
      by (rewrite inject_Z_plus; change (inject_Z 32767) with 32767; change (inject_Z 1) with 1; lra).
    rewrite <- Zlt_Qlt in U. lia.
  - intros H1. assert (E : clamp y == -1).
    { pose proof (clamp_monotone y (-1) H1) as M. change (clamp (-1)) with (-1) in M.
      apply Qle_antisym; [exact M | apply Ry]. }
    destruct By as [Byn _]. set (vy := quantize fl64 y) in *. set (cy := clamp y) in *.
    clearbody vy cy. clear Bx Hc Rx Ry. specialize (Byn ltac:(lra)).
    assert (U : inject_Z vy < inject_Z (-32767))
      by (change (inject_Z (-32767)) with (-32767); lra).
    rewrite <- Zlt_Qlt in U. lia.
Qed.

End Saturation.

Section Resampling.

Variable fl64 : Q -> Q.
Variable fl32 : Q -> Q.

(** Rounding to nearest: no representable value is closer to the exact
    result than the rounded one; a binary32 value is stored in a
    [Float32Array] as it is. *)
Hypothesis fl64_nearest : forall q d, is_binary64 d -> Qabs (fl64 q - q) <= Qabs (d - q).
Hypothesis fl32_exact : forall q, is_binary32 q -> fl32 q == q.

Lemma nearest_exact q : is_binary64 q -> fl64 q == q.
Proof.
  intros H. pose proof (fl64_nearest q q H) as N.
  assert (E : q - q == 0) by ring. rewrite E in N. change (Qabs 0) with 0 in N.
  pose proof (Qabs_nonneg (fl64 q - q)) as P.
  assert (Z0 : Qabs (fl64 q - q) == 0) by (apply Qle_antisym; assumption).
  destruct (Qabs_Qle_condition (fl64 q - q) 0) as [C _].
  specialize (C N). lra.
Qed.

(** The rounded quotient of a length by an integer ratio has the floor of
    the exact quotient. *)
Lemma floor_rounded_quotient (len r : Z) (q : Q) :
  (0 <= len < 2 ^ 31)%Z -> (1 <= r <= 2 ^ 20)%Z ->
  q == inject_Z len / inject_Z r ->
  Qfloor (fl64 q) = (len / r)%Z.
Proof.
  intros Hlen Hr Hq. set (n := (len / r)%Z).
  assert (Hn : (0 <= n < 2 ^ 31)%Z).
  { unfold n. split; [apply Z.div_pos; lia|].
    apply Z.le_lt_trans with len; [|lia]. apply Z.div_le_upper_bound; nia. }
  assert (Hdm : (len = r * n + len mod r)%Z) by (apply Z.div_mod; lia).
  assert (Hm : (0 <= len mod r < r)%Z) by (apply Z.mod_pos_bound; lia).
  assert (Hr0 : ~ inject_Z r == 0).
  { intros E. unfold Qeq in E. cbn in E. lia. }
  assert (Hrp : 0 < inject_Z r).
  { change 0 with (inject_Z 0). rewrite <- Zlt_Qlt. lia. }
  (* n <= q <= n + 1 - 1/r *)
  assert (Hlo : inject_Z n * inject_Z r <= inject_Z len).
  { rewrite <- inject_Z_mult, <- Zle_Qle. lia. }
  assert (Hhi : inject_Z len + 1 <= (inject_Z n + 1) * inject_Z r).
  { change 1 with (inject_Z 1). rewrite <- !inject_Z_plus, <- inject_Z_mult, <- Zle_Qle. lia. }
  assert (Hqr : q * inject_Z r == inject_Z len) by (rewrite Hq; field; exact Hr0).
  assert (Hr20 : inject_Z r <= inject_Z (2 ^ 20)) by (rewrite <- Zle_Qle; lia).
  set (R := inject_Z r) in *. set (L := inject_Z len) in *. set (N := inject_Z n) in *.
  assert (Q1 : N <= q).
  { apply Qmult_le_r with R; [exact Hrp|]. rewrite Hqr. exact Hlo. }
  set (eps := 1 # 1048576).
  assert (Heps : 0 < eps) by (unfold eps; reflexivity).
  assert (T : eps * R <= 1).
  { unfold eps. change (inject_Z (2 ^ 20)) with 1048576 in *. clearbody R. lra. }
  assert (Q2 : q <= N + 1 - eps).
  { apply Qmult_le_r with R; [exact Hrp|]. rewrite Hqr.
    assert (X : (N + 1 - eps) * R == (N + 1) * R - eps * R) by ring.
    rewrite X. clearbody R L N eps. lra. }
  assert (B1 : is_binary64 N).
  { apply (binary64_int n); [lia | reflexivity]. }
  assert (B2 : is_binary64 (N + 1 - eps)).
  { apply (binary64_comp (inject_Z (n + 1) - (1 # 1048576))).
    - rewrite inject_Z_plus. reflexivity.
    - apply binary64_below. exact Hn. }
  pose proof (fl64_nearest q _ B1) as N1. pose proof (fl64_nearest q _ B2) as N2.
  set (f := fl64 q) in *. clearbody f.
  apply Qabs_Qle_condition in N1 as [N1 _]. apply Qabs_Qle_condition in N2 as [_ N2].
  assert (A1 : Qabs (N - q) == q - N).
  { rewrite Qabs_neg by lra. ring. }
  assert (A2 : Qabs (N + 1 - eps - q) == N + 1 - eps - q).
  { apply Qabs_pos. lra. }
  rewrite A1 in N1. rewrite A2 in N2.
  assert (EN : N = inject_Z n) by reflexivity. clearbody N eps.
  assert (F1 : N <= f) by lra. assert (F2 : f < N + 1) by lra.
  rewrite EN in F1, F2. apply Qfloor_unique; assumption.
Qed.

Lemma rounds_to q v : q == v -> is_binary64 v -> fl64 q == v.
Proof.
  intros E B. rewrite <- E. apply nearest_exact. apply (binary64_comp v); [symmetry; exact E | exact B].
Qed.

(** With an integer ratio every source index is an integer, the
    interpolation weight of the next sample is 0, and the resampled value
    is the source sample itself. *)
Lemma resampled_sample (float32 : list Q) (ratio : Q) (r : Z) (k : nat) :
  Forall is_binary32 float32 -> (1 <= r)%Z -> (Z.of_nat k * r < 2 ^ 53)%Z ->
  ratio == inject_Z r ->
  let len := Z.of_nat (List.length float32) in
  let i := Z.of_nat k in
  let srcIdx := fl64 (inject_Z i * ratio) in
  let lo := Qfloor srcIdx in
  let hi := Z.min (lo + 1) (len - 1) in
  let frac := fl64 (srcIdx - inject_Z lo) in
  fl32 (fl64 (fl64 (at0 float32 lo * fl64 (1 - frac)) + fl64 (at0 float32 hi * frac)))
  == nth (k * Z.to_nat r) float32 0.
Proof.
  intros Hx Hr Hk Hratio. cbv zeta.
  set (i := Z.of_nat k).
  assert (S1 : fl64 (inject_Z i * ratio) == inject_Z (i * r)).
  { apply rounds_to; [rewrite Hratio, inject_Z_mult; reflexivity|].
    apply (binary64_int (i * r)); [lia | reflexivity]. }
  set (srcIdx := fl64 (inject_Z i * ratio)) in *. clearbody srcIdx.
  assert (L1 : Qfloor srcIdx = (i * r)%Z).
  { rewrite (Qfloor_comp _ _ S1). apply Qfloor_Z. }
  rewrite L1.
  assert (B0 : is_binary64 0) by (apply (binary64_int 0); [lia | reflexivity]).
  assert (B1 : is_binary64 1) by (apply (binary64_int 1); [lia | reflexivity]).
  assert (F1 : fl64 (srcIdx - inject_Z (i * r)) == 0).
  { apply rounds_to; [rewrite S1; ring | exact B0]. }
  set (frac := fl64 (srcIdx - inject_Z (i * r))) in *. clearbody frac.
  assert (W1 : fl64 (1 - frac) == 1).
  { apply rounds_to; [rewrite F1; ring | exact B1]. }
  set (w := fl64 (1 - frac)) in *. clearbody w.
  assert (A1 : at0 float32 (i * r) = nth (k * Z.to_nat r) float32 0).
  { unfold at0. destruct (Z.ltb_spec (i * r) 0) as [Hneg|_]; [lia|].
    f_equal. unfold i. rewrite Z2Nat.inj_mul by lia. rewrite Nat2Z.id. reflexivity. }
  rewrite A1. set (a := nth (k * Z.to_nat r) float32 0).
  assert (Ba : is_binary32 a) by (apply binary32_nth, Hx).
  assert (P1 : fl64 (a * w) == a).
  { apply rounds_to; [rewrite W1; ring | apply binary32_binary64, Ba]. }
  assert (P2 : fl64 (at0 float32 (Z.min (i * r + 1) (Z.of_nat (List.length float32) - 1)) * frac) == 0).
  { apply rounds_to; [rewrite F1; ring | exact B0]. }
  set (p1 := fl64 (a * w)) in *. set (p2 := fl64 (_ * frac)) in *. clearbody p1 p2.
  assert (P3 : fl64 (p1 + p2) == a).
  { apply rounds_to; [rewrite P1, P2; ring | apply binary32_binary64, Ba]. }
  transitivity (fl64 (p1 + p2)); [|exact P3].
  apply fl32_exact. apply (binary32_comp a); [symmetry; exact P3 | exact Ba].
Qed.

(** X3. When the source rate is an integer multiple of the target rate
    (48000 to 16000, say), [float32ToPcmBase64] decimates: the chunk holds
    the quantisation of every r-th input sample, floor(len / r) of them;
    nothing is interpolated and nothing is averaged. *)
Theorem resample_integer_ratio
    (float32 : list Q) (targetRate sourceRate : Q) (r : nat) :
  Forall is_binary32 float32 ->
  (Z.of_nat (List.length float32) < 2 ^ 31)%Z ->
  (2 <= Z.of_nat r <= 2 ^ 20)%Z ->
  ~ targetRate == 0 ->
  sourceRate == inject_Z (Z.of_nat r) * targetRate ->
  float32ToPcmBase64 fl64 fl32 float32 (Some targetRate) (Some sourceRate)
  = Some (btoa (flat_map le16
       (map (fun k => quantize fl64 (nth (k * r) float32 0))
            (seq 0 (List.length float32 / r))))).
Proof.
  intros Hx Hlen Hrz Ht Hs.
  set (rz := Z.of_nat r) in *.
  assert (Hs0 : ~ sourceRate == 0).
  { intros E. rewrite E in Hs. symmetry in Hs. apply Qmult_integral in Hs as [E0|E0]; [|auto].
    unfold Qeq in E0. cbn in E0. lia. }
  assert (Hne : ~ targetRate == sourceRate).
  { intros E. rewrite Hs in E.
    assert (E' : (inject_Z rz - 1) * targetRate == 0).
    { transitivity (inject_Z rz * targetRate - targetRate); [ring|].
      rewrite <- E. ring. }
    apply Qmult_integral in E' as [E0|E0]; [|auto].
    assert (E1 : inject_Z rz == inject_Z 1) by (change (inject_Z 1) with 1; lra).
    unfold Qeq in E1. cbn in E1. lia. }
  unfold float32ToPcmBase64, truthyRate.
  assert (C1 : Qeq_bool targetRate 0 = false).
  { apply not_true_iff_false. rewrite Qeq_bool_iff. exact Ht. }
  assert (C2 : Qeq_bool sourceRate 0 = false).
  { apply not_true_iff_false. rewrite Qeq_bool_iff. exact Hs0. }
  assert (C3 : Qeq_bool targetRate sourceRate = false).
  { apply not_true_iff_false. rewrite Qeq_bool_iff. exact Hne. }
  rewrite C1, C2, C3. cbn [negb andb].
  unfold resample.
  assert (Hratio : fl64 (sourceRate / targetRate) == inject_Z rz).
  { apply rounds_to; [rewrite Hs; field; exact Ht|].
    apply (binary64_int rz); [lia | reflexivity]. }
  set (ratio := fl64 (sourceRate / targetRate)) in *. clearbody ratio.
  set (len := Z.of_nat (List.length float32)) in *.
  assert (Hout : Qfloor (fl64 (inject_Z len / ratio)) = (len / rz)%Z).
  { apply floor_rounded_quotient; [lia | lia | rewrite Hratio; reflexivity]. }
  rewrite Hout.
  assert (Hdiv : (len / rz)%Z = Z.of_nat (List.length float32 / r)).
  { unfold len, rz. rewrite Nat2Z.inj_div. reflexivity. }
  rewrite Hdiv. destruct (Z.ltb_spec (Z.of_nat (List.length float32 / r)) 0) as [Hneg|_]; [lia|].
  rewrite Nat2Z.id. do 3 f_equal. rewrite map_map. apply map_ext_in.
  intros k Hk. apply in_seq in Hk.
  assert (Hkr : (k * r < List.length float32)%nat).
  { assert (Hk1 : (k + 1 <= List.length float32 / r)%nat) by lia.
    assert (Hmul : ((k + 1) * r <= List.length float32)%nat).
    { apply Nat.le_trans with (List.length float32 / r * r)%nat.
      - apply Nat.mul_le_mono_r. exact Hk1.
      - rewrite Nat.mul_comm. apply Nat.Div0.mul_div_le. }
    lia. }
  assert (Hb : is_binary32 (nth (k * r) float32 0)) by (apply binary32_nth, Hx).
  pose proof (resampled_sample float32 ratio rz k Hx ltac:(lia) ltac:(lia) Hratio) as Hv.
  cbv zeta in Hv. fold len in Hv. unfold rz in Hv. rewrite Nat2Z.id in Hv. fold rz in Hv.
  symmetry. apply (quantize_comp fl64 nearest_exact _ _ Hb). symmetry. exact Hv.
Qed.

End Resampling.
Lemma writeString_bytes s : Forall byte (writeString s).
Proof.
  unfold writeString. induction (list_ascii_of_string s) as [|c l IH]; cbn; constructor; [|exact IH].
  unfold byte. pose proof (N_ascii_bounded c). lia.
Qed.

Lemma le32_bytes v : Forall byte (le32 v).
Proof. unfold le32. repeat constructor; divmod. Qed.

Lemma le16_byte_pair v : Forall byte (le16 v).
Proof. unfold le16. repeat constructor; divmod. Qed.

Lemma audioBufferToWav_bytes fl64 ab : Forall byte (audioBufferToWav fl64 ab).
Proof.
  unfold audioBufferToWav, wavHeader. cbv zeta.
  repeat (apply Forall_app; split);
    try apply writeString_bytes; try apply le32_bytes; try apply le16_byte_pair.
  induction (seq 0 (frames ab)) as [|i l IH]; cbn [flat_map]; [constructor|].
  apply Forall_app. split; [apply le16_byte_pair | exact IH].
Qed.

(** X4. What [blobToWavBase64] returns is the RFC 4648 text of the WAV file:
    decoding it gives back the 44 + 2N bytes of [audioBufferToWav], and
    it is 4 * ceil((44 + 2N) / 3) characters long. *)
Theorem blobToWavBase64_decodes (fl64 : Q -> Q) (audioBuffer : AudioBuffer) :
  atob (blobToWavBase64 fl64 audioBuffer) = Some (audioBufferToWav fl64 audioBuffer) /\
  List.length (audioBufferToWav fl64 audioBuffer) = (44 + 2 * frames audioBuffer)%nat /\
  String.length (blobToWavBase64 fl64 audioBuffer)
    = (4 * ((44 + 2 * frames audioBuffer + 2) / 3))%nat.
Proof.
  assert (Hlen : List.length (audioBufferToWav fl64 audioBuffer)
                 = (44 + 2 * frames audioBuffer)%nat).
  { unfold audioBufferToWav. rewrite length_app, wavHeader_length, length_samples, length_seq.
    reflexivity. }
  unfold blobToWavBase64, arrayBufferToBase64. split; [|split].
  - apply atob_btoa, audioBufferToWav_bytes.
  - exact Hlen.
  - rewrite btoa_length, Hlen. reflexivity.
Qed.

Lemma exactRounding_nearest q d : is_binary64 d -> Qabs (exactRounding q - q) <= Qabs (d - q).
Proof.
  intros _. unfold exactRounding.
  assert (E : q - q == 0) by ring. rewrite E. apply Qabs_nonneg.
Qed.

Lemma capture_binary32 : Forall is_binary32 capture.
Proof.
  unfold capture. repeat constructor.
  - exists 1%Z, (-1)%Z. repeat split; try lia; reflexivity.
  - exists (-1)%Z, (-2)%Z. repeat split; try lia; reflexivity.
  - exists 3%Z, (-1)%Z. repeat split; try lia; reflexivity.
  - exists 0%Z, 0%Z. repeat split; try lia; reflexivity.
  - exists 1%Z, (-2)%Z. repeat split; try lia; reflexivity.
  - exists 1%Z, 0%Z. repeat split; try lia; reflexivity.
  - exists (-1)%Z, 0%Z. repeat split; try lia; reflexivity.
Qed.

Lemma quantize_monotone_witness :
  is_binary32 (-1 # 4) /\ is_binary32 (3 # 2) /\
  (quantize exactRounding (-1 # 4) <= quantize exactRounding (3 # 2))%Z /\
  quantize exactRounding (3 # 2) = 32767%Z.
Proof.
  assert (Hx : is_binary32 (-1 # 4)).
  { exists (-1)%Z, (-2)%Z. repeat split; try lia; reflexivity. }
  assert (Hy : is_binary32 (3 # 2)).
  { exists 3%Z, (-1)%Z. repeat split; try lia; reflexivity. }
  split; [exact Hx|]. split; [exact Hy|].
  destruct (quantize_monotone exactRounding (fun q _ => Qeq_refl q) (-1 # 4) (3 # 2) Hx Hy)
    as (Hm & _ & _); [unfold Qle; cbn; lia|].
  split; [exact Hm|].
  destruct (quantize_monotone exactRounding (fun q _ => Qeq_refl q) (3 # 2) (3 # 2) Hy Hy)
    as (_ & Ht & _); [unfold Qle; cbn; lia|].
  apply Ht. unfold Qle. cbn. lia.
Defined.

Lemma resample_integer_ratio_witness :
  Forall is_binary32 capture /\
  float32ToPcmBase64 exactRounding exactRounding capture (Some 16000) (Some 48000)
    = Some "/z8AAA=="%string /\
  decodePcmBase64 "/z8AAA==" = Some [16383; 0]%Z.
Proof.
  split; [exact capture_binary32|].
  rewrite (resample_integer_ratio exactRounding exactRounding exactRounding_nearest
             (fun q _ => Qeq_refl q) capture 16000 48000 3 capture_binary32).
  - split; vm_compute; reflexivity.
  - vm_compute. reflexivity.
  - cbn. lia.
  - discriminate.
  - reflexivity.
Defined.

End CodecMore.

(** ** The session: shape of the transcript, teardown, late events *)

Module TurnsFacts.
Import JsString Session JsStringFacts SessionFacts Turns.

Lemma trim_idempotent s : trim (trim s) = trim s.
Proof.
  destruct (trim_result s) as [E|Hc]; [rewrite E; reflexivity | apply trim_clean, Hc].
Qed.

Lemma isFragment_trim raw : trim raw <> [] -> isFragment (trim raw) = true.
Proof.
  intros H. unfold isFragment, eqb. rewrite (truthy_nonempty _ H), trim_idempotent.
  rewrite bool_decide_eq_true_2 by reflexivity. reflexivity.
Qed.

Lemma turns_weaken b l : turns false l = true -> turns b l = true.
Proof. destruct l as [|m r]; [reflexivity|]. cbn. destruct (role m); [auto | discriminate]. Qed.

Lemma turns_snoc_user b l t :
  turns b l = true -> isFragment t = true ->
  turns b (l ++ [{| role := user; text := t |}]) = true.
Proof.
  intros Hl Ht. revert b Hl. induction l as [|m r IH]; intros b Hl; cbn.
  - rewrite Ht. reflexivity.
  - cbn in Hl. destruct (role m).
    + apply andb_true_iff in Hl as [-> Hr]. cbn. apply IH, Hr.
    + apply andb_true_iff in Hl as [-> Hr]. cbn. apply IH, Hr.
Qed.

Lemma endsWithUser_snoc l t : endsWithUser (l ++ [{| role := user; text := t |}]) = true.
Proof. unfold endsWithUser. rewrite last_snoc. reflexivity. Qed.

Lemma turns_snoc_ai b l q :
  turns b l = true -> endsWithUser l = true ->
  turns b (l ++ [{| role := ai; text := q |}]) = true.
Proof.
  revert b. induction l as [|m r IH]; intros b Hl He; [discriminate|].
  destruct r as [|m' r'].
  - unfold endsWithUser in He. cbn in He. cbn in *. destruct (role m); [|discriminate].
    rewrite andb_true_r in Hl. rewrite Hl. reflexivity.
  - assert (He' : endsWithUser (m' :: r') = true) by exact He.
    change ((m :: m' :: r') ++ [{| role := ai; text := q |}])
      with (m :: ((m' :: r') ++ [{| role := ai; text := q |}])).
    cbn [turns] in *. destruct (role m).
    + apply andb_true_iff in Hl as [-> Hr]. cbn [andb]. apply IH; assumption.
    + apply andb_true_iff in Hl as [-> Hr]. cbn [andb]. apply IH; assumption.
Qed.

Lemma stopRecording_transcript s : transcript (stopRecording s) = transcript s.
Proof. apply (stopRecording_frame s). Qed.

Lemma stopRecording_currentAudioRef s : currentAudioRef (stopRecording s) = currentAudioRef s.
Proof. release_frame currentAudioRef. Qed.

Lemma stopRecording_startRecordingTimeoutRef s :
  startRecordingTimeoutRef (stopRecording s) = startRecordingTimeoutRef s.
Proof. release_frame startRecordingTimeoutRef. Qed.

Lemma stopRecording_currentPlaybackSourceRef s :
  currentPlaybackSourceRef (stopRecording s) = currentPlaybackSourceRef s.
Proof. release_frame currentPlaybackSourceRef. Qed.

Lemma stopRecording_playbackContextRef s :
  playbackContextRef (stopRecording s) = playbackContextRef s.
Proof. release_frame playbackContextRef. Qed.

Lemma stopRecording_selectedVoiceId s : selectedVoiceId (stopRecording s) = selectedVoiceId s.
Proof. release_frame selectedVoiceId. Qed.

Lemma stopRecording_isUserSpeaking s : isUserSpeaking (stopRecording s) = isUserSpeaking s.
Proof. release_frame isUserSpeaking. Qed.

Lemma whenSet_some ref f s x : ref s = Some x -> whenSet ref f s = f x s.
Proof. unfold whenSet. intros ->. reflexivity. Qed.

Lemma whenSet_none ref f s : ref s = None -> whenSet ref f s = s.
Proof. unfold whenSet. intros ->. reflexivity. Qed.

Ltac skip_frames P :=
  repeat (rewrite (whenSet_frame P);
          [| intros; unfold ws_close, log, setReadyState; repeat split_match; reflexivity]).

(** [stopRecording] lets go of the audio graph, the stream and the
    context, and of the socket if it is open; a socket in another state
    stays in [wsRef] and is not closed. *)
Lemma stopRecording_released s :
  let s' := stopRecording s in
  processorRef s' = None /\ sourceRef s' = None /\ streamRef s' = None /\
  audioContextRef s' = None /\ isListeningRef s' = false /\
  match wsRef s with
  | Some ws =>
      if isOpen ws s
      then wsRef s' = None /\ readyStateOf ws s' = Some CLOSING
      else wsRef s' = Some ws /\ sockets s' = sockets s
  | None => wsRef s' = None /\ sockets s' = sockets s
  end.
Proof.
  cbv zeta. rewrite stopRecording_steps.
  set (s1 := whenSet wsRef _ s).
  assert (H1 : match wsRef s with
               | Some ws =>
                   if isOpen ws s
                   then wsRef s1 = None /\ readyStateOf ws s1 = Some CLOSING
                   else wsRef s1 = Some ws /\ sockets s1 = sockets s
               | None => wsRef s1 = None /\ sockets s1 = sockets s
               end).
  { unfold s1. destruct (wsRef s) as [ws|] eqn:Hws;
      [rewrite (whenSet_some wsRef _ s ws Hws) | rewrite (whenSet_none wsRef _ s Hws); auto].
    destruct (isOpen ws s) eqn:Ho; [|auto].
    unfold ws_close, isOpen, readyStateOf, setReadyState, log in *.
    destruct (sockets s !! ws) as [[[] st cx]|] eqn:Hk; try discriminate; cbn.
    rewrite lookup_alter_eq, Hk. split; reflexivity. }
  clearbody s1. cbn.
  split; [|split; [|split; [|split; [reflexivity | split; [reflexivity|]]]]].
  - skip_frames processorRef.
    unfold whenSet, processorRef. split_match; [reflexivity | assumption].
  - skip_frames sourceRef. set (s2 := whenSet processorRef _ _). clearbody s2.
    unfold whenSet, sourceRef. split_match; [reflexivity | assumption].
  - skip_frames streamRef. set (s3 := whenSet sourceRef _ _). clearbody s3.
    unfold whenSet, streamRef. split_match; [reflexivity | assumption].
  - destruct (wsRef s) as [ws|]; [destruct (isOpen ws s)|]; unfold readyStateOf in *; cbn;
      skip_frames wsRef; skip_frames sockets; exact H1.
Qed.

(** With nothing to release, [stopRecording] changes nothing. *)
Lemma stopRecording_idle s :
  processorRef s = None -> sourceRef s = None -> streamRef s = None ->
  audioContextRef s = None -> isListeningRef s = false ->
  match wsRef s with Some ws => isOpen ws s = false | None => True end ->
  stopRecording s = s.
Proof.
  intros Hp Hsrc Hst Hctx Hl Hws. unfold stopRecording.
  destruct (wsRef s) as [ws|] eqn:E.
  - rewrite Hws. cbn. unfold processorRef, sourceRef, streamRef, audioContextRef in *.
    rewrite Hp, Hsrc, Hst, Hctx. cbn.
    destruct s. cbn in *. subst. reflexivity.
  - cbn. unfold processorRef, sourceRef, streamRef, audioContextRef in *.
    rewrite Hp, Hsrc, Hst, Hctx. cbn.
    destruct s. cbn in *. subst. reflexivity.
Qed.

#[local] Opaque stopRecording.

Lemma stopRecording_shaped s : shaped s -> shaped (stopRecording s).
Proof.
  unfold shaped, audioElement.
  rewrite stopRecording_transcriptRef, stopRecording_transcript, stopRecording_pending,
    stopRecording_next, stopRecording_currentAudioRef. exact id.
Qed.

(** Suspending a call that holds turns, and dropping a call, keep the
    shape. *)
Lemma suspend_shaped c s : heldTurns c -> shaped s -> shaped (suspend c s).
Proof.
  intros Hc (H1 & H2 & H3 & H4). unfold shaped, audioElement, suspend, bump. cbn.
  repeat split; try assumption.
  - apply map_Forall_insert_2; assumption.
  - destruct (H4 el H) as [Hlt _]. lia.
  - intros c'. destruct (H4 el H) as [Hlt Hp]. rewrite lookup_insert_ne by lia. apply Hp.
Qed.


Lemma processUserInput_shaped raw s : shaped s -> shaped (processUserInput (trim raw) s).
Proof.
  intros Hs. unfold processUserInput.
  destruct (isProcessingRef s || negb (truthy (trim (trim raw)))) eqn:G; [exact Hs|].
  apply orb_false_iff in G as [_ G]. apply negb_false_iff in G.
  rewrite trim_idempotent in G.
  assert (Hf : isFragment (trim raw) = true).
  { apply isFragment_trim. intros E. rewrite E in G. discriminate. }
  assert (Hs' : shaped (stopRecording (set_isProcessingRef true s))).
  { apply stopRecording_shaped. exact Hs. }
  set (s1 := stopRecording (set_isProcessingRef true s)) in *. clearbody s1.
  destruct Hs' as (H1 & H2 & H3 & H4).
  apply suspend_shaped.
  - split; [apply turns_snoc_user; assumption | apply endsWithUser_snoc].
  - unfold shaped, audioElement, log. cbn. repeat split; try assumption.
    + apply turns_snoc_user; assumption.
    + apply turns_snoc_user; assumption.
    + apply (H4 el H).
    + apply (H4 el H).
Qed.

#[local] Opaque processUserInput.
#[local] Opaque trim join Codec.createSilentPcmBase64.

Ltac lookup_tac Hp :=
  let c := fresh "c" in
  intros c;
  repeat first
    [ rewrite lookup_insert_eq
    | rewrite lookup_insert_ne by lia
    | match goal with
      | |- context [delete ?k _ !! ?el] =>
          destruct (decide (k = el)) as [->|];
          [rewrite lookup_delete_eq | rewrite lookup_delete_ne by assumption]
      end ];
  first [ discriminate | intros [= <-]; reflexivity | apply Hp ].

Ltac audio_tac T4 :=
  let el := fresh "el" in let Hel := fresh "Hel" in
  intros el Hel; cbn in Hel;
  first
    [ discriminate Hel
    | injection Hel as <-; split; [lia | lookup_tac T4]
    | let Hlt := fresh "Hlt" in let Hp := fresh "Hp" in
      destruct (T4 el Hel) as [Hlt Hp]; split; [lia | lookup_tac Hp] ].

Ltac held_tac T3 :=
  repeat first [ apply map_Forall_insert_2 | apply map_Forall_delete ];
  first [ exact T3 | exact I ].

Ltac shaped_base :=
  match goal with
  | Hs : shaped ?s |- shaped _ =>
      let T1 := fresh "T1" in let T2 := fresh "T2" in
      let T3 := fresh "T3" in let T4 := fresh "T4" in
      destruct Hs as (T1 & T2 & T3 & T4);
      unfold shaped, audioElement; cbn;
      rewrite ?stopRecording_transcriptRef, ?stopRecording_transcript, ?stopRecording_pending,
        ?stopRecording_next, ?stopRecording_currentAudioRef; cbn;
      split; [first [exact T1 | reflexivity] |
      split; [first [exact T2 | reflexivity] |
      split; [held_tac T3 | audio_tac T4]]]
  end.

Ltac shaped_tac :=
  repeat first
    [ match goal with
      | |- shaped (processUserInput (trim _) _) => apply processUserInput_shaped
      | |- shaped (stopRecording _) => apply stopRecording_shaped
      end
    | progress cbn
    | split_match ];
  try assumption; try shaped_base.

Lemma step_shaped s e : shaped s -> shaped (step s e).
Proof.
  intros Hs. destruct e.
  - unfold step, connect, speak, speakWithVoiceApi, startRecordingAfterAI, setTimeout,
      suspend, bump, log, drop.
    rewrite greeting_spoken. shaped_tac.
  - unfold step, disconnect, clearTimeout, drop, log. shaped_tac.
  - unfold step, commitManual, setTimeout, bump, log. shaped_tac.
  - unfold step, startRecordingTimeout, manualCommitTimeout, startRecording, clearTimeout,
      suspend, bump, log. shaped_tac.
  - cbn [step]. destruct (pending s !! k) as [[n| | | |]|] eqn:Hk; try exact Hs.
    assert (Hn : heldTurns (AwaitInterviewer n)).
    { destruct Hs as (_ & _ & T3 & _). exact (map_Forall_lookup_1 _ _ _ _ T3 Hk). }
    destruct Hn as [Hn1 Hn2].
    unfold processUserInput_resumed, speak, speakWithVoiceApi, startRecording,
      startRecordingAfterAI, setTimeout, suspend, bump, log, drop.
    destruct r as [err|question].
    + shaped_tac.
    + pose proof (turns_snoc_ai false n question Hn1 Hn2) as Hq.
      destruct Hs as (T1 & T2 & T3 & T4).
      repeat (cbn; split_match); unfold shaped, audioElement; cbn;
        (split; [exact Hq | split; [exact Hq | split; [held_tac T3 | audio_tac T4]]]).
  - unfold step, voice_then, voice_catch, done, startRecordingAfterAI, setTimeout,
      suspend, bump, drop. shaped_tac.
  - unfold step, playback_settled, done, startRecordingAfterAI, setTimeout, bump, drop.
    shaped_tac.
  - unfold step, start_afterUserMedia, start_catch, suspend, bump, log, drop. shaped_tac.
  - unfold step, start_afterToken, start_catch, bump, log, drop. shaped_tac.
  - unfold step, ws_onopen, ws_close, setReadyState, readyStateOf, bump, log. shaped_tac.
  - unfold step, ws_onmessage, onPartialTranscript, onCommittedTranscript, onScribeError,
      startRecording, clearTimeout, suspend, bump, log. shaped_tac.
  - unfold step, ws_onerror. shaped_tac.
  - unfold step, ws_onclose, setReadyState, readyStateOf. shaped_tac.
Qed.


Lemma init_shaped prompt voiceId manual : shaped (init prompt voiceId manual).
Proof.
  unfold shaped, audioElement, init. cbn. repeat split; try discriminate.
Qed.

Lemma reachable_shaped s : reachable s -> shaped s.
Proof. induction 1 as [| s e _ IH]; [apply init_shaped | apply step_shaped, IH]. Qed.

Lemma isFragment_fragment t : isFragment t = true -> fragment t.
Proof.
  unfold isFragment, eqb. intros H. apply andb_true_iff in H as [H1 H2].
  apply bool_decide_eq_true in H2. split; [|exact H2]. destruct t; [discriminate | discriminate].
Qed.

(** What [turns] says entry by entry. *)
Lemma turns_lookup b l i m :
  turns b l = true -> l !! i = Some m ->
  match role m with
  | user => fragment (text m)
  | ai => (i = 0%nat /\ b = true) \/
          exists u, (0 < i)%nat /\ l !! (i - 1)%nat = Some u /\ role u = user
  end.
Proof.
  revert b i. induction l as [|x r IH]; intros b i Hl Hi; [discriminate|].
  cbn [turns] in Hl. destruct i as [|i].
  - injection Hi as <-. destruct (role x) eqn:Rx.
    + apply andb_true_iff in Hl as [Hf _]. apply isFragment_fragment, Hf.
    + apply andb_true_iff in Hl as [-> _]. left. auto.
  - cbn in Hi. destruct (role x) eqn:Rx; apply andb_true_iff in Hl as [Hx Hr].
    + specialize (IH true i Hr Hi). destruct (role m); [exact IH|].
      right. destruct IH as [[-> _] | (u & Hpos & Hu & Ru)].
      * exists x. cbn. repeat split; [lia | exact Rx].
      * exists u. replace (S i - 1)%nat with (S (i - 1)) by lia. cbn. repeat split; [lia | exact Hu | exact Ru].
    + specialize (IH false i Hr Hi). destruct (role m); [exact IH|].
      right. destruct IH as [[_ [=]] | (u & Hpos & Hu & Ru)].
      exists u. replace (S i - 1)%nat with (S (i - 1)) by lia. cbn. repeat split; [lia | exact Hu | exact Ru].
Qed.

(** X5. In every state the hook can reach, the transcript (the hook's own
    and the one handed to the page) reads as turns: every user entry is a
    trimmed, non-empty text, and every assistant entry directly follows
    a user entry.  In particular the transcript never starts with an
    assistant entry (the greeting is spoken, not recorded) and never
    holds two assistant entries in a row. *)
Theorem transcript_turns (s : Session) :
  reachable s ->
  turns false (transcriptRef s) = true /\
  turns false (transcript s) = true /\
  forall i m, transcriptRef s !! i = Some m ->
    match role m with
    | user => fragment (text m)
    | ai => exists u, (0 < i)%nat /\ transcriptRef s !! (i - 1)%nat = Some u /\ role u = user
    end.
Proof.
  intros Hr. destruct (reachable_shaped s Hr) as (T1 & T2 & _ & _).
  split; [exact T1|]. split; [exact T2|].
  intros i m Hi. pose proof (turns_lookup false _ i m T1 Hi) as H.
  destruct (role m); [exact H|]. destruct H as [[_ [=]] | H]. exact H.
Qed.


Lemma disconnect_split s :
  disconnect s = disconnect_state (stopRecording (disconnect_handles s)).
Proof. reflexivity. Qed.

(** What [disconnect] has let go of before it calls [stopRecording]. *)
Lemma disconnect_handles_released s :
  let s' := disconnect_handles s in
  pendingManualCommitTimeoutRef s' = None /\ startRecordingTimeoutRef s' = None /\
  currentAudioRef s' = None /\ currentPlaybackSourceRef s' = None /\
  playbackContextRef s' = None /\
  transcriptRef s' = transcriptRef s /\ transcript s' = transcript s /\
  wsRef s' = wsRef s /\ sockets s' = sockets s /\
  (forall id, pendingManualCommitTimeoutRef s = Some id \/ startRecordingTimeoutRef s = Some id ->
     timers s' !! id = None) /\
  (forall k, currentAudioRef s <> Some k -> pending s' !! k = pending s !! k).
Proof.
  cbv zeta. unfold disconnect_handles, clearTimeout, drop, log.
  repeat (cbn; split_match); cbn; repeat split; try congruence;
    try (intros id [[= ->]|[= ->]]; rewrite ?lookup_delete_eq; try reflexivity;
         try (destruct (decide (n0 = id)) as [->|Hne];
              [apply lookup_delete_eq | rewrite lookup_delete_ne by exact Hne; apply lookup_delete_eq]));
    try (intros k Hk; apply lookup_delete_ne; congruence).
Qed.


Lemma disconnect_handles_frame s :
  let s' := disconnect_handles s in
  selectedVoiceId s' = selectedVoiceId s /\
  List.filter isSocketClose (effects s') = List.filter isSocketClose (effects s).
Proof.
  cbv zeta. unfold disconnect_handles, clearTimeout, drop, log.
  repeat (cbn; split_match); cbn; split; try reflexivity;
    rewrite ?List.filter_app; cbn; rewrite ?app_nil_r; reflexivity.
Qed.

Lemma teardown_closed s :
  match wsRef s with Some ws => isOpen ws s = false | None => True end ->
  List.filter isSocketClose (teardown s) = [].
Proof.
  intros H. unfold teardown. destruct (wsRef s) as [ws|]; [rewrite H|];
    repeat split_match; reflexivity.
Qed.

(** The state [disconnect] leaves. *)
Lemma disconnect_facts s :
  let s' := disconnect s in
  (status s' = disconnected /\ errorMessage s' = None /\
   isUserSpeaking s' = false /\ isAiSpeaking s' = false /\ isAiSpeakingRef s' = false /\
   isProcessingRef s' = false /\ isListeningRef s' = false /\
   manualBufferRef s' = [] /\ pendingManualCommitRef s' = false) /\
  (pendingManualCommitTimeoutRef s' = None /\ startRecordingTimeoutRef s' = None /\
   currentAudioRef s' = None /\ currentPlaybackSourceRef s' = None /\
   playbackContextRef s' = None /\ processorRef s' = None /\ sourceRef s' = None /\
   streamRef s' = None /\ audioContextRef s' = None) /\
  (forall id, pendingManualCommitTimeoutRef s = Some id \/ startRecordingTimeoutRef s = Some id ->
     timers s' !! id = None) /\
  (transcriptRef s' = transcriptRef s /\ transcript s' = transcript s /\
   selectedVoiceId s' = selectedVoiceId s) /\
  (forall k, currentAudioRef s <> Some k -> pending s' !! k = pending s !! k) /\
  match wsRef s with
  | Some ws =>
      if isOpen ws s then wsRef s' = None
      else wsRef s' = Some ws /\ sockets s' = sockets s /\
           List.filter isSocketClose (effects s') = List.filter isSocketClose (effects s)
  | None => wsRef s' = None
  end.
Proof.
  cbv zeta. rewrite disconnect_split.
  pose proof (disconnect_handles_released s) as H. cbv zeta in H.
  destruct H as (H1 & H2 & H3 & H4 & H5 & H6 & H7 & H8 & H9 & H10 & H11).
  pose proof (disconnect_handles_frame s) as [Hv He].
  set (h := disconnect_handles s) in *. clearbody h.
  pose proof (stopRecording_released h) as R. cbv zeta in R.
  destruct R as (R1 & R2 & R3 & R4 & R5 & R6).
  pose proof (stopRecording_effects h) as Ef.
  pose proof (stopRecording_pendingManualCommitTimeoutRef h) as F1.
  pose proof (stopRecording_startRecordingTimeoutRef h) as F2.
  pose proof (stopRecording_currentAudioRef h) as F3.
  pose proof (stopRecording_currentPlaybackSourceRef h) as F4.
  pose proof (stopRecording_playbackContextRef h) as F5.
  pose proof (stopRecording_timers h) as F6.
  pose proof (stopRecording_transcriptRef h) as F7.
  pose proof (stopRecording_transcript h) as F8.
  pose proof (stopRecording_selectedVoiceId h) as F9.
  pose proof (stopRecording_pending h) as F10.
  set (y := stopRecording h) in *. clearbody y.
  split; [cbn; repeat split|].
  split; [cbn; repeat split; congruence|].
  split; [intros id Hid; cbn; rewrite F6; apply H10, Hid|].
  split; [cbn; repeat split; congruence|].
  split; [intros k Hk; cbn; rewrite F10; apply H11, Hk|].
  rewrite <- H8. destruct (wsRef h) as [ws|] eqn:Hws; [|apply R6].
  assert (Eo : isOpen ws s = isOpen ws h).
  { unfold isOpen, readyStateOf. rewrite H9. reflexivity. }
  rewrite Eo. destruct (isOpen ws h) eqn:Ho; [apply R6|].
  destruct R6 as [W1 W2]. cbn. repeat split; [exact W1 | congruence |].
  rewrite Ef, List.filter_app, teardown_closed, app_nil_r; [exact He|].
  rewrite Hws. exact Ho.
Qed.

(** X6. [disconnect] is a complete reset of what the hook tracks, from any
    state: status, message and flags are cleared, both timers the refs
    hold are cancelled, playback handles and the recording resources are
    let go of; the transcript is not touched; and a second [disconnect]
    changes nothing. *)
Theorem disconnect_resets (s : Session) :
  let s' := step s Disconnect in
  (status s' = disconnected /\ errorMessage s' = None /\
   isUserSpeaking s' = false /\ isAiSpeaking s' = false /\ isAiSpeakingRef s' = false /\
   isProcessingRef s' = false /\ isListeningRef s' = false /\
   manualBufferRef s' = [] /\ pendingManualCommitRef s' = false) /\
  (pendingManualCommitTimeoutRef s' = None /\ startRecordingTimeoutRef s' = None /\
   currentAudioRef s' = None /\ currentPlaybackSourceRef s' = None /\
   playbackContextRef s' = None /\ processorRef s' = None /\ sourceRef s' = None /\
   streamRef s' = None /\ audioContextRef s' = None) /\
  (forall id, pendingManualCommitTimeoutRef s = Some id \/ startRecordingTimeoutRef s = Some id ->
     timers s' !! id = None) /\
  (transcriptRef s' = transcriptRef s /\ transcript s' = transcript s) /\
  step s' Disconnect = s'.
Proof.
  cbv zeta. change (step s Disconnect) with (disconnect s).
  pose proof (disconnect_facts s) as H. cbv zeta in H.
  destruct H as (A & B & C & (D1 & D2 & _) & _ & W).
  split; [exact A|]. split; [exact B|]. split; [exact C|]. split; [split; assumption|].
  assert (W' : match wsRef (disconnect s) with
               | Some ws => isOpen ws (disconnect s) = false
               | None => True
               end).
  { destruct (wsRef s) as [ws|]; [|rewrite W; exact I].
    destruct (isOpen ws s) eqn:Ho; [rewrite W; exact I|].
    destruct W as (-> & Wk & _). unfold isOpen, readyStateOf in *. rewrite Wk. exact Ho. }
  clear W. set (s' := disconnect s) in *. clearbody s'.
  change (step s' Disconnect) with (disconnect s').
  destruct B as (B1 & B2 & B3 & B4 & B5 & B6 & B7 & B8 & B9).
  destruct A as (A1 & A2 & A3 & A4 & A5 & A6 & A7 & A8 & A9).
  rewrite disconnect_split.
  assert (Eh : disconnect_handles s' = s').
  { clear - B1 B2 B3 B4 B5. destruct s'. cbn in *. subst. reflexivity. }
  rewrite Eh.
  assert (Es : stopRecording s' = s') by (apply stopRecording_idle; assumption).
  rewrite Es. clear - A1 A2 A3 A4 A5 A6 A7 A8 A9. destruct s'. cbn in *. subst. reflexivity.
Qed.


(** A dialogue reply resumes [processUserInput] wherever the hook is. *)
Lemma reply_resumed (y : Session) (k : nat) (nextWithUser : list Message) (question : jsstring) :
  pending y !! k = Some (AwaitInterviewer nextWithUser) ->
  currentAudioRef y = None -> currentPlaybackSourceRef y = None ->
  trim question <> [] ->
  let s2 := step y (DialogueResponse k (inr question)) in
  let nextWithAi := nextWithUser ++ [{| role := ai; text := question |}] in
  status s2 = status y /\
  transcriptRef s2 = nextWithAi /\
  transcript s2 = nextWithAi /\
  isAiSpeakingRef s2 = true /\
  isAiSpeaking s2 = true /\
  last (effects s2) = Some (FetchVoice question (selectedVoiceId y)).
Proof.
  intros Hk Ha Hp Hq. cbv zeta. cbn [step]. rewrite Hk.
  unfold processUserInput_resumed, speak, speakWithVoiceApi.
  rewrite (truthy_nonempty _ Hq). cbn [negb]. unfold suspend, bump, log, drop.
  clear Hk. destruct y. cbn in *. subst. cbn. rewrite last_snoc. repeat split.
Qed.

(** X7. [disconnect] cancels no request: a dialogue request that is in
    flight stays suspended, and when its reply arrives the hook, although
    disconnected, records the reply, marks the assistant as speaking and
    asks for the speech audio. *)
Theorem reply_after_disconnect
    (s : Session) (k : nat) (nextWithUser : list Message) (question : jsstring) :
  reachable s ->
  pending s !! k = Some (AwaitInterviewer nextWithUser) ->
  trim question <> [] ->
  let s1 := step s Disconnect in
  let s2 := step s1 (DialogueResponse k (inr question)) in
  let nextWithAi := nextWithUser ++ [{| role := ai; text := question |}] in
  status s1 = disconnected /\
  pending s1 !! k = Some (AwaitInterviewer nextWithUser) /\
  status s2 = disconnected /\
  transcriptRef s2 = nextWithAi /\
  transcript s2 = nextWithAi /\
  isAiSpeakingRef s2 = true /\
  isAiSpeaking s2 = true /\
  last (effects s2) = Some (FetchVoice question (selectedVoiceId s)).
Proof.
  intros Hr Hk Hq. cbv zeta. change (step s Disconnect) with (disconnect s).
  destruct (reachable_shaped s Hr) as (_ & _ & _ & Ha).
  assert (Hne : currentAudioRef s <> Some k).
  { intros E. destruct (Ha k E) as [_ Hc]. specialize (Hc _ Hk). discriminate. }
  pose proof (disconnect_facts s) as H. cbv zeta in H.
  destruct H as ((A1 & _) & (_ & _ & B3 & B4 & _) & _ & (_ & _ & D3) & P & _).
  specialize (P k Hne). rewrite Hk in P.
  set (s1 := disconnect s) in *. clearbody s1.
  pose proof (reply_resumed s1 k nextWithUser question P B3 B4 Hq) as R. cbv zeta in R.
  destruct R as (R1 & R2 & R3 & R4 & R5 & R6).
  rewrite R1, R6, D3. repeat split; assumption.
Qed.

(** X8. [stopRecording], and so [disconnect], closes the socket only when it
    is open.  A socket that is still connecting is neither closed nor
    forgotten: after [disconnect] it is still in [wsRef], still
    connecting, and no [close] has been called; when it opens, the hook,
    although disconnected, marks itself as listening again. *)
Theorem connecting_socket_survives (s : Session) (ws : nat) :
  wsRef s = Some ws ->
  readyStateOf ws s = Some CONNECTING ->
  let s1 := step s Disconnect in
  let s2 := step s1 (SocketOpen ws true) in
  wsRef s1 = Some ws /\
  readyStateOf ws s1 = Some CONNECTING /\
  List.filter isSocketClose (effects s1) = List.filter isSocketClose (effects s) /\
  status s2 = disconnected /\
  readyStateOf ws s2 = Some OPEN /\
  isListeningRef s2 = true /\
  isUserSpeaking s2 = true.
Proof.
  intros Hws Hc. cbv zeta. change (step s Disconnect) with (disconnect s).
  pose proof (disconnect_facts s) as H. cbv zeta in H.
  destruct H as ((A1 & _) & _ & _ & _ & _ & W).
  assert (Ho : isOpen ws s = false).
  { unfold isOpen. rewrite Hc. reflexivity. }
  rewrite Hws, Ho in W. destruct W as (W1 & W2 & W3).
  assert (C1 : readyStateOf ws (disconnect s) = Some CONNECTING).
  { unfold readyStateOf in *. rewrite W2. exact Hc. }
  set (s1 := disconnect s) in *. clearbody s1.
  split; [exact W1|]. split; [exact C1|]. split; [exact W3|].
  cbn [step]. rewrite C1. clear - A1 C1.
  unfold ws_onopen, setReadyState, readyStateOf, bump in *.
  destruct s1. cbn in *. subst.
  destruct manualMode0; cbn; rewrite lookup_alter_eq;
    destruct (sockets0 !! ws) as [k|]; try discriminate; cbn; repeat split.
Qed.


Lemma reachable_listening_now manual : reachable (listening manual).
Proof. unfold listening. apply SessionRuns.reachable_run, reachable_init. Qed.

Lemma transcript_turns_witness :
  let s := step awaitingReply (DialogueResponse 12 (inr (lit "Why was that?"))) in
  reachable s /\
  transcriptRef s = [{| role := user; text := lit "I slept badly" |};
                     {| role := ai; text := lit "Why was that?" |}] /\
  turns false (transcriptRef s) = true.
Proof.
  cbv zeta.
  assert (Hr : reachable (step awaitingReply (DialogueResponse 12 (inr (lit "Why was that?"))))).
  { apply reachable_step. unfold awaitingReply. apply reachable_step, reachable_listening_now. }
  split; [exact Hr|]. split; [vm_compute; reflexivity|].
  exact (proj1 (transcript_turns _ Hr)).
Defined.

Lemma reply_after_disconnect_witness :
  let s2 := step (step awaitingReply Disconnect)
              (DialogueResponse 12 (inr (lit "Why was that?"))) in
  reachable awaitingReply /\
  pending awaitingReply !! 12%nat = Some (AwaitInterviewer [{| role := user; text := lit "I slept badly" |}]) /\
  status s2 = disconnected /\
  isAiSpeakingRef s2 = true /\
  last (effects s2) = Some (FetchVoice (lit "Why was that?") (lit "21m00Tcm4TlvDq8ikWAM")).
Proof.
  cbv zeta.
  assert (Hr : reachable awaitingReply).
  { unfold awaitingReply. apply reachable_step, reachable_listening_now. }
  assert (Hk : pending awaitingReply !! 12%nat
               = Some (AwaitInterviewer [{| role := user; text := lit "I slept badly" |}]))
    by (vm_compute; reflexivity).
  assert (Hq : trim (lit "Why was that?") <> []) by (vm_compute; discriminate).
  split; [exact Hr|]. split; [exact Hk|].
  pose proof (reply_after_disconnect awaitingReply 12 _ (lit "Why was that?") Hr Hk Hq) as H.
  cbv zeta in H. destruct H as (_ & _ & H3 & _ & _ & H6 & _ & H8).
  split; [exact H3|]. split; [exact H6|]. exact H8.
Defined.

Lemma connecting_socket_survives_witness :
  let s2 := step (step socketConnecting Disconnect) (SocketOpen 9 true) in
  wsRef socketConnecting = Some 9%nat /\
  readyStateOf 9 socketConnecting = Some CONNECTING /\
  status s2 = disconnected /\
  isListeningRef s2 = true /\
  List.filter isSocketClose (effects s2) = [].
Proof.
  cbv zeta.
  assert (Hws : wsRef socketConnecting = Some 9%nat) by (vm_compute; reflexivity).
  assert (Hc : readyStateOf 9 socketConnecting = Some CONNECTING) by (vm_compute; reflexivity).
  split; [exact Hws|]. split; [exact Hc|].
  pose proof (connecting_socket_survives socketConnecting 9 Hws Hc) as H.
  cbv zeta in H. destruct H as (_ & _ & _ & H4 & _ & H6 & _).
  split; [exact H4|]. split; [exact H6|]. vm_compute. reflexivity.
Defined.

End TurnsFacts.

(** ** The journal history *)

Module JournalFacts.
Import JsString Session JsStringFacts Journal.

Lemma trimStart_length s : (List.length (trimStart s) <= List.length s)%nat.
Proof.
  destruct (trimStart_suffix s) as [p Hp]. rewrite Hp at 2. rewrite length_app. lia.
Qed.

Lemma trim_length s : (List.length (trim s) <= List.length s)%nat.
Proof.
  unfold trim, trimEnd. rewrite length_rev.
  etransitivity; [apply trimStart_length|]. rewrite length_rev. apply trimStart_length.
Qed.

Lemma transcriptToPreview_length (messages : list Message) (maxLen : nat) :
  (List.length (transcriptToPreview messages maxLen) <= maxLen + 1)%nat.
Proof.
  unfold transcriptToPreview.
  set (text := join (lit " ") (map Session.text messages)).
  destruct (Nat.leb_spec (List.length text) maxLen) as [Hle|Hgt]; [lia|].
  rewrite length_app. cbn [List.length ellipsis].
  pose proof (trim_length (firstn maxLen text)) as Hb. rewrite length_firstn in Hb. lia.
Qed.

(** X9. The preview of an entry is the whole conversation text when that
    has at most [maxLen] code units; otherwise it is at most [maxLen]
    code units of it followed by an ellipsis: never more than
    [maxLen + 1] code units. *)
Theorem transcriptToPreview_bounded (messages : list Message) (maxLen : nat) :
  let text := join (lit " ") (map Session.text messages) in
  let p := transcriptToPreview messages maxLen in
  (List.length p <= maxLen + 1)%nat /\
  ((List.length text <= maxLen)%nat -> p = text) /\
  ((maxLen < List.length text)%nat ->
     exists body, p = body ++ ellipsis /\ (List.length body <= maxLen)%nat /\
                  body = trim (firstn maxLen text)).
Proof.
  cbv zeta. unfold transcriptToPreview.
  set (text := join (lit " ") (map Session.text messages)).
  destruct (Nat.leb_spec (List.length text) maxLen) as [Hle|Hgt].
  - split; [lia|]. split; [reflexivity | lia].
  - assert (Hb : (List.length (trim (firstn maxLen text)) <= maxLen)%nat).
    { etransitivity; [apply trim_length|]. rewrite length_firstn. lia. }
    split; [rewrite length_app; cbn [List.length ellipsis]; lia|]. split; [lia|].
    intros _. exists (trim (firstn maxLen text)). auto.
Qed.

Lemma deleteEntry_fresh entryId entries :
  Forall (fun e => id e <> entryId) entries -> deleteEntry entryId entries = entries.
Proof.
  unfold deleteEntry. induction 1 as [|e l He _ IH]; [reflexivity|].
  cbn [List.filter]. unfold eqb at 1. rewrite bool_decide_eq_false_2 by exact He.
  cbn [negb]. rewrite IH. reflexivity.
Qed.

Lemma deleteEntry_gone entryId entries :
  Forall (fun e => id e <> entryId) (deleteEntry entryId entries).
Proof.
  unfold deleteEntry. induction entries as [|e l IH]; [constructor|].
  cbn [List.filter]. unfold eqb at 1.
  destruct (bool_decide (id e = entryId)) eqn:E; cbn [negb]; [exact IH|].
  constructor; [|exact IH]. apply bool_decide_eq_false in E. exact E.
Qed.

(** X10. Saving a non-empty conversation puts one entry in front of the
    list, holding the conversation, and returns its id; deleting by that
    id gives the earlier list back when the id was not in use; without
    that, deleting also removes every older entry that has the same id.
    An empty conversation is not saved. *)
Theorem saveEntry_deleteEntry
    (newId now : jsstring) (transcript : list Message) (entries : list JournalEntry) :
  transcript <> [] ->
  let saved := fst (saveEntry newId now transcript entries) in
  (exists entry, saved = entry :: entries /\ id entry = newId /\ date entry = now /\
                 fullTranscript entry = transcript /\
                 preview entry = transcriptToPreview transcript 100) /\
  snd (saveEntry newId now transcript entries) = Some newId /\
  deleteEntry newId saved = deleteEntry newId entries /\
  Forall (fun e => id e <> newId) (deleteEntry newId saved) /\
  (Forall (fun e => id e <> newId) entries -> deleteEntry newId saved = entries) /\
  saveEntry newId now [] entries = (entries, None).
Proof.
  intros Hne. cbv zeta. destruct transcript as [|m r]; [congruence|]. cbn [saveEntry fst snd].
  assert (Hd : deleteEntry newId
                 ({| id := newId; date := now;
                     preview := transcriptToPreview (m :: r) 100;
                     fullTranscript := m :: r |} :: entries)
               = deleteEntry newId entries).
  { unfold deleteEntry. cbn [List.filter id]. unfold eqb at 1.
    rewrite bool_decide_eq_true_2 by reflexivity. reflexivity. }
  split; [eexists; repeat split|]. split; [reflexivity|]. split; [exact Hd|].
  split; [rewrite Hd; apply deleteEntry_gone|]. split; [|reflexivity].
  intros Hf. rewrite Hd. apply deleteEntry_fresh, Hf.
Qed.

Lemma saveEntry_deleteEntry_witness :
  deleteEntry (lit "entry-1-abc")
    (fst (saveEntry (lit "entry-1-abc") (lit "2026-01-01T00:00:00.000Z") conversation [])) = [].
Proof.
  assert (Hne : conversation <> []) by discriminate.
  destruct (saveEntry_deleteEntry (lit "entry-1-abc") (lit "2026-01-01T00:00:00.000Z")
              conversation [] Hne) as (_ & _ & _ & _ & H & _).
  apply H. constructor.
Defined.

End JournalFacts.

(** ** The page *)

Module PageFacts.
Import JsString Session JsStringFacts SessionFacts Turns TurnsFacts Journal JournalFacts Page.

Lemma cleared_shaped s :
  shaped s -> shaped (set_interimTranscript [] (set_transcript [] s)).
Proof.
  intros (T1 & T2 & T3 & T4). split; [exact T1|]. split; [reflexivity|].
  split; [exact T3 | exact T4].
Qed.

Lemma isConnected_effect_hook before p :
  hook (isConnected_effect before p) = hook p \/
  hook (isConnected_effect before p) = set_interimTranscript [] (set_transcript [] (hook p)).
Proof.
  unfold isConnected_effect.
  destruct (negb (Bool.eqb before (isConnected (hook p)))); [|left; reflexivity].
  destruct (negb (isConnected (hook p))); [right|left]; reflexivity.
Qed.

Lemma isConnected_effect_entries before p : entries (isConnected_effect before p) = entries p.
Proof.
  unfold isConnected_effect.
  destruct (negb (Bool.eqb before (isConnected (hook p)))); [|reflexivity].
  destruct (negb (isConnected (hook p))); reflexivity.
Qed.

Lemma handle_hook p ev :
  hook (handle p ev) = hook p \/
  (exists e, hook (handle p ev) = Session.step (hook p) e) \/
  hook (handle p ev)
  = Session.step (set_interimTranscript [] (set_transcript [] (hook p))) Disconnect.
Proof.
  destruct ev; cbn [handle].
  - destruct (status (hook p)); [right; left; exists Connect; reflexivity | left; reflexivity | |
                                 right; left; exists Connect; reflexivity].
    right; right. unfold handleDisconnect.
    destruct (0 <? List.length (transcript (hook p)))%nat; reflexivity.
  - destruct (isConnected (hook p) && manualMode (hook p) && isUserSpeaking (hook p));
      [right; left; exists UserCommitRequested|left]; reflexivity.
  - left; reflexivity.
  - left; reflexivity.
  - destruct (toastTimers p); left; reflexivity.
  - destruct e; first [left; reflexivity | right; left; eexists; reflexivity].
Qed.

Lemma step_hook_shaped p ev : shaped (hook p) -> shaped (hook (step p ev)).
Proof.
  intros Hs. unfold step.
  assert (Hh : shaped (hook (handle p ev))).
  { destruct (handle_hook p ev) as [E|[[e E]|E]]; rewrite E.
    - exact Hs.
    - apply step_shaped, Hs.
    - apply step_shaped, cleared_shaped, Hs. }
  destruct (isConnected_effect_hook (isConnected (hook p)) (handle p ev)) as [E|E]; rewrite E.
  - exact Hh.
  - apply cleared_shaped, Hh.
Qed.

Lemma reachablePage_shaped p : reachablePage p -> shaped (hook p).
Proof.
  induction 1 as [stored|p ev _ IH].
  - apply init_shaped.
  - apply step_hook_shaped, IH.
Qed.

Lemma step_entries p ev : entries (step p ev) = entries (handle p ev).
Proof. unfold step. apply isConnected_effect_entries. Qed.

Lemma connect_facts s :
  status (connect s) = connected /\ transcript (connect s) = transcript s /\
  transcriptRef (connect s) = [] /\ errorMessage (connect s) = None.
Proof.
  unfold connect, speak, speakWithVoiceApi. rewrite !greeting_spoken.
  unfold suspend, bump, log, drop. destruct s. cbn.
  repeat (split_match; cbn). all: repeat split.
Qed.

Lemma handleDisconnect_facts newId now p :
  let p' := handleDisconnect newId now p in
  entries p' = fst (saveEntry newId now (transcript (hook p)) (entries p)) /\
  hook p' = disconnect (set_interimTranscript [] (set_transcript [] (hook p))) /\
  (transcript (hook p) <> [] -> toastMessage p' = Some (lit "Journal entry saved.")).
Proof.
  cbv zeta. unfold handleDisconnect.
  destruct (transcript (hook p)) as [|m r] eqn:E; cbn [List.length Nat.ltb Nat.leb].
  - repeat split. congruence.
  - repeat split.
Qed.

Lemma run_hook_shaped evs p : shaped (hook p) -> shaped (hook (run p evs)).
Proof.
  unfold run. revert p. induction evs as [|ev evs IH]; intros p Hp; [exact Hp|].
  cbn [fold_left]. apply IH, step_hook_shaped, Hp.
Qed.

(** Whatever holds of the entries and of every entry that
    [handleDisconnect] saves, holds of the entries after an event. *)
Lemma step_entries_kept (Q : JournalEntry -> Prop) p ev :
  (forall e,
     (exists m r, fullTranscript e = m :: r /\ role m = user /\ fragment (text m)) /\
     turns false (fullTranscript e) = true /\
     preview e = transcriptToPreview (fullTranscript e) 100 /\
     (List.length (preview e) <= 101)%nat -> Q e) ->
  shaped (hook p) -> Forall Q (entries p) -> Forall Q (entries (step p ev)).
Proof.
  intros HQ (_ & T2 & _) IH. rewrite step_entries.
  destruct ev; cbn [handle].
  - destruct (status (hook p)); try exact IH.
    destruct (handleDisconnect_facts newId now p) as (E & _). rewrite E. clear E.
    destruct (transcript (hook p)) as [|m r] eqn:Et; [exact IH|].
    cbn [saveEntry fst]. constructor; [|exact IH]. apply HQ. cbn [fullTranscript preview].
    split.
    + exists m, r. split; [reflexivity|]. cbn [turns] in T2.
      destruct (role m); [|discriminate]. split; [reflexivity|].
      apply andb_prop in T2 as [T2 _]. apply isFragment_fragment, T2.
    + split; [exact T2|]. split; [reflexivity|].
      apply (transcriptToPreview_length (m :: r) 100).
  - destruct (isConnected (hook p) && manualMode (hook p) && isUserSpeaking (hook p)); exact IH.
  - cbn [set_entries entries]. unfold deleteEntry.
    induction IH as [|e l He _ IHl]; [constructor|]. cbn [List.filter].
    destruct (negb (eqb (id e) entryId)); [constructor; assumption|assumption].
  - exact IH.
  - destruct (toastTimers p); exact IH.
  - destruct e; exact IH.
Qed.

Lemma run_entries_kept (Q : JournalEntry -> Prop) evs p :
  (forall e,
     (exists m r, fullTranscript e = m :: r /\ role m = user /\ fragment (text m)) /\
     turns false (fullTranscript e) = true /\
     preview e = transcriptToPreview (fullTranscript e) 100 /\
     (List.length (preview e) <= 101)%nat -> Q e) ->
  shaped (hook p) -> Forall Q (entries p) -> Forall Q (entries (run p evs)).
Proof.
  intros HQ. unfold run. revert p. induction evs as [|ev evs IH]; intros p Hs Hp; [exact Hp|].
  cbn [fold_left]. apply IH; [apply step_hook_shaped, Hs | apply step_entries_kept; assumption].
Qed.

(** X11. The journal of the page starts as the entries loaded from
    storage, which are not validated, and the page only adds entries in
    front and deletes entries.  After any events from mounting, every
    entry is one of the loaded ones, or it holds a conversation that is
    not empty, begins with something the user said (a trimmed, non-empty
    text) and in which the assistant speaks only directly after the
    user, with a preview that is the preview of that conversation, at
    most 101 code units long. *)
Theorem journal_entries_wellformed (stored : Stored) (events : list PageEvent) :
  Forall (fun e =>
            List.In e (loadFromStorage stored) \/
            ((exists m r, fullTranscript e = m :: r /\ role m = user /\ fragment (text m)) /\
             turns false (fullTranscript e) = true /\
             preview e = transcriptToPreview (fullTranscript e) 100 /\
             (List.length (preview e) <= 101)%nat))
         (entries (run (mount stored) events)).
Proof.
  apply run_entries_kept.
  - intros e He. right. exact He.
  - apply init_shaped.
  - cbn [mount entries]. induction (loadFromStorage stored) as [|e l IH]; [constructor|].
    constructor; [left; left; reflexivity|].
    apply (Forall_impl _ _ _ IH). intros x [Hx|Hx]; [left; right; exact Hx | right; exact Hx].
Qed.

Lemma effect_after_leaving p :
  isConnected (hook p) = false ->
  hook (isConnected_effect true p) = set_interimTranscript [] (set_transcript [] (hook p)).
Proof. intros E. unfold isConnected_effect. rewrite E. reflexivity. Qed.

Lemma effect_unchanged b p : isConnected (hook p) = b -> isConnected_effect b p = p.
Proof. intros E. unfold isConnected_effect. rewrite E, Bool.eqb_reflx. reflexivity. Qed.

Lemma effect_after_entering p :
  isConnected (hook p) = true -> isConnected_effect false p = p.
Proof. intros E. unfold isConnected_effect. rewrite E. reflexivity. Qed.

Lemma isConnected_status s : isConnected s = true <-> status s = connected.
Proof. unfold isConnected. destruct (status s); split; congruence. Qed.

Lemma click_connects p newId now :
  status (hook p) <> connected -> status (hook p) <> connecting ->
  let p' := step p (ConnectButtonClick newId now) in
  hook p' = connect (hook p) /\ entries p' = entries p /\ toastMessage p' = toastMessage p.
Proof.
  intros H1 H2. cbv zeta. unfold step. cbn [handle].
  assert (E : handle p (ConnectButtonClick newId now) = handleConnect p).
  { cbn [handle]. destruct (status (hook p)); congruence. }
  cbn [handle] in E. rewrite E. unfold handleConnect.
  assert (N : isConnected (hook p) = false).
  { unfold isConnected. destruct (status (hook p)); congruence. }
  rewrite N. rewrite effect_after_entering; [repeat split|].
  cbn [hook set_hook]. apply isConnected_status, connect_facts.
Qed.

Lemma click_disconnects p newId now :
  status (hook p) = connected ->
  let s0 := set_interimTranscript [] (set_transcript [] (hook p)) in
  let p' := step p (ConnectButtonClick newId now) in
  hook p' = set_interimTranscript [] (set_transcript [] (disconnect s0)) /\
  entries p' = fst (saveEntry newId now (transcript (hook p)) (entries p)) /\
  (transcript (hook p) <> [] -> toastMessage p' = Some (lit "Journal entry saved.")).
Proof.
  intros Hc. cbv zeta. unfold step. cbn [handle]. rewrite Hc.
  replace (isConnected (hook p)) with true by (symmetry; apply isConnected_status, Hc).
  destruct (handleDisconnect_facts newId now p) as (G1 & G2 & G3).
  set (q := handleDisconnect newId now p) in *. clearbody q.
  assert (Hq : isConnected (hook q) = false).
  { rewrite G2. unfold isConnected.
    destruct (disconnect_facts (set_interimTranscript [] (set_transcript [] (hook p))))
      as ((A1 & _) & _).
    rewrite A1. reflexivity. }
  rewrite effect_after_leaving by exact Hq.
  unfold isConnected_effect. rewrite Hq. cbn [negb Bool.eqb hook set_hook entries toastMessage].
  rewrite G2. repeat split; assumption.
Qed.

Lemma environment_step p e :
  match e with Connect | Disconnect | UserCommitRequested => False | _ => True end ->
  let p' := step p (Environment e) in
  let s' := Session.step (hook p) e in
  entries p' = entries p /\ toastMessage p' = toastMessage p /\
  (isConnected (hook p) = isConnected s' -> hook p' = s') /\
  (isConnected (hook p) = true -> isConnected s' = false ->
   hook p' = set_interimTranscript [] (set_transcript [] s')).
Proof.
  intros He. cbv zeta. unfold step.
  assert (E : handle p (Environment e) = set_hook (Session.step (hook p) e) p).
  { destruct e; try contradiction; reflexivity. }
  rewrite E. split; [rewrite isConnected_effect_entries; reflexivity|].
  split.
  { unfold isConnected_effect. cbn [hook set_hook].
    destruct (negb (Bool.eqb _ _)); [|reflexivity].
    destruct (negb _); reflexivity. }
  split.
  - intros H. rewrite effect_unchanged; [reflexivity|]. cbn [hook set_hook]. symmetry. exact H.
  - intros H1 H2. rewrite H1. apply effect_after_leaving. exact H2.
Qed.

(** X12. When the dialogue request of a turn fails while the page is
    connected, the status becomes [error] and the page empties the
    conversation it shows; nothing is added to the journal.  The button
    now connects: pressing it starts a new session with an empty hook
    transcript and again adds nothing, so the conversation is lost. *)
Theorem failed_reply_discards_conversation
    (p : Page) (k : nat) (nextWithUser : list Message) (err : Thrown) (newId now : jsstring) :
  status (hook p) = connected ->
  pending (hook p) !! k = Some (AwaitInterviewer nextWithUser) ->
  let p1 := step p (Environment (DialogueResponse k (inl err))) in
  let p2 := step p1 (ConnectButtonClick newId now) in
  (status (hook p1) = error /\
   errorMessage (hook p1) = Some (messageOf err "API error") /\
   transcript (hook p1) = [] /\ interimTranscript (hook p1) = [] /\
   transcriptRef (hook p1) = transcriptRef (hook p) /\
   entries p1 = entries p /\ toastMessage p1 = toastMessage p) /\
  (status (hook p2) = connected /\ transcript (hook p2) = [] /\
   transcriptRef (hook p2) = [] /\ entries p2 = entries p).
Proof.
  intros Hc Hk. cbv zeta.
  destruct (environment_step p (DialogueResponse k (inl err)) I) as (E1 & E2 & _ & E4).
  set (s1 := Session.step (hook p) (DialogueResponse k (inl err))) in *.
  assert (F : status s1 = error /\ errorMessage s1 = Some (messageOf err "API error") /\
              transcriptRef s1 = transcriptRef (hook p)).
  { unfold s1. cbn [Session.step]. rewrite Hk. repeat split. }
  destruct F as (F1 & F2 & F3). clearbody s1.
  assert (E : hook (step p (Environment (DialogueResponse k (inl err))))
              = set_interimTranscript [] (set_transcript [] s1)).
  { apply E4; [apply isConnected_status, Hc|]. unfold isConnected. rewrite F1. reflexivity. }
  clear E4. set (p1 := step p (Environment (DialogueResponse k (inl err)))) in *. clearbody p1.
  assert (S1 : status (hook p1) = error) by (rewrite E; exact F1).
  assert (T1 : transcript (hook p1) = []) by (rewrite E; reflexivity).
  split.
  - rewrite E. cbn. repeat split; assumption.
  - destruct (click_connects p1 newId now) as (K1 & K2 & _); try (rewrite S1; discriminate).
    destruct (connect_facts (hook p1)) as (C1 & C2 & C3 & _).
    rewrite K1, K2, C1, C2, C3, T1, E1. repeat split.
Qed.

(** X13. [disconnect] cancels no request, and [connect] does not empty the
    conversation the page shows.  So when the page is disconnected while
    a dialogue request is in flight, the reply that arrives later puts
    the conversation, with the reply, back on the disconnected page; it
    is still there after the next connect, while the hook's own
    transcript is empty; and a disconnect before the user has spoken
    saves it as the entry of the new session. *)
Theorem late_reply_saved_again
    (p : Page) (k : nat) (nextWithUser : list Message) (question : jsstring)
    (id1 now1 id2 now2 id3 now3 : jsstring) :
  reachablePage p ->
  status (hook p) = connected ->
  pending (hook p) !! k = Some (AwaitInterviewer nextWithUser) ->
  trim question <> [] ->
  let nextWithAi := nextWithUser ++ [{| role := ai; text := question |}] in
  let p1 := step p (ConnectButtonClick id1 now1) in
  let p2 := step p1 (Environment (DialogueResponse k (inr question))) in
  let p3 := step p2 (ConnectButtonClick id2 now2) in
  let p4 := step p3 (ConnectButtonClick id3 now3) in
  (status (hook p1) = disconnected /\ transcript (hook p1) = [] /\
   entries p1 = fst (saveEntry id1 now1 (transcript (hook p)) (entries p))) /\
  (status (hook p2) = disconnected /\ transcript (hook p2) = nextWithAi /\
   entries p2 = entries p1) /\
  (status (hook p3) = connected /\ transcript (hook p3) = nextWithAi /\
   transcriptRef (hook p3) = [] /\ entries p3 = entries p1) /\
  (status (hook p4) = disconnected /\
   entries p4 = {| id := id3; date := now3; preview := transcriptToPreview nextWithAi 100;
                   fullTranscript := nextWithAi |} :: entries p1).
Proof.
  intros Hr Hc Hk Hq. cbv zeta.
  set (nextWithAi := nextWithUser ++ [{| role := ai; text := question |}]).
  destruct (reachablePage_shaped p Hr) as (_ & _ & _ & Ha).
  (* the disconnect *)
  destruct (click_disconnects p id1 now1 Hc) as (G1 & G2 & _). cbv zeta in G1.
  set (s0 := set_interimTranscript [] (set_transcript [] (hook p))) in *.
  assert (Hk0 : pending s0 !! k = Some (AwaitInterviewer nextWithUser)) by exact Hk.
  assert (Hne : currentAudioRef s0 <> Some k).
  { intros E. destruct (Ha k E) as [_ Hx]. specialize (Hx _ Hk). discriminate. }
  pose proof (disconnect_facts s0) as H. cbv zeta in H.
  destruct H as ((A1 & _) & (_ & _ & B3 & B4 & _) & _ & _ & P & _).
  specialize (P k Hne). rewrite Hk0 in P. clear Hk0 Hne Ha Hk Hc.
  set (d := disconnect s0) in *. clearbody d. clear s0.
  set (p1 := step p (ConnectButtonClick id1 now1)) in *. clearbody p1.
  set (e1 := fst (saveEntry id1 now1 (transcript (hook p)) (entries p))) in *. clearbody e1.
  assert (S1 : status (hook p1) = disconnected) by (rewrite G1; exact A1).
  assert (T1 : transcript (hook p1) = []) by (rewrite G1; reflexivity).
  assert (Q1 : pending (hook p1) !! k = Some (AwaitInterviewer nextWithUser))
    by (rewrite G1; exact P).
  assert (U1 : currentAudioRef (hook p1) = None) by (rewrite G1; exact B3).
  assert (V1 : currentPlaybackSourceRef (hook p1) = None) by (rewrite G1; exact B4).
  clear G1 A1 B3 B4 P d.
  (* the late reply *)
  pose proof (reply_resumed (hook p1) k nextWithUser question Q1 U1 V1 Hq) as R.
  cbv zeta in R. destruct R as (R1 & _ & R3 & _).
  destruct (environment_step p1 (DialogueResponse k (inr question)) I) as (E1 & _ & E3 & _).
  set (s2 := Session.step (hook p1) (DialogueResponse k (inr question))) in *. clearbody s2.
  assert (E : hook (step p1 (Environment (DialogueResponse k (inr question)))) = s2).
  { apply E3. unfold isConnected. rewrite R1. reflexivity. }
  clear E3. set (p2 := step p1 (Environment (DialogueResponse k (inr question)))) in *.
  clearbody p2.
  assert (S2 : status (hook p2) = disconnected) by (rewrite E, R1; exact S1).
  assert (T2 : transcript (hook p2) = nextWithAi) by (rewrite E; exact R3).
  (* the next connect *)
  destruct (click_connects p2 id2 now2) as (K1 & K2 & _); try (rewrite S2; discriminate).
  destruct (connect_facts (hook p2)) as (C1 & C2 & C3 & _).
  set (p3 := step p2 (ConnectButtonClick id2 now2)) in *. clearbody p3.
  assert (S3 : status (hook p3) = connected) by (rewrite K1; exact C1).
  assert (T3 : transcript (hook p3) = nextWithAi) by (rewrite K1, C2; exact T2).
  (* the second disconnect *)
  destruct (click_disconnects p3 id3 now3 S3) as (L1 & L2 & _). cbv zeta in L1.
  destruct (disconnect_facts (set_interimTranscript [] (set_transcript [] (hook p3))))
    as ((M1 & _) & _).
  split; [repeat split; assumption|].
  split; [split; [exact S2|split; [exact T2|exact E1]]|].
  split; [split; [exact S3|split; [exact T3|split;
            [rewrite K1; exact C3|rewrite K2; exact E1]]]|].
  split; [rewrite L1; exact M1|].
  rewrite L2, T3, K2, E1. unfold nextWithAi.
  destruct nextWithUser; reflexivity.
Qed.

Lemma reachablePage_run p evs : reachablePage p -> reachablePage (run p evs).
Proof.
  unfold run. revert p. induction evs as [|ev evs IH]; intros p Hp; [exact Hp|].
  cbn [fold_left]. apply IH, reachable_event, Hp.
Qed.

Lemma reachable_awaitingPage : reachablePage awaitingPage.
Proof. unfold awaitingPage. apply reachablePage_run, reachable_mount. Qed.

Lemma journal_entries_wellformed_witness :
  let events :=
    firstTurn ++ [ConnectButtonClick (lit "entry-1") (lit "2026-01-02T00:00:00.000Z")] in
  let p := run (mount storedJournal) events in
  map fullTranscript (entries p) = [[{| role := user; text := lit "I slept badly" |}]; []] /\
  Forall (fun e =>
            List.In e (loadFromStorage storedJournal) \/
            ((exists m r, fullTranscript e = m :: r /\ role m = user /\ fragment (text m)) /\
             turns false (fullTranscript e) = true /\
             preview e = transcriptToPreview (fullTranscript e) 100 /\
             (List.length (preview e) <= 101)%nat))
         (entries p).
Proof.
  cbv zeta. split; [vm_compute; reflexivity|].
  apply (journal_entries_wellformed storedJournal
           (firstTurn ++ [ConnectButtonClick (lit "entry-1") (lit "2026-01-02T00:00:00.000Z")])).
Defined.

Lemma failed_reply_discards_conversation_witness :
  let p1 := step awaitingPage
              (Environment (DialogueResponse 12 (inl (ErrorObject (lit "OpenRouter error"))))) in
  let p2 := step p1 (ConnectButtonClick (lit "entry-1") (lit "2026-01-02T00:00:00.000Z")) in
  transcript (hook awaitingPage) = [{| role := user; text := lit "I slept badly" |}] /\
  status (hook p1) = error /\ transcript (hook p1) = [] /\
  status (hook p2) = connected /\ transcriptRef (hook p2) = [] /\ entries p2 = [].
Proof.
  cbv zeta.
  assert (Hc : status (hook awaitingPage) = connected) by (vm_compute; reflexivity).
  assert (Hk : pending (hook awaitingPage) !! 12%nat
               = Some (AwaitInterviewer [{| role := user; text := lit "I slept badly" |}]))
    by (vm_compute; reflexivity).
  pose proof (failed_reply_discards_conversation awaitingPage 12 _
                (ErrorObject (lit "OpenRouter error")) (lit "entry-1")
                (lit "2026-01-02T00:00:00.000Z") Hc Hk) as H.
  cbv zeta in H. destruct H as ((H1 & _ & H3 & _) & (H8 & _ & H10 & H11)).
  split; [vm_compute; reflexivity|].
  split; [exact H1|]. split; [exact H3|]. split; [exact H8|]. split; [exact H10|].
  rewrite H11. vm_compute. reflexivity.
Defined.

Lemma late_reply_saved_again_witness :
  let p1 := step awaitingPage (ConnectButtonClick (lit "entry-1") (lit "2026-01-02T00:00:00.000Z")) in
  let p2 := step p1 (Environment (DialogueResponse 12 (inr (lit "Why was that?")))) in
  let p3 := step p2 (ConnectButtonClick (lit "entry-2") (lit "2026-01-02T00:01:00.000Z")) in
  let p4 := step p3 (ConnectButtonClick (lit "entry-3") (lit "2026-01-02T00:02:00.000Z")) in
  transcriptRef (hook p3) = [] /\
  map fullTranscript (entries p4)
  = [[{| role := user; text := lit "I slept badly" |};
      {| role := ai; text := lit "Why was that?" |}];
     [{| role := user; text := lit "I slept badly" |}]].
Proof.
  cbv zeta.
  assert (Hc : status (hook awaitingPage) = connected) by (vm_compute; reflexivity).
  assert (Hk : pending (hook awaitingPage) !! 12%nat
               = Some (AwaitInterviewer [{| role := user; text := lit "I slept badly" |}]))
    by (vm_compute; reflexivity).
  assert (Hq : trim (lit "Why was that?") <> []) by (vm_compute; discriminate).
  pose proof (late_reply_saved_again awaitingPage 12 _ (lit "Why was that?")
                (lit "entry-1") (lit "2026-01-02T00:00:00.000Z")
                (lit "entry-2") (lit "2026-01-02T00:01:00.000Z")
                (lit "entry-3") (lit "2026-01-02T00:02:00.000Z")
                reachable_awaitingPage Hc Hk Hq) as H.
  cbv zeta in H. destruct H as ((_ & _ & H1) & _ & (_ & _ & H3 & _) & (_ & H4)).
  split; [exact H3|]. rewrite H4, H1. vm_compute. reflexivity.
Defined.

End PageFacts.

(** ** The handlers after their upstream call, and their clients *)

Module UpstreamFacts.
Import JsString Api JsStringFacts Upstream Client.

Section Engine.

Variable JSON_parse : jsstring -> option Json.
Variable ToString : Json -> jsstring.
Variable message : Exception -> jsstring.

Lemma truthy_true (t : jsstring) : truthy t = true -> t <> [].
Proof. destruct t; [discriminate|discriminate]. Qed.

Lemma trim_twice s : trim (trim s) = trim s.
Proof.
  destruct (trim_result s) as [E|C]; [rewrite E; reflexivity|]. apply trim_clean, C.
Qed.

Lemma eqb_refl (a : jsstring) : eqb a a = true.
Proof. unfold eqb. apply bool_decide_eq_true_2. reflexivity. Qed.

Lemma read_object1 k (v : Json) : read k (Some (object1 k (Some v))) = Some (Some v).
Proof. cbn. rewrite eqb_refl. reflexivity. Qed.

Lemma interviewer_respond_cases (upstream : Session.Thrown + Fetched) :
  let r := interviewer_respond JSON_parse ToString message upstream in
  (replyStatus r = 200%Z /\
   exists q, replyBody r = object1 "question" (Some (JStr q)) /\ q <> [] /\ trim q = q) \/
  (replyStatus r = 500%Z /\ exists m, replyBody r = object1 "error" (Some (JStr m))).
Proof.
  cbv zeta. unfold interviewer_respond. destruct upstream as [err|res].
  { right. split; [reflexivity|]. eexists. reflexivity. }
  destruct (negb (ok (f_status res))).
  { right. split; [reflexivity|]. eexists. reflexivity. }
  set (content := get "content" _).
  assert (No : replyStatus (errorReply "No content generated" 500) = 500%Z /\
               exists m, replyBody (errorReply "No content generated" 500)
                         = object1 "error" (Some (JStr m))).
  { split; [reflexivity|]. eexists. reflexivity. }
  assert (Yes : forall text,
            let r := if negb (truthy text) || negb (truthy (trim text))
                     then errorReply "No content generated" 500
                     else {| replyStatus := 200;
                             replyBody := object1 "question" (Some (JStr (trim text))) |} in
            (replyStatus r = 200%Z /\
             exists q, replyBody r = object1 "question" (Some (JStr q)) /\ q <> [] /\
                       trim q = q) \/
            (replyStatus r = 500%Z /\ exists m, replyBody r = object1 "error" (Some (JStr m)))).
  { intros text. cbv zeta. destruct (truthy text); cbn [negb orb]; [|right; exact No].
    destruct (truthy (trim text)) eqn:Et; cbn [negb]; [|right; exact No].
    left. split; [reflexivity|]. exists (trim text). split; [reflexivity|].
    split; [apply truthy_true, Et | apply trim_twice]. }
  destruct content as [[| | |s|blocks|]|]; try (right; exact No); apply Yes.
Qed.

Lemma parseOrThrow_parsed unparsable rawText data :
  JSON_parse rawText = Some data -> trim rawText <> [] ->
  parseOrThrow JSON_parse unparsable rawText = inr data.
Proof.
  intros Hp Ht. unfold parseOrThrow. rewrite (SessionFacts.truthy_nonempty _ Ht), Hp. reflexivity.
Qed.

Lemma throwErrorOr_string (m fallback : jsstring) :
  throwErrorOr ToString message (object1 "error" (Some (JStr m))) fallback
  = Session.ErrorObject (if truthy m then m else fallback).
Proof.
  unfold throwErrorOr. rewrite read_object1. cbn [truthyValue String_].
  destruct (truthy m); reflexivity.
Qed.

(** X14. What the hook receives from the interviewer handler.  After its
    upstream call the handler answers 200 with a question that is not
    empty and is trimmed, or 500 with a string as error.  On the first,
    [fetchInterviewerQuestion] returns that question; on the second it
    throws an [Error] whose message is the handler's error, or
    "Interviewer API failed (500)" when that error is the empty string. *)
Theorem fetchInterviewerQuestion_of_reply
    (upstream : Session.Thrown + Fetched) (statusText rawText : jsstring) :
  let r := interviewer_respond JSON_parse ToString message upstream in
  JSON_parse rawText = Some (replyBody r) ->
  trim rawText <> [] ->
  match fetchInterviewerQuestion JSON_parse ToString message
          (inr (deliver r statusText rawText)) with
  | inr q =>
      replyStatus r = 200%Z /\ replyBody r = JObj [(lit "question", JStr q)] /\
      q <> [] /\ trim q = q
  | inl err =>
      replyStatus r = 500%Z /\
      exists m, replyBody r = JObj [(lit "error", JStr m)] /\
                err = Session.ErrorObject
                        (if truthy m then m else lit "Interviewer API failed (500)")
  end.
Proof.
  cbv zeta. intros Hp Ht.
  pose proof (interviewer_respond_cases upstream) as H. cbv zeta in H.
  set (r := interviewer_respond JSON_parse ToString message upstream) in *. clearbody r.
  unfold fetchInterviewerQuestion, deliver. cbn [res_status res_rawText].
  rewrite (parseOrThrow_parsed _ _ _ Hp Ht).
  destruct H as [(Hs & q & Hb & Hq & Hc)|(Hs & m & Hb)]; rewrite Hs, Hb.
  - cbn [ok Z.leb Z.compare Pos.compare Pos.compare_cont andb negb].
    change (ok 200) with true. cbn [negb]. rewrite read_object1.
    rewrite (SessionFacts.truthy_nonempty _ Hq). repeat split; assumption.
  - change (ok 500) with false. cbn [negb]. rewrite throwErrorOr_string.
    split; [reflexivity|]. exists m. split; reflexivity.
Qed.

Lemma coalesce_defined (a b : Value) : nullish a = false -> coalesce a b = a.
Proof. intros H. unfold coalesce. rewrite H. reflexivity. Qed.

Lemma coalesce_nullish (a b : Value) : nullish a = true -> coalesce a b = b.
Proof. intros H. unfold coalesce. rewrite H. reflexivity. Qed.

Lemma coalesce_string_defined (a : Value) (s : jsstring) :
  nullish (coalesce a (Some (JStr s))) = false.
Proof. unfold coalesce. destruct (nullish a) eqn:E; [reflexivity | exact E]. Qed.

(** A value read from the empty object is [undefined]; so a handler that
    reads an object or [null] from [data] has parsed a text that is not
    blank. *)
Lemma parseOrEmpty_blank rawText k :
  truthy (trim rawText) = false -> get k (Some (parseOrEmpty JSON_parse rawText)) = None.
Proof. intros H. unfold parseOrEmpty. rewrite H. reflexivity. Qed.

Lemma read_get k (data : Json) (v : Value) :
  read k (Some data) = Some v -> get k (Some data) = v.
Proof. cbn [read get]. unfold optProp. intros E. rewrite E. reflexivity. Qed.

Lemma fetchScribeToken_error (r : Reply) (e : Json) (statusText rawText : jsstring) :
  replyStatus r = 500%Z -> replyBody r = object1 "error" (Some e) ->
  JSON_parse rawText = Some (replyBody r) -> trim rawText <> [] ->
  fetchScribeToken JSON_parse ToString message (inr (deliver r statusText rawText))
  = inl (Session.ErrorObject
           (if truthyValue (Some e) then String_ ToString (Some e)
            else lit "Scribe token API failed (500)")).
Proof.
  intros Hs Hb Hp Ht. unfold fetchScribeToken, deliver. cbn [res_status res_rawText].
  rewrite (parseOrThrow_parsed _ _ _ Hp Ht), Hs, Hb. change (ok 500) with false. cbn [negb].
  unfold throwErrorOr. rewrite read_object1. destruct (truthyValue (Some e)); reflexivity.
Qed.

(** X15. When the token service fails, the scribe-token handler answers 500,
    and its error is: the boolean [false] when the upstream [detail] is
    not an object (absent, or a string); else the upstream
    [detail.message], or the first 200 code units of the upstream body
    when there is no such message.  The status text
    "ElevenLabs token failed (..)" is never used.  On the boolean the
    hook reports "Scribe token API failed (500)". *)
Theorem scribe_token_failure_message
    (res : Fetched) (detail : Value) (statusText rawText : jsstring) :
  ok (f_status res) = false ->
  read "detail" (Some (parseOrEmpty JSON_parse (f_rawText res))) = Some detail ->
  let r := scribe_token_respond JSON_parse message (inr res) in
  replyStatus r = 500%Z /\
  replyBody r
  = object1 "error"
      (if typeofObject detail
       then coalesce (get "message" detail) (Some (JStr (firstn 200 (f_rawText res))))
       else Some (JBool false)) /\
  (typeofObject detail = false ->
   JSON_parse rawText = Some (replyBody r) -> trim rawText <> [] ->
   fetchScribeToken JSON_parse ToString message (inr (deliver r statusText rawText))
   = inl (Session.ErrorObject (lit "Scribe token API failed (500)"))).
Proof.
  intros Hok Hd. cbv zeta.
  assert (Hr : scribe_token_respond JSON_parse message (inr res)
               = {| replyStatus := 500;
                    replyBody := object1 "error"
                      (if typeofObject detail
                       then coalesce (get "message" detail)
                              (Some (JStr (firstn 200 (f_rawText res))))
                       else Some (JBool false)) |}).
  { unfold scribe_token_respond. rewrite Hok. cbn [negb]. rewrite Hd. f_equal. f_equal.
    destruct (typeofObject detail) eqn:Et; [|reflexivity].
    assert (Hn : truthy (trim (f_rawText res)) = true).
    { destruct (truthy (trim (f_rawText res))) eqn:E; [reflexivity|].
      apply read_get in Hd. rewrite (parseOrEmpty_blank _ "detail" E) in Hd.
      subst detail. discriminate. }
    unfold snippetOrNull. rewrite Hn.
    rewrite (coalesce_defined (coalesce _ _) _) by apply coalesce_string_defined.
    reflexivity. }
  rewrite Hr. cbn [replyStatus replyBody]. split; [reflexivity|]. split; [reflexivity|].
  intros Et Hp Ht. rewrite Et in *.
  rewrite (fetchScribeToken_error _ (JBool false) statusText rawText); try reflexivity;
    assumption.
Qed.

(** X16. When the speech-to-text service answers outside 200..299, the
    transcribe handler answers 500, and its error is the boolean [false]
    unless the upstream [detail] is an object or [null]: a [detail] that
    is a string is not reported.  Otherwise the handler answers 200 with
    the trimmed upstream text, and with the empty text when the upstream
    body has none. *)
Theorem transcribe_respond_message (res : Fetched) :
  let data := Some (parseOrEmpty JSON_parse (f_rawText res)) in
  let errDetail := get "detail" data in
  let r := transcribe_respond JSON_parse ToString message (inr res) in
  ((f_status res < 200 \/ 300 <= f_status res)%Z ->
   replyStatus r = 500%Z /\
   replyBody r
   = object1 "error"
       (if typeofObject errDetail
        then coalesce (coalesce (get "message" errDetail) (get "message" data))
               (Some (JStr (firstn 300 (f_rawText res))))
        else Some (JBool false))) /\
  ((200 <= f_status res < 300)%Z ->
   replyStatus r = 200%Z /\
   replyBody r
   = object1 "text"
       (Some (JStr (if nullish (get "text" data) then []
                    else trim (String_ ToString (get "text" data)))))).
Proof.
  cbv zeta. unfold transcribe_respond. split.
  - intros Hs.
    replace ((f_status res <? 200) || (300 <=? f_status res))%Z with true
      by (symmetry; apply orb_true_iff; destruct Hs; [left; apply Z.ltb_lt|right; apply Z.leb_le];
          assumption).
    split; [reflexivity|]. cbn [replyBody]. f_equal.
    set (data := Some (parseOrEmpty JSON_parse (f_rawText res))).
    set (errDetail := get "detail" data).
    destruct (typeofObject errDetail) eqn:Et; [|reflexivity].
    assert (Hn : truthy (trim (f_rawText res)) = true).
    { destruct (truthy (trim (f_rawText res))) eqn:E; [reflexivity|].
      unfold errDetail, data in Et. rewrite (parseOrEmpty_blank _ "detail" E) in Et.
      discriminate. }
    unfold snippetOrNull. rewrite Hn. clear Hn.
    set (A := get "message" errDetail). set (M := get "message" data).
    set (B := Some (JStr (firstn 300 (f_rawText res)))).
    assert (HB : nullish B = false) by reflexivity.
    clearbody A M B. clearbody errDetail. clear Hs data. unfold coalesce.
    destruct errDetail as [[| | |d| |]|]; try discriminate Et.
    all: destruct (nullish A) eqn:En; cbn [nullish]; rewrite ?En;
      destruct (nullish M) eqn:Em; rewrite ?Em, ?HB, ?En; cbn [nullish];
      rewrite ?HB, ?Em, ?En; reflexivity.
  - intros [H1 H2].
    replace ((f_status res <? 200) || (300 <=? f_status res))%Z with false
      by (symmetry; apply orb_false_iff; split; [apply Z.ltb_ge|apply Z.leb_gt]; lia).
    split; reflexivity.
Qed.

Lemma voiceOut_voice_id (v : Json * Value) : get "voice_id" (Some (voiceOut v)) = Some (fst v).
Proof. destruct v as [i [n|]]; reflexivity. Qed.

Lemma fallback_default :
  Exists (fun v => get "voice_id" (Some v) = Some (JStr RACHEL)) FALLBACK_JSON /\
  Forall (fun v => truthyValue (get "voice_id" (Some v)) = true) FALLBACK_JSON.
Proof. split; [apply Exists_cons_hd; reflexivity|]. repeat constructor. Qed.

Lemma isString_eq s j : isString s j = true -> j = JStr s.
Proof.
  destruct j; try discriminate. cbn. unfold eqb. intros H.
  apply bool_decide_eq_true in H. congruence.
Qed.

(** X17. The voices handler answers 200 whatever the voice service does, and
    the list it sends always holds the default voice (Rachel) and only
    voices whose id is truthy. *)
Theorem voices_respond_default (upstream : Session.Thrown + Fetched) :
  let r := voices_respond JSON_parse upstream in
  replyStatus r = 200%Z /\
  exists list, replyBody r = JObj [(lit "voices", JArr list)] /\
    Exists (fun v => get "voice_id" (Some v) = Some (JStr RACHEL)) list /\
    Forall (fun v => truthyValue (get "voice_id" (Some v)) = true) list.
Proof.
  cbv zeta.
  assert (F : replyStatus (voicesReply FALLBACK_JSON) = 200%Z /\
              exists list, replyBody (voicesReply FALLBACK_JSON) = JObj [(lit "voices", JArr list)] /\
                Exists (fun v => get "voice_id" (Some v) = Some (JStr RACHEL)) list /\
                Forall (fun v => truthyValue (get "voice_id" (Some v)) = true) list).
  { split; [reflexivity|]. exists FALLBACK_JSON. split; [reflexivity|]. exact fallback_default. }
  unfold voices_respond. destruct upstream as [err|res]; [exact F|].
  destruct (negb (ok (f_status res))); [exact F|].
  destruct (JSON_parse (f_rawText res)) as [data|]; [|exact F].
  destruct (read "voices" (Some data)) as [dataVoices|]; [|exact F].
  destruct (coalesce dataVoices (Some (JArr FALLBACK_JSON))) as [[| | | |rawVoices|]|];
    try exact F.
  destruct (existsb isNull rawVoices); [exact F|].
  set (voices := List.filter _ (map mapVoice rawVoices)).
  assert (Hv : Forall (fun v => truthyValue (Some (fst v)) = true) voices).
  { unfold voices. clear. induction (map mapVoice rawVoices) as [|v l IH]; [constructor|].
    cbn [List.filter]. destruct (truthyValue (Some (fst v))) eqn:E; [constructor|]; assumption. }
  clearbody voices. split; [reflexivity|].
  eexists. split; [reflexivity|].
  assert (Hall : forall l, Forall (fun v => truthyValue (Some (fst v)) = true) l ->
                   Forall (fun v => truthyValue (get "voice_id" (Some v)) = true)
                     (map voiceOut l)).
  { intros l Hl. induction Hl as [|v l Hvv _ IH]; [constructor|].
    cbn [map]. constructor; [rewrite voiceOut_voice_id; exact Hvv | exact IH]. }
  destruct (existsb (fun v => isString RACHEL (fst v)) voices) eqn:Eh.
  - split; [|apply Hall, Hv]. clear Hv Hall.
    induction voices as [|v l IH]; [discriminate|]. cbn [existsb] in Eh. cbn [map].
    destruct (isString RACHEL (fst v)) eqn:Es.
    + apply Exists_cons_hd. rewrite voiceOut_voice_id. f_equal. apply isString_eq, Es.
    + apply Exists_cons_tl, IH, Eh.
  - split; [apply Exists_cons_hd; reflexivity|]. apply Hall. constructor; [reflexivity|exact Hv].
Qed.

Lemma read_defined k (data : Json) : data <> JNull -> read k (Some data) = Some (get k (Some data)).
Proof. intros H. destruct data; try reflexivity. contradiction. Qed.

(** X18. The reformat handler reads the upstream body as JSON before it
    looks at the status.  A body that is not JSON (empty, an HTML error
    page) gets 500 with the parser's message, and the literal [null]
    gets 500 with the message of the TypeError, whatever the upstream
    status.  Otherwise a failed upstream call is relayed: the handler
    answers with the upstream status and the upstream error, except that
    a status no response with a body can carry (304, or outside
    200..599) becomes 500; and a successful call gets 200 with the
    trimmed content when the content is a non-empty string (the trimmed
    text may be empty), and 500 "No content generated" when it is not. *)
Theorem reformat_respond_status (res : Fetched) :
  let r := reformat_respond JSON_parse message (inr res) in
  match JSON_parse (f_rawText res) with
  | None =>
      r = {| replyStatus := 500;
             replyBody := JObj [(lit "error", JStr (message (SyntaxError (f_rawText res))))] |}
  | Some JNull =>
      r = {| replyStatus := 500;
             replyBody :=
               JObj [(lit "error",
                      JStr (message (NullProperty
                                       (if ok (f_status res) then "choices" else "error"))))] |}
  | Some data =>
      let err := get "error" (Some data) in
      (ok (f_status res) = false ->
       if ((200 <=? f_status res) && (f_status res <=? 599) && negb (f_status res =? 304))%Z
       then replyStatus r = f_status res /\
            replyBody r
            = object1 "error" (coalesce (coalesce (get "message" err) err)
                                 (Some (JStr (lit "OpenRouter request failed"))))
       else replyStatus r = 500%Z /\
            exists e, replyBody r = JObj [(lit "error", JStr (message e))]) /\
      (ok (f_status res) = true ->
       match get "content" (get "message" (index0 (get "choices" (Some data)))) with
       | Some (JStr (c :: text)) =>
           r = {| replyStatus := 200;
                  replyBody := JObj [(lit "text", JStr (trim (c :: text)))] |}
       | _ => r = errorReply "No content generated" 500
       end)
  end.
Proof.
  cbv zeta. unfold reformat_respond.
  destruct (JSON_parse (f_rawText res)) as [data|]; [|reflexivity].
  assert (G : data <> JNull ->
    let r := if negb (ok (f_status res))
             then match read "error" (Some data) with
                  | Some err =>
                      match newResponse
                              (object1 "error"
                                 (coalesce (coalesce (get "message" err) err)
                                    (Some (JStr (lit "OpenRouter request failed")))))
                              (f_status res) with
                      | inl e => caught message e
                      | inr r => r
                      end
                  | None => caught message (NullProperty "error")
                  end
             else match read "choices" (Some data) with
                  | Some choices =>
                      match get "content" (get "message" (index0 choices)) with
                      | Some (JStr text) =>
                          if truthy text
                          then {| replyStatus := 200;
                                  replyBody := object1 "text" (Some (JStr (trim text))) |}
                          else errorReply "No content generated" 500
                      | _ => errorReply "No content generated" 500
                      end
                  | None => caught message (NullProperty "choices")
                  end in
    (ok (f_status res) = false ->
     if ((200 <=? f_status res) && (f_status res <=? 599) && negb (f_status res =? 304))%Z
     then replyStatus r = f_status res /\
          replyBody r
          = object1 "error"
              (coalesce (coalesce (get "message" (get "error" (Some data)))
                           (get "error" (Some data)))
                 (Some (JStr (lit "OpenRouter request failed"))))
     else replyStatus r = 500%Z /\
          exists e, replyBody r = JObj [(lit "error", JStr (message e))]) /\
    (ok (f_status res) = true ->
     match get "content" (get "message" (index0 (get "choices" (Some data)))) with
     | Some (JStr (c :: text)) =>
         r = {| replyStatus := 200;
                replyBody := JObj [(lit "text", JStr (trim (c :: text)))] |}
     | _ => r = errorReply "No content generated" 500
     end)).
  { intros Hd. cbv zeta. split.
    - intros Hok. rewrite Hok. cbn [negb]. rewrite (read_defined "error" data Hd).
      unfold newResponse, nullBodyStatus.
      unfold ok in Hok. apply andb_false_iff in Hok.
      destruct (f_status res <? 200)%Z eqn:E1.
      { apply Z.ltb_lt in E1. replace (200 <=? f_status res)%Z with false
          by (symmetry; apply Z.leb_gt; lia).
        cbn [orb andb]. split; [reflexivity|]. eexists. reflexivity. }
      apply Z.ltb_ge in E1. replace (200 <=? f_status res)%Z with true
        by (symmetry; apply Z.leb_le; lia).
      destruct (599 <? f_status res)%Z eqn:E2.
      { apply Z.ltb_lt in E2. replace (f_status res <=? 599)%Z with false
          by (symmetry; apply Z.leb_gt; lia).
        cbn [orb andb]. split; [reflexivity|]. eexists. reflexivity. }
      apply Z.ltb_ge in E2. replace (f_status res <=? 599)%Z with true
        by (symmetry; apply Z.leb_le; lia).
      cbn [orb andb].
      replace (f_status res =? 204)%Z with false
        by (symmetry; apply Z.eqb_neq; destruct Hok as [H|H];
            [apply Z.leb_gt in H|apply Z.leb_gt in H]; lia).
      replace (f_status res =? 205)%Z with false
        by (symmetry; apply Z.eqb_neq; destruct Hok as [H|H];
            [apply Z.leb_gt in H|apply Z.leb_gt in H]; lia).
      cbn [orb]. destruct (f_status res =? 304)%Z; cbn [negb].
      + split; [reflexivity|]. eexists. reflexivity.
      + split; reflexivity.
    - intros Hok. rewrite Hok. cbn [negb]. rewrite (read_defined "choices" data Hd).
      destruct (get "content" (get "message" (index0 (get "choices" (Some data)))))
        as [[| | |[|c text]| |]|]; reflexivity. }
  destruct data; try (apply G; discriminate).
  destruct (ok (f_status res)); reflexivity.
Qed.

Lemma btoa_nonempty (a : Z) (l : list Z) : truthy (lit (Codec.btoa (a :: l))) = true.
Proof. destruct l as [|b [|c r]]; reflexivity. Qed.

(** X19. The speech audio from the voice service to the hook: when the
    service answers with bytes, the handler answers 200 with their
    base64 text, from which the bytes can be decoded again, and
    [fetchVoiceAudio] returns that text with the format "mp3"; but when
    the service answers with no bytes at all, the handler still answers
    200 and [fetchVoiceAudio] throws "No audio in response". *)
Theorem fetchVoiceAudio_of_reply
    (res : Fetched) (bytes : list Z) (statusText rawText : jsstring) :
  ok (f_status res) = true ->
  Forall Codec.byte bytes ->
  JSON_parse rawText
  = Some (replyBody (voice_respond JSON_parse message (inr res) (inr bytes))) ->
  trim rawText <> [] ->
  let r := voice_respond JSON_parse message (inr res) (inr bytes) in
  replyStatus r = 200%Z /\
  Codec.atob (Codec.btoa bytes) = Some bytes /\
  fetchVoiceAudio JSON_parse ToString message (inr (deliver r statusText rawText))
  = match bytes with
    | [] => inl (Session.ErrorObject (lit "No audio in response"))
    | _ => inr (lit (Codec.btoa bytes), JStr (lit "mp3"))
    end.
Proof.
  intros Hok Hb Hp Ht. cbv zeta.
  assert (Hr : voice_respond JSON_parse message (inr res) (inr bytes)
               = {| replyStatus := 200;
                    replyBody := JObj [(lit "audio", JStr (lit (Codec.btoa bytes)));
                                       (lit "format", JStr (lit "mp3"))] |}).
  { unfold voice_respond. rewrite Hok. reflexivity. }
  rewrite Hr in *. cbn [replyBody] in Hp.
  split; [reflexivity|]. split; [apply CodecFacts.atob_btoa, Hb|].
  unfold fetchVoiceAudio, deliver. cbn [res_status res_rawText replyStatus].
  rewrite (parseOrThrow_parsed _ _ _ Hp Ht). change (ok 200) with true. cbn [negb].
  assert (Ha : read "audio" (Some (JObj [(lit "audio", JStr (lit (Codec.btoa bytes)));
                                         (lit "format", JStr (lit "mp3"))]))
               = Some (Some (JStr (lit (Codec.btoa bytes))))) by reflexivity.
  rewrite Ha. destruct bytes as [|a l].
  - reflexivity.
  - rewrite btoa_nonempty. reflexivity.
Qed.

End Engine.

Lemma fetchInterviewerQuestion_of_reply_witness :
  let r := interviewer_respond exampleParse plainToString plainMessage
             (inr {| f_status := 200; f_rawText := chatText |}) in
  let result := fetchInterviewerQuestion exampleParse plainToString plainMessage
                  (inr (deliver r [] questionText)) in
  result = inr (lit "Why was that?") /\
  replyStatus r = 200%Z /\
  replyBody r = JObj [(lit "question", JStr (lit "Why was that?"))] /\
  trim (lit "Why was that?") = lit "Why was that?".
Proof.
  cbv zeta.
  assert (Hp : exampleParse questionText
               = Some (replyBody (interviewer_respond exampleParse plainToString plainMessage
                                    (inr {| f_status := 200; f_rawText := chatText |}))))
    by (vm_compute; reflexivity).
  assert (Ht : trim questionText <> []) by (vm_compute; discriminate).
  pose proof (fetchInterviewerQuestion_of_reply exampleParse plainToString plainMessage
                (inr {| f_status := 200; f_rawText := chatText |}) [] questionText Hp Ht) as H.
  cbv zeta in H.
  assert (E : fetchInterviewerQuestion exampleParse plainToString plainMessage
                (inr (deliver (interviewer_respond exampleParse plainToString plainMessage
                                 (inr {| f_status := 200; f_rawText := chatText |}))
                        [] questionText))
              = inr (lit "Why was that?")) by (vm_compute; reflexivity).
  rewrite E in H. destruct H as (H1 & H2 & _ & H4). repeat split; assumption.
Defined.

Lemma fetchVoiceAudio_of_reply_witness :
  let r := voice_respond exampleParse plainMessage
             (inr {| f_status := 200; f_rawText := [] |}) (inr [73; 68; 51]%Z) in
  replyBody r = JObj [(lit "audio", JStr (lit "SUQz")); (lit "format", JStr (lit "mp3"))] /\
  fetchVoiceAudio exampleParse plainToString plainMessage (inr (deliver r [] audioText))
  = inr (lit "SUQz", JStr (lit "mp3")).
Proof.
  cbv zeta. split; [vm_compute; reflexivity|].
  assert (Hb : Forall Codec.byte [73; 68; 51]%Z)
    by (repeat constructor; unfold Codec.byte; lia).
  assert (Hp : exampleParse audioText
               = Some (replyBody (voice_respond exampleParse plainMessage
                                    (inr {| f_status := 200; f_rawText := [] |})
                                    (inr [73; 68; 51]%Z))))
    by (vm_compute; reflexivity).
  assert (Ht : trim audioText <> []) by (vm_compute; discriminate).
  pose proof (fetchVoiceAudio_of_reply exampleParse plainToString plainMessage
                {| f_status := 200; f_rawText := [] |} [73; 68; 51]%Z [] audioText
                eq_refl Hb Hp Ht) as H.
  cbv zeta in H. destruct H as (_ & _ & H). exact H.
Defined.

Lemma scribe_token_failure_message_witness :
  let res := {| f_status := 401; f_rawText := unauthorizedText |} in
  let r := scribe_token_respond exampleParse plainMessage (inr res) in
  replyStatus r = 500%Z /\
  replyBody r = JObj [(lit "error", JBool false)] /\
  fetchScribeToken exampleParse plainToString plainMessage (inr (deliver r [] errorFalseText))
  = inl (Session.ErrorObject (lit "Scribe token API failed (500)")).
Proof.
  cbv zeta.
  assert (Hok : ok 401 = false) by reflexivity.
  assert (Hd : read "detail" (Some (parseOrEmpty exampleParse unauthorizedText))
               = Some (Some (JStr (lit "Unauthorized")))) by (vm_compute; reflexivity).
  pose proof (scribe_token_failure_message exampleParse plainToString plainMessage
                {| f_status := 401; f_rawText := unauthorizedText |}
                (Some (JStr (lit "Unauthorized"))) [] errorFalseText Hok Hd) as H.
  cbv zeta in H. destruct H as (H1 & H2 & H3).
  split; [exact H1|]. split; [exact H2|].
  apply H3; [reflexivity | vm_compute; reflexivity | vm_compute; discriminate].
Defined.

Lemma reformat_respond_status_witness :
  reformat_respond exampleParse plainMessage
    (inr {| f_status := 429; f_rawText := rateLimitedText |})
  = {| replyStatus := 429;
       replyBody := JObj [(lit "error", JStr (lit "Rate limit exceeded"))] |} /\
  reformat_respond exampleParse plainMessage
    (inr {| f_status := 502; f_rawText := lit "<html>Bad Gateway</html>" |})
  = {| replyStatus := 500; replyBody := JObj [(lit "error", JStr (lit "Unexpected token"))] |}.
Proof.
  split.
  - pose proof (reformat_respond_status exampleParse plainMessage
                  {| f_status := 429; f_rawText := rateLimitedText |}) as H.
    cbv zeta in H. cbn [f_rawText f_status] in H.
    replace (exampleParse rateLimitedText)
      with (Some (JObj [(lit "error",
                         JObj [(lit "message", JStr (lit "Rate limit exceeded"))])])) in H
      by (vm_compute; reflexivity).
    destruct H as (H & _). specialize (H eq_refl).
    change ((200 <=? 429) && (429 <=? 599) && negb (429 =? 304))%Z with true in H.
    destruct H as (H1 & H2).
    destruct (reformat_respond exampleParse plainMessage
                (inr {| f_status := 429; f_rawText := rateLimitedText |})) as [c b] eqn:E.
    cbn [replyStatus replyBody] in H1, H2. rewrite H1, H2. reflexivity.
  - pose proof (reformat_respond_status exampleParse plainMessage
                  {| f_status := 502; f_rawText := lit "<html>Bad Gateway</html>" |}) as H.
    cbv zeta in H. cbn [f_rawText f_status] in H.
    replace (exampleParse (lit "<html>Bad Gateway</html>")) with (@None Json) in H
      by (vm_compute; reflexivity).
    exact H.
Defined.

End UpstreamFacts.

(** ** The development server, and a request from end to end *)

Module RouterFacts.
Import JsString Api JsStringFacts Upstream Client Router UpstreamFacts.

Lemma pathname_query path query :
  Forall (fun c => c <> 63%N) path -> pathname (path ++ 63%N :: query) = path.
Proof.
  induction 1 as [|c path Hc _ IH]; [reflexivity|].
  cbn [app pathname]. destruct (N.eqb_spec c 63); [contradiction|]. rewrite IH. reflexivity.
Qed.

Lemma pathname_plain path : Forall (fun c => c <> 63%N) path -> pathname path = path.
Proof.
  induction 1 as [|c path Hc _ IH]; [reflexivity|].
  cbn [pathname]. destruct (N.eqb_spec c 63); [contradiction|]. rewrite IH. reflexivity.
Qed.

Lemma eqb_neq (a b : jsstring) : a <> b -> eqb a b = false.
Proof. intros H. unfold eqb. apply bool_decide_eq_false_2, H. Qed.

Lemma eqb_true (a b : jsstring) : eqb a b = true -> a = b.
Proof. unfold eqb. apply bool_decide_eq_true. Qed.

Section Engine.

Variable JSON_parse : jsstring -> option Json.
Variable ToString : Json -> jsstring.
Variable message : Exception -> jsstring.
Variable base64Length : jsstring -> nat.

(** X20. The server looks at the part of the URL before the first question
    mark and at the method, and at nothing else: a query string changes
    no answer; a method other than GET and POST gets 404 "Not found" on
    every URL; and no URL is served under both GET and POST. *)
Theorem handleRequest_routing
    (thrown : jsstring) (env : Env) (method body : jsstring)
    (upstream : Session.Thrown + Fetched) (arrayBuffer : Session.Thrown + list Z) :
  let h := fun url => handleRequest JSON_parse ToString message base64Length thrown env
                        url method body upstream arrayBuffer in
  (forall path query, Forall (fun c => c <> 63%N) path ->
     h (path ++ 63%N :: query) = h path) /\
  (method <> lit "GET" -> method <> lit "POST" ->
     forall url, h url = errorReply "Not found" 404) /\
  (forall url, route url (lit "GET") = None \/ route url (lit "POST") = None).
Proof.
  cbv zeta. split; [|split].
  - intros path query Hp. unfold handleRequest, route.
    rewrite (pathname_query _ _ Hp), (pathname_plain _ Hp). reflexivity.
  - intros Hg Hp url. unfold handleRequest, route.
    rewrite (eqb_neq _ _ Hg), (eqb_neq _ _ Hp), !andb_false_r. reflexivity.
  - intros url. unfold route.
    change (eqb (lit "GET") (lit "POST")) with false.
    change (eqb (lit "POST") (lit "GET")) with false.
    change (eqb (lit "GET") (lit "GET")) with true.
    change (eqb (lit "POST") (lit "POST")) with true.
    rewrite !andb_false_r, !andb_true_r.
    destruct (eqb (pathname url) (lit "/api/voices")) eqn:E1.
    { right. apply eqb_true in E1. rewrite E1. reflexivity. }
    destruct (eqb (pathname url) (lit "/api/scribe-token")) eqn:E2.
    { right. apply eqb_true in E2. rewrite E2. reflexivity. }
    left. destruct (eqb (pathname url) (lit "/api/interviewer")); reflexivity.
Qed.

Lemma route_path (path : string) (url : jsstring) (e : Endpoint) :
  route (lit path) (lit "POST") = Some e ->
  pathname url = lit path ->
  pathname (lit path) = lit path ->
  route url (lit "POST") = Some e.
Proof. intros Hr Hu Hl. unfold route in *. rewrite Hl in Hr. rewrite Hu. exact Hr. Qed.

(** X21. A POST without a body, with both credentials configured: the
    interviewer, voice and transcribe handlers answer 400 "Invalid JSON
    in request body" without calling their service, and the reformat
    handler answers 500 with the message of the exception. *)
Theorem handleRequest_empty_body
    (thrown : jsstring) (env : Env) (query : jsstring)
    (upstream : Session.Thrown + Fetched) (arrayBuffer : Session.Thrown + list Z) :
  missing (OPENROUTER_API_KEY env) = false ->
  missing (ELEVENLABS_API_KEY env) = false ->
  let h := fun path : string =>
             handleRequest JSON_parse ToString message base64Length thrown env
               (lit path ++ query) (lit "POST") [] upstream arrayBuffer in
  (query = [] \/ exists q, query = 63%N :: q) ->
  h "/api/interviewer"%string = errorReply "Invalid JSON in request body" 400 /\
  h "/api/voice"%string = errorReply "Invalid JSON in request body" 400 /\
  h "/api/transcribe"%string = errorReply "Invalid JSON in request body" 400 /\
  h "/api/reformat"%string = {| replyStatus := 500; replyBody := JObj [(lit "error", JStr thrown)] |}.
Proof.
  intros Ho He. cbv zeta. intros Hq.
  assert (Hp : forall path : string,
            Forall (fun c => c <> 63%N) (lit path) -> pathname (lit path ++ query) = lit path).
  { intros path Hf. destruct Hq as [->|[q ->]].
    - rewrite app_nil_r. apply pathname_plain, Hf.
    - apply pathname_query, Hf. }
  assert (Hf : forall path : string,
            forallb (fun c => negb (c =? 63)%N) (lit path) = true ->
            Forall (fun c => c <> 63%N) (lit path)).
  { intros path H. apply Forall_forall. intros c Hc.
    rewrite forallb_forall in H. apply list_elem_of_In in Hc. specialize (H c Hc).
    apply negb_true_iff, N.eqb_neq in H. exact H. }
  unfold handleRequest, route, requestJson. cbn [truthy].
  rewrite (Hp "/api/interviewer"%string (Hf "/api/interviewer"%string eq_refl)).
  rewrite (Hp "/api/voice"%string (Hf "/api/voice"%string eq_refl)).
  rewrite (Hp "/api/transcribe"%string (Hf "/api/transcribe"%string eq_refl)).
  rewrite (Hp "/api/reformat"%string (Hf "/api/reformat"%string eq_refl)).
  unfold answer, handle, interviewer_POST, voice_POST, transcribe_POST, reformat_POST.
  rewrite Ho, He. repeat split.
Qed.

(** X22. A missing OpenRouter credential, from the server to the user: the
    server answers the hook's dialogue request with 500,
    [fetchInterviewerQuestion] throws an [Error] with the handler's
    message, and the hook ends the turn in status [error] showing
    "OPENROUTER_API_KEY is not configured"; the transcript keeps the
    user's entry and no effect is issued. *)
Theorem missing_credential_reaches_user
    (thrown : jsstring) (env : Env) (url body statusText rawText : jsstring)
    (upstream : Session.Thrown + Fetched) (arrayBuffer : Session.Thrown + list Z)
    (s : Session.Session) (k : nat) (nextWithUser : list Session.Message) :
  missing (OPENROUTER_API_KEY env) = true ->
  pathname url = lit "/api/interviewer" ->
  JSON_parse rawText
  = Some (replyBody (handleRequest JSON_parse ToString message base64Length thrown env
                       url (lit "POST") body upstream arrayBuffer)) ->
  trim rawText <> [] ->
  Session.pending s !! k = Some (Session.AwaitInterviewer nextWithUser) ->
  let r := handleRequest JSON_parse ToString message base64Length thrown env
             url (lit "POST") body upstream arrayBuffer in
  let result := fetchInterviewerQuestion JSON_parse ToString message
                  (inr (deliver r statusText rawText)) in
  let s' := Session.step s (Session.DialogueResponse k result) in
  replyStatus r = 500%Z /\
  result = inl (Session.ErrorObject (lit "OPENROUTER_API_KEY is not configured")) /\
  Session.status s' = Session.error /\
  Session.errorMessage s' = Some (lit "OPENROUTER_API_KEY is not configured") /\
  Session.isProcessingRef s' = false /\
  Session.transcriptRef s' = Session.transcriptRef s /\
  Session.effects s' = Session.effects s.
Proof.
  intros Hm Hu Hp Ht Hk. cbv zeta.
  assert (Hr : handleRequest JSON_parse ToString message base64Length thrown env
                 url (lit "POST") body upstream arrayBuffer
               = errorReply "OPENROUTER_API_KEY is not configured" 500).
  { unfold handleRequest, route. rewrite Hu.
    change (eqb (lit "/api/interviewer") (lit "/api/interviewer")) with true.
    change (eqb (lit "POST") (lit "POST")) with true. cbn [andb].
    unfold answer, handle, interviewer_POST. rewrite Hm. reflexivity. }
  rewrite Hr in *.
  assert (Hc : fetchInterviewerQuestion JSON_parse ToString message
                 (inr (deliver (errorReply "OPENROUTER_API_KEY is not configured" 500)
                         statusText rawText))
               = inl (Session.ErrorObject (lit "OPENROUTER_API_KEY is not configured"))).
  { unfold fetchInterviewerQuestion, deliver. cbn [res_status res_rawText replyStatus errorReply].
    rewrite (parseOrThrow_parsed _ _ _ _ Hp Ht). change (ok 500) with false. cbn [negb].
    unfold errorReply. cbn [replyBody]. rewrite throwErrorOr_string. reflexivity. }
  rewrite Hc. split; [reflexivity|]. split; [reflexivity|].
  cbn [Session.step]. rewrite Hk. repeat split.
Qed.

End Engine.

Lemma handleRequest_empty_body_witness :
  let h := fun path : string =>
             handleRequest exampleParse plainToString plainMessage (@List.length N)
               (lit "Unexpected end of JSON input") configured
               (lit path ++ lit "?debug=1") (lit "POST") []
               (inl Session.NotAnError) (inl Session.NotAnError) in
  h "/api/interviewer"%string = errorReply "Invalid JSON in request body" 400 /\
  h "/api/voice"%string = errorReply "Invalid JSON in request body" 400 /\
  h "/api/transcribe"%string = errorReply "Invalid JSON in request body" 400 /\
  h "/api/reformat"%string
  = {| replyStatus := 500;
       replyBody := JObj [(lit "error", JStr (lit "Unexpected end of JSON input"))] |}.
Proof.
  cbv zeta.
  apply (handleRequest_empty_body exampleParse plainToString plainMessage (@List.length N)
           (lit "Unexpected end of JSON input") configured (lit "?debug=1")
           (inl Session.NotAnError) (inl Session.NotAnError)).
  - reflexivity.
  - reflexivity.
  - right. eexists. reflexivity.
Defined.

Lemma missing_credential_reaches_user_witness :
  let r := handleRequest exampleParse plainToString plainMessage (@List.length N) []
             unconfigured (lit "/api/interviewer") (lit "POST") []
             (inl Session.NotAnError) (inl Session.NotAnError) in
  let result := fetchInterviewerQuestion exampleParse plainToString plainMessage
                  (inr (deliver r [] missingKeyText)) in
  let s' := Session.step Turns.awaitingReply (Session.DialogueResponse 12 result) in
  Session.status Turns.awaitingReply = Session.connected /\
  Session.status s' = Session.error /\
  Session.errorMessage s' = Some (lit "OPENROUTER_API_KEY is not configured") /\
  Session.transcriptRef s' = [{| Session.role := Session.user;
                                 Session.text := lit "I slept badly" |}].
Proof.
  cbv zeta.
  assert (Hm : missing (OPENROUTER_API_KEY unconfigured) = true) by reflexivity.
  assert (Hu : pathname (lit "/api/interviewer") = lit "/api/interviewer")
    by (vm_compute; reflexivity).
  assert (Hp : exampleParse missingKeyText
               = Some (replyBody
                   (handleRequest exampleParse plainToString plainMessage (@List.length N) []
                      unconfigured (lit "/api/interviewer") (lit "POST") []
                      (inl Session.NotAnError) (inl Session.NotAnError))))
    by (vm_compute; reflexivity).
  assert (Ht : trim missingKeyText <> []) by (vm_compute; discriminate).
  assert (Hk : Session.pending Turns.awaitingReply !! 12%nat
               = Some (Session.AwaitInterviewer
                         [{| Session.role := Session.user;
                             Session.text := lit "I slept badly" |}]))
    by (vm_compute; reflexivity).
  pose proof (missing_credential_reaches_user exampleParse plainToString plainMessage
                (@List.length N) [] unconfigured (lit "/api/interviewer") [] [] missingKeyText
                (inl Session.NotAnError) (inl Session.NotAnError)
                Turns.awaitingReply 12 _ Hm Hu Hp Ht Hk) as H.
  cbv zeta in H. destruct H as (_ & _ & H3 & H4 & _ & H6 & _).
  split; [vm_compute; reflexivity|]. split; [exact H3|]. split; [exact H4|].
  rewrite H6. vm_compute. reflexivity.
Defined.

End RouterFacts.
